(** * MQTT2Exist: the measurement normalization and update pipeline

    A shallow embedding of [mqtt2exist.py] and of its sibling
    [mqtt2exit.py], and the properties of the bridge's specification
    settled against them.

    - Python objects produced by [json.loads] are the inductive [pyval];
      a [dict] is a [gmap string pyval].
    - A Python [float] is an IEEE binary64 number: Rocq's primitive [float].
      Conversions that CPython rounds correctly ([float(int)], [int / int],
      [round(x, n)]) go through [SpecFloat], the executable specification
      of binary64 rounding.
    - A Python [str] is a [string]: a sequence of code points below 256.
    - Exceptions are values of [exn]; a function that may raise returns a
      [result].  Functions that log or talk to the network thread a
      [world] through the monad [M].
    - The libraries the scripts call ([json], [datetime], [zoneinfo],
      [requests]) are not part of the repository: they are the fields of
      a [Runtime] record that every function takes. *)

From Stdlib Require Import ZArith Floats Ascii String List Lia Bool.
From stdpp Require Import base option list gmap strings pretty.

Set Warnings "-inexact-float,-register-all".

Local Open Scope Z_scope.
Local Open Scope string_scope.

(** ** Exceptions and results *)

(** The exception classes the scripts can meet.  [ValueError] and
    [RuntimeError] carry the message the scripts give them; [LibError]
    stands for an exception raised inside a library. *)
Inductive exn : Type :=
| ValueError (msg : string)
| RuntimeError (msg : string)
| TypeError
| AttributeError
| OverflowError
| ZeroDivisionError
| LibError (cls : string).

Inductive result (A : Type) : Type :=
| Ok (a : A)
| Raise (e : exn).
Arguments Ok {A} a.
Arguments Raise {A} e.

#[global] Instance result_ret : MRet result := fun _ a => Ok a.
#[global] Instance result_bind : MBind result := fun _ _ f m =>
  match m with
  | Ok a => f a
  | Raise e => Raise e
  end.

Definition is_ok {A} (r : result A) : bool :=
  match r with Ok _ => true | Raise _ => false end.

(** ** Python objects *)

Inductive pyval : Type :=
| PyNone
| PyBool (b : bool)
| PyInt (z : Z)
| PyFloat (f : float)
| PyStr (s : string)
| PyList (l : list pyval)
| PyDict (m : gmap string pyval).

(** [bool(x)]: the truth value that [or] and [not] test. *)
Definition truthy (v : pyval) : bool :=
  match v with
  | PyNone => false
  | PyBool b => b
  | PyInt z => negb (Z.eqb z 0)
  | PyFloat f => negb (PrimFloat.eqb f 0)
  | PyStr s => negb (String.eqb s "")
  | PyList l => match l with [] => false | _ => true end
  | PyDict m => negb (bool_decide (m = ∅))
  end.

(** [a or b] *)
Definition py_or (a b : pyval) : pyval := if truthy a then a else b.

Definition is_None (v : pyval) : bool :=
  match v with PyNone => true | _ => false end.

(** [d.get(key, default)]: only a dict has the method. *)
Definition dict_get (d : pyval) (key : string) (dflt : pyval) : result pyval :=
  match d with
  | PyDict m => Ok (default dflt (m !! key))
  | _ => Raise AttributeError
  end.

(** ** Numbers *)

(** A finite binary64 value, or [OverflowError] where CPython raises it. *)
Definition finite_or_overflow (sf : spec_float) : result float :=
  match sf with
  | S754_infinity _ => Raise OverflowError
  | _ => Ok (SF2Prim sf)
  end.

(** The integer [n] with the sign bit [s], as an unrounded binary number. *)
Definition SF_of_int (s : bool) (n : Z) : spec_float :=
  match n with
  | Z0 => S754_zero s
  | Zpos p => S754_finite s p 0
  | Zneg p => S754_finite (negb s) p 0
  end.

(** [float(n)] for an [int]: the nearest double, ties to even;
    [OverflowError] when [n] is too large. *)
Definition int_to_float (n : Z) : result float :=
  finite_or_overflow (binary_normalize prec emax n 0 false).

(** [a / b] for two [int]s: the correctly rounded quotient. *)
Definition int_truediv (a b : Z) : result float :=
  if Z.eqb b 0 then Raise ZeroDivisionError
  else finite_or_overflow (SFdiv prec emax (SF_of_int false a) (SF_of_int false b)).

(** The integer nearest to [n / d], ties to even ([0 <= n], [0 < d]). *)
Definition round_half_even (n d : Z) : Z :=
  let q := n / d in
  match Z.compare (2 * (n mod d)) d with
  | Lt => q
  | Eq => if Z.even q then q else q + 1
  | Gt => q + 1
  end.

(** [round(x, ndigits)] for a [float] and [0 <= ndigits]: CPython prints
    the exact value of [x] with [ndigits] decimals, correctly rounded
    (ties to even), and reads the decimal back as the nearest double;
    infinities and NaN round to themselves. *)
Definition py_round (x : float) (ndigits : Z) : result float :=
  match Prim2SF x with
  | S754_finite s m e =>
      let scale := 10 ^ ndigits in
      let n :=
        if Z.leb 0 e then Zpos m * 2 ^ e * scale
        else round_half_even (Zpos m * scale) (2 ^ (- e)) in
      finite_or_overflow (SFdiv prec emax (SF_of_int s n) (SF_of_int false scale))
  | _ => Ok x
  end.

(** [float(x)].  A string is parsed by [float_of_str], the runtime's
    decimal parser; [None] there is Python's [ValueError]. *)
Definition py_float (float_of_str : string -> option float) (v : pyval) : result float :=
  match v with
  | PyBool b => Ok (if b then 1 else 0)%float
  | PyInt z => int_to_float z
  | PyFloat f => Ok f
  | PyStr s =>
      match float_of_str s with
      | Some f => Ok f
      | None => Raise (ValueError "could not convert string to float")
      end
  | PyNone | PyList _ | PyDict _ => Raise TypeError
  end.

(** [x / n] for a Python object [x] and the [int] [n]. *)
Definition py_truediv (x : pyval) (n : Z) : result float :=
  match x with
  | PyBool b => int_truediv (if b then 1 else 0) n
  | PyInt z => int_truediv z n
  | PyFloat f =>
      d ← int_to_float n;
      if PrimFloat.eqb d 0 then Raise ZeroDivisionError else Ok (f / d)%float
  | PyNone | PyStr _ | PyList _ | PyDict _ => Raise TypeError
  end.

(** ** Strings *)

(** Code points are below 256, so [str.lower] moves the letters A-Z and the
    Latin-1 capitals (U+00C0 to U+00DE, the multiplication sign apart). *)
Definition lower_char (c : ascii) : ascii :=
  let n := N_of_ascii c in
  if ((65 <=? n) && (n <=? 90) || (192 <=? n) && (n <=? 222) && negb (n =? 215))%N
  then ascii_of_N (n + 32) else c.

Fixpoint str_lower (s : string) : string :=
  match s with
  | EmptyString => EmptyString
  | String c s' => String (lower_char c) (str_lower s')
  end.

(** [s[i]] with Python's negative indices; [None] is [IndexError]. *)
Definition str_index (s : string) (i : Z) : option ascii :=
  let n := Z.of_nat (String.length s) in
  let j := if Z.ltb i 0 then n + i else i in
  if Z.ltb j 0 then None else String.get (Z.to_nat j) s.

(** The bound of a slice, clipped to the string as Python does. *)
Definition slice_bound (s : string) (i : Z) : nat :=
  let n := Z.of_nat (String.length s) in
  Z.to_nat (Z.min n (Z.max 0 (if Z.ltb i 0 then n + i else i))).

(** [s[:i]] *)
Definition str_slice_to (s : string) (i : Z) : string :=
  String.substring 0 (slice_bound s i) s.

(** [s[i:]] *)
Definition str_slice_from (s : string) (i : Z) : string :=
  let b := slice_bound s i in
  String.substring b (String.length s - b) s.

(** [c in "+-"] for a one-character string [c]. *)
Definition in_plus_minus (c : ascii) : bool :=
  (Ascii.eqb c "+" || Ascii.eqb c "-")%bool.

(** ** The outside world *)

(** One attribute update of the Exist API: [{"name": .., "date": .., "value": ..}]. *)
Record update : Type := Update {
  name : string;
  date : string;
  value : float;
}.

(** The call [requests.post(url, headers=.., json=.., timeout=..)]. *)
Record request : Type := Request {
  url : string;
  headers : list (string * string);
  json : list update;
  timeout : Z;
}.

(** What the scripts read of a [requests.Response]. *)
Record response : Type := Response {
  status_code : Z;
  text : string;
  json_body : result pyval;
}.

(** A message as paho hands it to [on_message]. *)
Record mqtt_msg : Type := MqttMsg {
  topic : string;
  payload : list Byte.byte;
}.

(** The library functions the scripts call.  [instant] is the reading of
    the wall clock at the time of a call; [requests_post] answers a request
    given the requests sent before it. *)
Record Runtime : Type := {
  float_of_str : string -> option float;
  int_of_str : string -> option Z;
  str_of : pyval -> string;
  decode_utf8_replace : list Byte.byte -> string;
  json_loads : string -> result pyval;
  instant : Type;
  tzinfo : Type;
  datetime : Type;
  ZoneInfo : string -> result tzinfo;
  datetime_now : instant -> tzinfo -> datetime;
  datetime_fromtimestamp : float -> tzinfo -> result datetime;
  datetime_fromisoformat : string -> result datetime;
  dt_tzinfo : datetime -> option tzinfo;
  dt_replace_tzinfo : datetime -> tzinfo -> datetime;
  dt_astimezone : datetime -> tzinfo -> result datetime;
  dt_strftime : datetime -> string -> string;
  requests_post : list request -> request -> result response;
}.

(** An argument of a logging call. *)
Inductive log_arg : Type :=
| AStr (s : string)
| AInt (z : Z)
| ABool (b : bool)
| AFloat (f : float)
| AExn (e : exn)
| AUpdates (us : list update)
| AVal (v : pyval).

Inductive log_level : Type := INFO | ERROR.

(** A call [logging.info(fmt, *args)] or [logging.error(fmt, *args)]. *)
Record log_record : Type := LogRecord {
  level : log_level;
  fmt : string;
  args : list log_arg;
}.

(** What a run leaves behind: the logging calls, the requests sent to the
    Exist API and the topics subscribed to, each in order. *)
Record world : Type := World {
  logged : list log_record;
  posted : list request;
  subscribed : list (string * Z);
}.

(** ** Effects: state and exceptions *)

Definition M (A : Type) : Type := world -> result A * world.

#[global] Instance M_ret : MRet M := fun _ a w => (Ok a, w).
#[global] Instance M_bind : MBind M := fun _ _ f m w =>
  match m w with
  | (Ok a, w') => f a w'
  | (Raise e, w') => (Raise e, w')
  end.

Definition raise {A} (e : exn) : M A := fun w => (Raise e, w).

Definition lift {A} (r : result A) : M A := fun w => (r, w).

(** [try: body / except Exception as e: handler e] *)
Definition try_except {A} (body : M A) (handler : exn -> M A) : M A := fun w =>
  match body w with
  | (Ok a, w') => (Ok a, w')
  | (Raise e, w') => handler e w'
  end.

Definition logging (lvl : log_level) (f : string) (a : list log_arg) : M unit := fun w =>
  (Ok tt, World (logged w ++ [LogRecord lvl f a]) (posted w) (subscribed w)).

Definition logging_info := logging INFO.
Definition logging_error := logging ERROR.

(** [requests.post]: the request goes out, then the reply (or the
    exception of the transport) comes back. *)
Definition post (rt : Runtime) (rq : request) : M response := fun w =>
  (requests_post rt (posted w) rq, World (logged w) (posted w ++ [rq]) (subscribed w)).

(** [client.subscribe(topic, qos)] *)
Definition subscribe (t : string) (qos : Z) : M unit := fun w =>
  (Ok tt, World (logged w) (posted w) (subscribed w ++ [(t, qos)])).

(** [client.loop_forever()], over the messages the broker delivers: each
    goes to the callback, and an exception that leaves the callback ends
    the loop. *)
Fixpoint loop_forever {I : Type} (on_message : I -> mqtt_msg -> M unit)
    (deliveries : list (I * mqtt_msg)) : M unit :=
  match deliveries with
  | [] => mret tt
  | (t, msg) :: rest => on_message t msg ;; loop_forever on_message rest
  end.

(** [os.getenv(name)] and [os.getenv(name, default)] *)
Definition getenv (environ : gmap string string) (k : string) : option string :=
  environ !! k.
Definition getenv_or (environ : gmap string string) (k dflt : string) : string :=
  default dflt (environ !! k).

(** [not s] for an optional string: unset and empty are both false. *)
Definition str_truthy (s : option string) : bool :=
  match s with
  | Some s => negb (String.eqb s "")
  | None => false
  end.

Definition EXIST_UPDATE_URL : string := "https://exist.io/api/2/attributes/update/".

(** A broker session as [main] sees it: what [client.connect] does (the
    return code of the CONNACK, or the exception it raises), and the
    messages delivered while the loop runs, each with the time of its
    arrival. *)
Record Session (rt : Runtime) : Type := {
  connect : result Z;
  deliveries : list (instant rt * mqtt_msg);
}.
Arguments connect {rt} s.
Arguments deliveries {rt} s.

(** A parsed measurement: [(date_str, weight_kg, fat_fraction_or_none)]. *)
Definition record : Type := string * float * option float.

(** [s.lower()] where [s] may be any object: only a [str] has the method. *)
Definition lower_method (v : pyval) : result string :=
  match v with
  | PyStr s => Ok (str_lower s)
  | _ => Raise AttributeError
  end.

(** [a or <rest>]: the rest is evaluated only when [a] is false. *)
Definition or_else (a : pyval) (rest : result pyval) : result pyval :=
  if truthy a then Ok a else rest.

(** [str(x)]: a [str] is itself, another object is printed by the runtime. *)
Definition py_str (rt : Runtime) (v : pyval) : string :=
  match v with
  | PyStr s => s
  | _ => str_of rt v
  end.

(** The test of [to_local_date] on a string:
    [len(s) >= 5 and (s[-5] in "+-") and (s[-3] != ":")]. *)
Definition offset_without_colon (s : string) : bool :=
  (Nat.leb 5 (String.length s)
   && match str_index s (-5) with Some c => in_plus_minus c | None => false end
   && match str_index s (-3) with Some c => negb (Ascii.eqb c ":") | None => false end)%bool.

(** [s[:-2] + ":" + s[-2:]] *)
Definition insert_colon (s : string) : string :=
  str_slice_to s (-2) +:+ ":" +:+ str_slice_from s (-2).

(** * mqtt2exist.py *)
Module Mqtt2Exist.

(** The module-level configuration, read from the environment at import. *)
Record Config : Type := {
  MQTT_HOST : string;
  MQTT_PORT : Z;
  MQTT_TOPIC : string;
  MQTT_USERNAME : option string;
  MQTT_PASSWORD : option string;
  MQTT_TLS : bool;
  EXIST_TOKEN : option string;
  ATTR_WEIGHT : string;
  ATTR_FAT : string;
  LOCAL_TZ : string;
}.

Definition load_config (rt : Runtime) (environ : gmap string string) : result Config :=
  port ← match int_of_str rt (getenv_or environ "MQTT_PORT" "1883") with
         | Some p => Ok p
         | None => Raise (ValueError "invalid literal for int()")
         end;
  Ok {| MQTT_HOST := getenv_or environ "MQTT_HOST" "localhost";
        MQTT_PORT := port;
        MQTT_TOPIC := getenv_or environ "MQTT_TOPIC" "openScaleSync/measurements/last";
        MQTT_USERNAME := getenv environ "MQTT_USERNAME";
        MQTT_PASSWORD := getenv environ "MQTT_PASSWORD";
        MQTT_TLS := String.eqb (str_lower (getenv_or environ "MQTT_TLS" "false")) "true";
        EXIST_TOKEN := getenv environ "EXIST_TOKEN";
        ATTR_WEIGHT := getenv_or environ "ATTR_WEIGHT" "weight";
        ATTR_FAT := getenv_or environ "ATTR_FAT" "body_fat";
        LOCAL_TZ := getenv_or environ "LOCAL_TZ" "America/Toronto" |}.

Section Program.
Context (rt : Runtime) (cfg : Config).

Definition lb_to_kg (lb : pyval) : result float :=
  f ← py_float (float_of_str rt) lb;
  Ok (f * 0.45359237)%float.

Definition to_local_date (now : instant rt) (date_like : pyval) : result string :=
  tz ← ZoneInfo rt (LOCAL_TZ cfg);
  match date_like with
  | PyNone => Ok (dt_strftime rt (datetime_now rt now tz) "%Y-%m-%d")
  | PyBool _ | PyInt _ | PyFloat _ =>
      t ← py_float (float_of_str rt) date_like;
      dt ← datetime_fromtimestamp rt t tz;
      Ok (dt_strftime rt dt "%Y-%m-%d")
  | _ =>
      let s := py_str rt date_like in
      let s := if offset_without_colon s then insert_colon s else s in
      dt ← datetime_fromisoformat rt s;
      let dt := match dt_tzinfo rt dt with
                | None => dt_replace_tzinfo rt dt tz
                | Some _ => dt
                end in
      dt ← dt_astimezone rt dt tz;
      Ok (dt_strftime rt dt "%Y-%m-%d")
  end.

(** [d.get("date") or d.get("timestamp") or d.get("ts")] *)
Definition date_field (d : pyval) : result pyval :=
  a ← dict_get d "date" PyNone;
  or_else a (b ← dict_get d "timestamp" PyNone;
             or_else b (dict_get d "ts" PyNone)).

(** [(d.get("unit") or "kg").lower()] *)
Definition unit_field (d : pyval) : result string :=
  u ← dict_get d "unit" PyNone;
  lower_method (py_or u (PyStr "kg")).

(** The [# Date] block of [parse_payload]. *)
Definition resolve_date (now : instant rt) (d : pyval) : result string :=
  date_like ← date_field d;
  to_local_date now date_like.

(** The [# Weight] block: the weight in kilograms, not yet rounded. *)
Definition resolve_weight (d : pyval) : result float :=
  w ← dict_get d "weight" PyNone;
  weight ← dict_get d "weight_kg" w;
  if is_None weight then Raise (ValueError "Payload missing 'weight' or 'weight_kg'")
  else
    unit ← unit_field d;
    if String.eqb unit "kg" then py_float (float_of_str rt) weight
    else w ← py_float (float_of_str rt) weight; lb_to_kg (PyFloat w).

(** The [# Body fat] block. *)
Definition resolve_fat (d : pyval) : result (option float) :=
  fat_pct_val ← dict_get d "fat" PyNone;
  if negb (is_None fat_pct_val) then
    f ← py_float (float_of_str rt) fat_pct_val;
    let fat_fraction := (f / 100)%float in
    fat_fraction ← py_round fat_fraction 2;
    Ok (Some fat_fraction)
  else Ok None.

(** [parse_payload], after [json.loads]. *)
Definition parse_dict (now : instant rt) (d : pyval) : result record :=
  date_str ← resolve_date now d;
  weight_kg ← resolve_weight d;
  fat_fraction ← resolve_fat d;
  weight_kg ← py_round weight_kg 2;
  Ok (date_str, weight_kg, fat_fraction).

Definition parse_payload (now : instant rt) (payload : string) : result record :=
  d ← json_loads rt payload;
  parse_dict now d.

(** The list [updates] that [post_exist] builds and posts. *)
Definition updates_of (date_str : string) (weight_kg : float)
    (fat_fraction : option float) : list update :=
  let updates := [Update (ATTR_WEIGHT cfg) date_str weight_kg] in
  match fat_fraction with
  | Some f => updates ++ [Update (ATTR_FAT cfg) date_str f]
  | None => updates
  end.

Definition post_exist (date_str : string) (weight_kg : float)
    (fat_fraction : option float) : M unit :=
  if negb (str_truthy (EXIST_TOKEN cfg)) then
    raise (RuntimeError "EXIST_TOKEN is not set. Please export it or define it in your .env.")
  else
    let updates := updates_of date_str weight_kg fat_fraction in
    logging_info "Posting to Exist.io: %s" [AUpdates updates] ;;
    r ← post rt (Request EXIST_UPDATE_URL
                   [("Authorization", "Bearer " +:+ default "None" (EXIST_TOKEN cfg));
                    ("Content-Type", "application/json")]
                   updates 30);
    if negb (Z.eqb (status_code r) 200 || Z.eqb (status_code r) 202) then
      raise (RuntimeError ("Exist update failed " +:+ pretty (status_code r)
                           +:+ ": " +:+ str_slice_to (text r) 300))
    else
      try_except
        (j ← lift (json_body r);
         logging_info "Exist response: %s" [AVal j])
        (fun _ => logging_info "Exist response (non-JSON): %s"
                    [AStr (str_slice_to (text r) 300)]).

Definition on_connect (rc : Z) : M unit :=
  if Z.eqb rc 0 then
    logging_info "Connected to MQTT %s:%s; subscribing to %s"
      [AStr (MQTT_HOST cfg); AInt (MQTT_PORT cfg); AStr (MQTT_TOPIC cfg)] ;;
    subscribe (MQTT_TOPIC cfg) 1
  else logging_error "MQTT connect failed with rc=%s" [AInt rc].

(** The body of the [try] in [on_message]. *)
Definition process (now : instant rt) (payload : string) : M unit :=
  '(date_str, weight_kg, fat_fraction) ← lift (parse_payload now payload);
  logging_info "Parsed payload -> date=%s, weight_kg=%.2f, fat=%s"
    [AStr date_str; AFloat weight_kg;
     match fat_fraction with None => AStr "None" | Some f => AFloat f end] ;;
  post_exist date_str weight_kg fat_fraction.

Definition on_message (now : instant rt) (msg : mqtt_msg) : M unit :=
  let payload := decode_utf8_replace rt (payload msg) in
  logging_info "MQTT message on %s: %s" [AStr (topic msg); AStr payload] ;;
  try_except (process now payload)
    (fun e => logging_error "Processing failed: %s" [AExn e]).

Definition main (session : Session rt) : M unit :=
  if negb (str_truthy (EXIST_TOKEN cfg)) then
    raise (RuntimeError "EXIST_TOKEN is not configured. Set it in .env or environment variables.")
  else
    (if str_truthy (MQTT_USERNAME cfg)
     then logging_info "Using MQTT username authentication" []
     else mret tt) ;;
    (if MQTT_TLS cfg then logging_info "Enabling MQTT TLS" [] else mret tt) ;;
    logging_info "Connecting to MQTT broker %s:%s (TLS=%s)"
      [AStr (MQTT_HOST cfg); AInt (MQTT_PORT cfg); ABool (MQTT_TLS cfg)] ;;
    rc ← lift (connect session);
    on_connect rc ;;
    loop_forever on_message (deliveries session).

End Program.

(** The script run as [__main__]: the module-level configuration, then
    [main()]. *)
Definition script (rt : Runtime) (environ : gmap string string)
    (session : Session rt) : M unit :=
  cfg ← lift (load_config rt environ);
  main rt cfg session.

End Mqtt2Exist.

(** * mqtt2exit.py *)
Module Mqtt2Exit.

(** What the script reads from the environment; the rest is constant. *)
Record Config : Type := {
  MQTT_USERNAME : option string;
  MQTT_PASSWORD : option string;
  MQTT_TLS : bool;
  EXIST_TOKEN : option string;
}.

Definition MQTT_HOST : string := "localhost".
Definition MQTT_PORT : Z := 1883.
Definition MQTT_TOPIC : string := "openScaleSync/measurements/last".
Definition ATTR_WEIGHT : string := "weight".
Definition ATTR_FAT : string := "body_fat".
Definition LOCAL_TZ : string := "America/Toronto".

Definition load_config (environ : gmap string string) : Config :=
  {| MQTT_USERNAME := getenv environ "MQTT_USER";
     MQTT_PASSWORD := getenv environ "MQTT_PASSWORD";
     MQTT_TLS := String.eqb (str_lower (getenv_or environ "MQTT_TLS" "false")) "true";
     EXIST_TOKEN := getenv environ "EXIST_TOKEN" |}.

Section Program.
Context (rt : Runtime) (cfg : Config).

Definition lb_to_kg (lb : pyval) : result float :=
  f ← py_float (float_of_str rt) lb;
  Ok (f * 0.45359237)%float.

Definition to_local_date (now : instant rt) (date_like : pyval) : result string :=
  tz ← ZoneInfo rt LOCAL_TZ;
  match date_like with
  | PyNone => Ok (dt_strftime rt (datetime_now rt now tz) "%Y-%m-%d")
  | PyBool _ | PyInt _ | PyFloat _ =>
      t ← py_float (float_of_str rt) date_like;
      dt ← datetime_fromtimestamp rt t tz;
      Ok (dt_strftime rt dt "%Y-%m-%d")
  | _ =>
      let s := py_str rt date_like in
      let s := if offset_without_colon s then insert_colon s else s in
      dt ← datetime_fromisoformat rt s;
      let dt := match dt_tzinfo rt dt with
                | None => dt_replace_tzinfo rt dt tz
                | Some _ => dt
                end in
      tz' ← ZoneInfo rt LOCAL_TZ;
      dt ← dt_astimezone rt dt tz';
      Ok (dt_strftime rt dt "%Y-%m-%d")
  end.

(** [d.get("date") or d.get("timestamp") or d.get("ts")] *)
Definition date_field (d : pyval) : result pyval :=
  a ← dict_get d "date" PyNone;
  or_else a (b ← dict_get d "timestamp" PyNone;
             or_else b (dict_get d "ts" PyNone)).

(** [(d.get("unit") or "kg").lower()] *)
Definition unit_field (d : pyval) : result string :=
  u ← dict_get d "unit" PyNone;
  lower_method (py_or u (PyStr "kg")).

(** The date line of [parse_payload]. *)
Definition resolve_date (now : instant rt) (d : pyval) : result string :=
  date_like ← date_field d;
  to_local_date now date_like.

(** The weight lines: the weight in kilograms, not yet rounded. *)
Definition resolve_weight (d : pyval) : result float :=
  w ← dict_get d "weight" PyNone;
  weight ← dict_get d "weight_kg" w;
  if is_None weight then Raise (ValueError "Payload missing 'weight' or 'weight_kg'")
  else
    unit ← unit_field d;
    if String.eqb unit "kg" then py_float (float_of_str rt) weight
    else lb_to_kg weight.

(** The three [fat_pct] lines: the fraction, not yet rounded. *)
Definition resolve_fat (d : pyval) : result (option float) :=
  fat_pct ← dict_get d "fat" PyNone;
  fat_pct ← py_truediv fat_pct 100;
  let fat_pct := PyFloat fat_pct in
  if is_None fat_pct then Ok None
  else f ← py_float (float_of_str rt) fat_pct; Ok (Some f).

(** [parse_payload], after [json.loads]; the tuple is built left to right. *)
Definition parse_dict (now : instant rt) (d : pyval) : result record :=
  date_str ← resolve_date now d;
  weight_kg ← resolve_weight d;
  fat_pct ← resolve_fat d;
  weight_kg ← py_round weight_kg 2;
  fat_pct ← match fat_pct with
            | None => Ok None
            | Some f => r ← py_round f 2; Ok (Some r)
            end;
  Ok (date_str, weight_kg, fat_pct).

Definition parse_payload (now : instant rt) (payload : string) : result record :=
  d ← json_loads rt payload;
  parse_dict now d.

(** The list [updates] that [post_exist] builds and posts. *)
Definition updates_of (date_str : string) (weight_kg : float)
    (fat_pct : option float) : list update :=
  let updates := [Update ATTR_WEIGHT date_str weight_kg] in
  match fat_pct with
  | Some f => updates ++ [Update ATTR_FAT date_str f]
  | None => updates
  end.

Definition post_exist (date_str : string) (weight_kg : float)
    (fat_pct : option float) : M unit :=
  if negb (str_truthy (EXIST_TOKEN cfg)) then
    raise (RuntimeError "Set EXIST_TOKEN (OAuth2 Bearer with write scope).")
  else
    let updates := updates_of date_str weight_kg fat_pct in
    r ← post rt (Request EXIST_UPDATE_URL
                   [("Authorization", "Bearer " +:+ default "None" (EXIST_TOKEN cfg));
                    ("Content-Type", "application/json")]
                   updates 30);
    if negb (Z.eqb (status_code r) 200 || Z.eqb (status_code r) 202) then
      raise (RuntimeError ("Exist update failed " +:+ pretty (status_code r)
                           +:+ ": " +:+ str_slice_to (text r) 300))
    else
      j ← lift (json_body r);
      logging_info "Exist response: %s" [AVal j].

Definition on_connect (rc : Z) : M unit :=
  if Z.eqb rc 0 then
    logging_info "Connected to MQTT; subscribing %s" [AStr MQTT_TOPIC] ;;
    subscribe MQTT_TOPIC 1
  else logging_error "MQTT connect rc=%s" [AInt rc].

(** The body of the [try] in [on_message]. *)
Definition process (now : instant rt) (payload : string) : M unit :=
  '(date_str, weight_kg, fat_pct) ← lift (parse_payload now payload);
  post_exist date_str weight_kg fat_pct.

Definition on_message (now : instant rt) (msg : mqtt_msg) : M unit :=
  let payload := decode_utf8_replace rt (payload msg) in
  logging_info "MQTT %s: %s" [AStr (topic msg); AStr payload] ;;
  try_except (process now payload)
    (fun e => logging_error "Processing failed: %s" [AExn e]).

(** [username_pw_set] and [tls_set] only prepare the client. *)
Definition main (session : Session rt) : M unit :=
  rc ← lift (connect session);
  on_connect rc ;;
  loop_forever on_message (deliveries session).

End Program.

(** The script run as [__main__]. *)
Definition script (rt : Runtime) (environ : gmap string string)
    (session : Session rt) : M unit :=
  main rt (load_config environ) session.

End Mqtt2Exit.

(** * The vocabulary of the properties *)

(** An offset in the basic format: a sign and four digits, [+hhmm]. *)
Definition offset_basic (sg h1 h2 m1 m2 : ascii) : string :=
  String sg (String h1 (String h2 (String m1 (String m2 "")))).

(** The same offset in the extended format, [+hh:mm]. *)
Definition offset_extended (sg h1 h2 m1 m2 : ascii) : string :=
  String sg (String h1 (String h2 (String ":" (String m1 (String m2 ""))))).

Definition is_digit (c : ascii) : bool :=
  ((48 <=? N_of_ascii c)%N && (N_of_ascii c <=? 57)%N)%bool.

(** [d.get(key)] on a dict. *)
Definition field (m : gmap string pyval) (key : string) : pyval :=
  default PyNone (m !! key).

(** The value of [a or b or c] for the three date fields of a dict. *)
Definition first_truthy_date (m : gmap string pyval) : pyval :=
  py_or (field m "date") (py_or (field m "timestamp") (field m "ts")).

(** [d.get("weight_kg", d.get("weight"))] on a dict. *)
Definition weight_field (m : gmap string pyval) : pyval :=
  default (field m "weight") (m !! "weight_kg").

(** A number between 0 and 100, the range of a percentage. *)
Definition percent (v : pyval) : bool :=
  match v with
  | PyInt z => Z.leb 0 z && Z.leb z 100
  | PyFloat x => PrimFloat.leb 0 x && PrimFloat.leb x 100
  | _ => false
  end.

(** The exception both scripts raise for a payload without a weight. *)
Definition missing_weight : exn := ValueError "Payload missing 'weight' or 'weight_kg'".

(** The world after the first logging call of mqtt2exist's [on_message]. *)
Definition exist_received (rt : Runtime) (msg : mqtt_msg) (wd : world) : world :=
  snd (logging_info "MQTT message on %s: %s"
         [AStr (topic msg); AStr (decode_utf8_replace rt (payload msg))] wd).

(** The world after the first logging call of mqtt2exit's [on_message]. *)
Definition exit_received (rt : Runtime) (msg : mqtt_msg) (wd : world) : world :=
  snd (logging_info "MQTT %s: %s"
         [AStr (topic msg); AStr (decode_utf8_replace rt (payload msg))] wd).

(** The world after the logging call of the [except] branch. *)
Definition failure_logged (e : exn) (wd : world) : world :=
  snd (logging_error "Processing failed: %s" [AExn e] wd).

(** The double of a positive integer [p] below 2^53, with the sign [s]: the
    mantissa is shifted to 53 digits. *)
Definition canon (s : bool) (p : positive) : spec_float :=
  match 53 - Zpos (digits2_pos p) with
  | Zpos k => S754_finite s (Pos.iter xO p k) (Zneg k)
  | _ => S754_finite s p 0
  end.

(** The mantissa of the double 100.0, which is [100 * 2^46] with the
    exponent -46. *)
Definition hundred_m : positive := 7036874417766400.
Definition two46 : Z := 70368744177664.

(** * A runtime to run the scripts on

    A small stand-in for the libraries, enough to evaluate the functions
    on the payloads of the specification: the clock reads a fixed day, the
    ISO parser wants [YYYY-MM-DDTHH:MM] with an optional [+HH:MM] offset
    (and, as Python up to 3.10, refuses an offset without its colon), and
    the Exist API accepts every update. *)
Module Fixture.

Definition dq : string := String (ascii_of_nat 34) "".
(** [q s] is [s] between double quotes. *)
Definition q (s : string) : string := dq +:+ s +:+ dq.

Definition d_spec : gmap string pyval :=
  {[ "date" := PyStr "2025-11-04T07:11-0500"; "weight" := PyFloat 186.5;
     "unit" := PyStr "lb"; "fat" := PyFloat 24.22 ]}.
Definition payload_spec : string :=
  "{" +:+ q "date" +:+ ":" +:+ q "2025-11-04T07:11-0500" +:+ "," +:+ q "weight"
  +:+ ":186.5," +:+ q "unit" +:+ ":" +:+ q "lb" +:+ "," +:+ q "fat" +:+ ":24.22}".

Definition d_weight_only : gmap string pyval := {[ "weight" := PyFloat 84.75 ]}.
Definition payload_weight_only : string := "{" +:+ q "weight" +:+ ":84.75}".

Definition d_no_weight : gmap string pyval := {[ "fat" := PyFloat 24.22 ]}.
Definition payload_no_weight : string := "{" +:+ q "fat" +:+ ":24.22}".

Definition d_stone : gmap string pyval :=
  {[ "weight" := PyInt 80; "unit" := PyStr "stone"; "fat" := PyFloat 24.22 ]}.
Definition payload_stone : string :=
  "{" +:+ q "weight" +:+ ":80," +:+ q "unit" +:+ ":" +:+ q "stone" +:+ ","
  +:+ q "fat" +:+ ":24.22}".

Definition d_epoch : gmap string pyval :=
  {[ "timestamp" := PyInt 0; "weight" := PyInt 80 ]}.
Definition payload_epoch : string :=
  "{" +:+ q "timestamp" +:+ ":0," +:+ q "weight" +:+ ":80}".

Definition d_huge_fat : gmap string pyval :=
  {[ "weight" := PyInt 80; "fat" := PyInt (10 ^ 309) ]}.

Definition loads (s : string) : result pyval :=
  if String.eqb s payload_spec then Ok (PyDict d_spec)
  else if String.eqb s payload_weight_only then Ok (PyDict d_weight_only)
  else if String.eqb s payload_no_weight then Ok (PyDict d_no_weight)
  else if String.eqb s payload_stone then Ok (PyDict d_stone)
  else if String.eqb s payload_epoch then Ok (PyDict d_epoch)
  else Raise (ValueError "Expecting value").

Definition digit_at (s : string) (i : nat) : bool :=
  match String.get i s with Some c => is_digit c | None => false end.
Definition char_at (s : string) (i : nat) (c : ascii) : bool :=
  match String.get i s with Some c' => Ascii.eqb c c' | None => false end.

(** [YYYY-MM-DDTHH:MM], then nothing or [+HH:MM] / [-HH:MM]. *)
Definition iso_shape (s : string) : bool :=
  forallb (digit_at s) [0; 1; 2; 3; 5; 6; 8; 9; 11; 12; 14; 15]%nat
  && char_at s 4 "-" && char_at s 7 "-" && char_at s 10 "T" && char_at s 13 ":"
  && (Nat.eqb (String.length s) 16
      || Nat.eqb (String.length s) 22
         && match String.get 16 s with Some c => in_plus_minus c | None => false end
         && forallb (digit_at s) [17; 18; 20; 21]%nat && char_at s 19 ":").

(** A [datetime] is its calendar date and whether it carries a zone. *)
Definition fromisoformat (s : string) : result (string * bool) :=
  if iso_shape s then Ok (String.substring 0 10 s, Nat.eqb (String.length s) 22)
  else Raise (ValueError "Invalid isoformat string").

Definition runtime : Runtime :=
  {| float_of_str := fun _ => None;
     int_of_str := fun s => if String.eqb s "1883" then Some 1883 else None;
     str_of := fun _ => "<object>";
     decode_utf8_replace := String.string_of_list_byte;
     json_loads := loads;
     instant := string;
     tzinfo := string;
     datetime := string * bool;
     ZoneInfo := fun key => Ok key;
     datetime_now := fun today _ => (today, true);
     datetime_fromtimestamp := fun t _ =>
       if PrimFloat.eqb t 0 then Ok ("1969-12-31", true)
       else Raise OverflowError;
     datetime_fromisoformat := fromisoformat;
     dt_tzinfo := fun dt => if snd dt then Some "" else None;
     dt_replace_tzinfo := fun dt _ => (fst dt, true);
     dt_astimezone := fun dt _ => Ok dt;
     dt_strftime := fun dt _ => fst dt;
     requests_post := fun _ _ => Ok (Response 200 "{}" (Ok (PyDict ∅))) |}.

(** The same runtime with an Exist API that answers 500 to every update. *)
Definition runtime_rejecting : Runtime :=
  {| float_of_str := float_of_str runtime;
     int_of_str := int_of_str runtime;
     str_of := str_of runtime;
     decode_utf8_replace := decode_utf8_replace runtime;
     json_loads := json_loads runtime;
     instant := instant runtime;
     tzinfo := tzinfo runtime;
     datetime := datetime runtime;
     ZoneInfo := ZoneInfo runtime;
     datetime_now := datetime_now runtime;
     datetime_fromtimestamp := datetime_fromtimestamp runtime;
     datetime_fromisoformat := datetime_fromisoformat runtime;
     dt_tzinfo := dt_tzinfo runtime;
     dt_replace_tzinfo := dt_replace_tzinfo runtime;
     dt_astimezone := dt_astimezone runtime;
     dt_strftime := dt_strftime runtime;
     requests_post := fun _ _ =>
       Ok (Response 500 "Internal Server Error" (Raise (ValueError "Expecting value"))) |}.

Definition cfg : Mqtt2Exist.Config :=
  {| Mqtt2Exist.MQTT_HOST := "localhost";
     Mqtt2Exist.MQTT_PORT := 1883;
     Mqtt2Exist.MQTT_TOPIC := "openScaleSync/measurements/last";
     Mqtt2Exist.MQTT_USERNAME := None;
     Mqtt2Exist.MQTT_PASSWORD := None;
     Mqtt2Exist.MQTT_TLS := false;
     Mqtt2Exist.EXIST_TOKEN := Some "token";
     Mqtt2Exist.ATTR_WEIGHT := "weight";
     Mqtt2Exist.ATTR_FAT := "body_fat";
     Mqtt2Exist.LOCAL_TZ := "America/Toronto" |}.

Definition cfg_exit : Mqtt2Exit.Config :=
  {| Mqtt2Exit.MQTT_USERNAME := None;
     Mqtt2Exit.MQTT_PASSWORD := None;
     Mqtt2Exit.MQTT_TLS := false;
     Mqtt2Exit.EXIST_TOKEN := Some "token" |}.

Definition today : string := "2025-11-06".
Definition w0 : world := World [] [] [].

(** A message on the default topic. *)
Definition message (text : string) : mqtt_msg :=
  MqttMsg "openScaleSync/measurements/last" (String.list_byte_of_string text).

(** The broker accepts the connection and delivers one message. *)
Definition session (text : string) : Session runtime :=
  {| connect := Ok 0;
     deliveries := [(today : instant runtime, message text)] |}.

End Fixture.

(** * The vocabulary of the properties of the pipeline *)

(** The request [post_exist] sends for a list of updates. *)
Definition update_request (token : option string) (updates : list update) : request :=
  Request EXIST_UPDATE_URL
    [("Authorization", "Bearer " +:+ default "None" token);
     ("Content-Type", "application/json")]
    updates 30.

(** [r.status_code in (200, 202)] *)
Definition accepted (r : response) : bool :=
  Z.eqb (status_code r) 200 || Z.eqb (status_code r) 202.

(** The exception [post_exist] raises for a reply that is not accepted. *)
Definition update_failed (r : response) : exn :=
  RuntimeError ("Exist update failed " +:+ pretty (status_code r) +:+ ": "
                +:+ str_slice_to (text r) 300).

(** The keys that [parse_payload] looks up. *)
Definition payload_keys : list string :=
  ["date"; "timestamp"; "ts"; "weight"; "weight_kg"; "unit"; "fat"].

(** The environment variables that mqtt2exit.py reads. *)
Definition exit_environ_keys : list string :=
  ["MQTT_USER"; "MQTT_PASSWORD"; "MQTT_TLS"; "EXIST_TOKEN"].

(** [wd'] is [wd] after some more logging calls and at most [n] more
    requests, with the subscriptions of [wd]. *)
Definition grows (n : nat) (wd wd' : world) : Prop :=
  (exists rqs, posted wd' = (posted wd ++ rqs)%list /\ (List.length rqs <= n)%nat)
  /\ (exists recs, logged wd' = (logged wd ++ recs)%list)
  /\ subscribed wd' = subscribed wd.

Definition M_grows {A : Type} (n : nat) (c : M A) : Prop :=
  forall wd, grows n wd (snd (c wd)).


(** More payloads and runtimes to run the scripts on. *)
Module Cases.

(** The fixture with another JSON decoder, float parser and Exist API. *)
Definition runtime_with (loads : string -> result pyval)
    (floats : string -> option float)
    (api : list request -> request -> result response) : Runtime :=
  {| float_of_str := floats;
     int_of_str := int_of_str Fixture.runtime;
     str_of := str_of Fixture.runtime;
     decode_utf8_replace := decode_utf8_replace Fixture.runtime;
     json_loads := loads;
     instant := instant Fixture.runtime;
     tzinfo := tzinfo Fixture.runtime;
     datetime := datetime Fixture.runtime;
     ZoneInfo := ZoneInfo Fixture.runtime;
     datetime_now := datetime_now Fixture.runtime;
     datetime_fromtimestamp := datetime_fromtimestamp Fixture.runtime;
     datetime_fromisoformat := datetime_fromisoformat Fixture.runtime;
     dt_tzinfo := dt_tzinfo Fixture.runtime;
     dt_replace_tzinfo := dt_replace_tzinfo Fixture.runtime;
     dt_astimezone := dt_astimezone Fixture.runtime;
     dt_strftime := dt_strftime Fixture.runtime;
     requests_post := api |}.

(** A JSON array, a string where a weight is expected, and a date that is
    no ISO string. *)
Definition payload_array : string := "[1, 2]".
Definition d_weight_text : gmap string pyval := {[ "weight" := PyStr "heavy" ]}.
Definition payload_weight_text : string :=
  "{" +:+ Fixture.q "weight" +:+ ":" +:+ Fixture.q "heavy" +:+ "}".

Definition loads (s : string) : result pyval :=
  if String.eqb s payload_array then Ok (PyList [PyInt 1; PyInt 2])
  else if String.eqb s payload_weight_text then Ok (PyDict d_weight_text)
  else Fixture.loads s.

(** A float parser that knows one literal. *)
Definition floats (s : string) : option float :=
  if String.eqb s "84.75" then Some 84.75%float else None.

(** An Exist API that accepts every update and answers with a page that
    is not JSON. *)
Definition api_html : list request -> request -> result response :=
  fun _ _ => Ok (Response 200 "<html>ok</html>" (Raise (ValueError "Expecting value"))).

(** An Exist API that is unreachable. *)
Definition api_down : list request -> request -> result response :=
  fun _ _ => Raise (LibError "requests.exceptions.ConnectionError").

Definition runtime : Runtime :=
  runtime_with loads floats (requests_post Fixture.runtime).
Definition runtime_html : Runtime :=
  runtime_with loads floats api_html.
Definition runtime_down : Runtime :=
  runtime_with loads floats api_down.


(** A configuration without a token. *)
Definition cfg_no_token : Mqtt2Exist.Config :=
  {| Mqtt2Exist.MQTT_HOST := "localhost";
     Mqtt2Exist.MQTT_PORT := 1883;
     Mqtt2Exist.MQTT_TOPIC := "openScaleSync/measurements/last";
     Mqtt2Exist.MQTT_USERNAME := None;
     Mqtt2Exist.MQTT_PASSWORD := None;
     Mqtt2Exist.MQTT_TLS := false;
     Mqtt2Exist.EXIST_TOKEN := None;
     Mqtt2Exist.ATTR_WEIGHT := "weight";
     Mqtt2Exist.ATTR_FAT := "body_fat";
     Mqtt2Exist.LOCAL_TZ := "America/Toronto" |}.

Definition cfg_exit_no_token : Mqtt2Exit.Config := Mqtt2Exit.load_config ∅.

(** The broker delivers two messages, or refuses the connection. *)
Definition session_two (rt : Runtime) (t : instant rt) : Session rt :=
  {| connect := Ok 0;
     deliveries := [(t, Fixture.message Fixture.payload_no_weight);
                    (t, Fixture.message Fixture.payload_spec)] |}.

Definition session_refused (rt : Runtime) (t : instant rt) : Session rt :=
  {| connect := Ok 5;
     deliveries := [] |}.

Definition session_unreachable (rt : Runtime) : Session rt :=
  {| connect := Raise (LibError "ConnectionRefusedError");
     deliveries := [] |}.

End Cases.

(** * Checks of the model *)

(** Sanity checks of the numeric model against CPython's answers. *)
Example py_round_half_even :
  py_round 0.125 2 = Ok 0.12%float /\ py_round 0.375 2 = Ok 0.38%float /\
  py_round 2.675 2 = Ok 2.67%float /\ py_round (-0.00001) 2 = Ok neg_zero /\
  py_round 1.7976931348623157e308 2 = Ok 1.7976931348623157e308%float.
Proof. vm_compute. repeat split; reflexivity. Qed.

Example int_truediv_examples :
  int_truediv 24 100 = Ok 0.24%float /\ int_truediv 0 (-100) = Ok neg_zero /\
  int_truediv 1 0 = Raise ZeroDivisionError /\
  int_to_float (2 ^ 53 + 1) = Ok 9007199254740992%float.
Proof. vm_compute. repeat split; reflexivity. Qed.

Example str_examples :
  str_lower "Kg" = "kg" /\ str_index "abcdef" (-5) = Some "b"%char /\
  str_slice_to "abcdef" (-2) = "abcd" /\ str_slice_from "abcdef" (-2) = "ef" /\
  str_slice_from "a" (-2) = "a" /\ str_index "abc" (-5) = None.
Proof. vm_compute. repeat split; reflexivity. Qed.

(** The end-to-end example of the specification. *)
Example fixture_end_to_end :
  Mqtt2Exist.parse_payload Fixture.runtime Fixture.cfg Fixture.today Fixture.payload_spec
  = Ok ("2025-11-04", 84.59, Some 0.24)%float.
Proof. vm_compute. reflexivity. Qed.

(** * Strings: indices from the end *)

Section StringFacts.

Lemma length_append (p t : string) :
  String.length (p +:+ t) = (String.length p + String.length t)%nat.
Proof. induction p as [|c p IH]; simpl; [reflexivity | now rewrite IH]. Qed.

Lemma get_append_r (p t : string) (k : nat) :
  String.get (String.length p + k) (p +:+ t) = String.get k t.
Proof. induction p as [|c p IH]; simpl; [reflexivity | exact IH]. Qed.

Lemma substring_append_l (p t : string) (k : nat) :
  String.substring 0 (String.length p + k) (p +:+ t) = p +:+ String.substring 0 k t.
Proof. induction p as [|c p IH]; simpl; [reflexivity | now rewrite IH]. Qed.

Lemma substring_append_r (p t : string) (k n : nat) :
  String.substring (String.length p + k) n (p +:+ t) = String.substring k n t.
Proof. induction p as [|c p IH]; simpl; [reflexivity | exact IH]. Qed.

(** [s[-k]] of [s = p + t] lies in [t] when [t] has at least [k] characters. *)
Lemma str_index_from_end (p t : string) (k : nat) :
  (0 < k <= String.length t)%nat ->
  str_index (p +:+ t) (- Z.of_nat k) = String.get (String.length t - k) t.
Proof.
  intros Hk. unfold str_index. rewrite length_append.
  destruct (Z.ltb_spec (- Z.of_nat k) 0) as [_|?]; [|lia].
  destruct (Z.ltb_spec (Z.of_nat (String.length p + String.length t) + - Z.of_nat k) 0)
    as [?|_]; [lia|].
  replace (Z.to_nat _) with (String.length p + (String.length t - k))%nat by lia.
  apply get_append_r.
Qed.

Lemma slice_bound_from_end (p t : string) (k : nat) :
  (0 < k <= String.length t)%nat ->
  slice_bound (p +:+ t) (- Z.of_nat k) = (String.length p + (String.length t - k))%nat.
Proof.
  intros Hk. unfold slice_bound. rewrite length_append.
  destruct (Z.ltb_spec (- Z.of_nat k) 0) as [_|?]; lia.
Qed.

Lemma str_slice_to_from_end (p t : string) (k : nat) :
  (0 < k <= String.length t)%nat ->
  str_slice_to (p +:+ t) (- Z.of_nat k)
  = p +:+ String.substring 0 (String.length t - k) t.
Proof.
  intros Hk. unfold str_slice_to. rewrite slice_bound_from_end by exact Hk.
  apply substring_append_l.
Qed.

Lemma str_slice_from_from_end (p t : string) (k : nat) :
  (0 < k <= String.length t)%nat ->
  str_slice_from (p +:+ t) (- Z.of_nat k)
  = String.substring (String.length t - k) k t.
Proof.
  intros Hk. unfold str_slice_from. rewrite slice_bound_from_end by exact Hk.
  rewrite length_append.
  replace (_ + _ - _)%nat with k by lia.
  apply substring_append_r.
Qed.

Lemma append_assoc (a b c : string) : (a +:+ b) +:+ c = a +:+ (b +:+ c).
Proof.
  induction a as [|x a IH]; [reflexivity|].
  change (String x ((a +:+ b) +:+ c) = String x (a +:+ (b +:+ c))).
  now rewrite IH.
Qed.

End StringFacts.

Section OffsetNormalization.
Context (p : string) (sg h1 h2 m1 m2 : ascii).

Lemma offset_basic_detected :
  in_plus_minus sg = true -> is_digit h2 = true ->
  offset_without_colon (p +:+ offset_basic sg h1 h2 m1 m2) = true.
Proof.
  intros Hs Hd. unfold offset_without_colon.
  rewrite length_append.
  change (-5) with (- Z.of_nat 5). change (-3) with (- Z.of_nat 3).
  rewrite !str_index_from_end by (simpl; lia). simpl String.get.
  cbv iota beta. rewrite Hs.
  replace (Ascii.eqb h2 ":") with false.
  - simpl String.length. now rewrite Nat.add_comm.
  - symmetry. apply Ascii.eqb_neq. intros ->. discriminate Hd.
Qed.

Lemma insert_colon_basic :
  insert_colon (p +:+ offset_basic sg h1 h2 m1 m2)
  = p +:+ offset_extended sg h1 h2 m1 m2.
Proof.
  unfold insert_colon. change (-2) with (- Z.of_nat 2).
  rewrite str_slice_to_from_end, str_slice_from_from_end by (simpl; lia).
  simpl. now rewrite append_assoc.
Qed.

Lemma offset_extended_kept :
  offset_without_colon (p +:+ offset_extended sg h1 h2 m1 m2) = false.
Proof.
  unfold offset_without_colon.
  change (-5) with (- Z.of_nat 5). change (-3) with (- Z.of_nat 3).
  rewrite !str_index_from_end by (simpl; lia). simpl String.get.
  cbv iota beta. rewrite Ascii.eqb_refl. apply andb_false_r.
Qed.

End OffsetNormalization.

(** * The monads compute *)

Lemma bind_Ok {A B} (a : A) (f : A -> result B) : (Ok a ≫= f) = f a.
Proof. reflexivity. Qed.

Lemma bind_Raise {A B} (e : exn) (f : A -> result B) : (Raise e ≫= f) = Raise e.
Proof. reflexivity. Qed.

Lemma bind_inv_Ok {A B} (r : result A) (f : A -> result B) (b : B) :
  r ≫= f = Ok b -> exists a, r = Ok a /\ f a = Ok b.
Proof. destruct r as [a|e]; [intros H; exists a; auto | discriminate]. Qed.

Lemma dict_get_field (m : gmap string pyval) (k : string) :
  dict_get (PyDict m) k PyNone = Ok (field m k).
Proof. reflexivity. Qed.

Create Rewrite HintDb py.
#[local] Hint Rewrite @bind_Ok @bind_Raise dict_get_field : py.

(** * Binary64: integers below 2^53 *)

Lemma digits2_pos_size (p : positive) : digits2_pos p = Pos.size p.
Proof. induction p; simpl; congruence. Qed.

Lemma digits2_pos_iter_xO (p k : positive) :
  digits2_pos (Pos.iter xO p k) = (digits2_pos p + k)%positive.
Proof.
  induction k using Pos.peano_ind.
  - simpl. lia.
  - rewrite Pos.iter_succ. simpl. rewrite IHk. lia.
Qed.

Lemma Zpos_iter_xO (p k : positive) : Zpos (Pos.iter xO p k) = Zpos p * 2 ^ Zpos k.
Proof.
  induction k using Pos.peano_ind.
  - simpl. lia.
  - rewrite Pos.iter_succ, Pos2Z.inj_succ, Z.pow_succ_r by lia.
    rewrite Pos2Z.inj_xO, IHk. lia.
Qed.

(** Bounds of the number of binary digits. *)
Lemma digits2_pos_bounds (p : positive) :
  2 ^ (Zpos (digits2_pos p) - 1) <= Zpos p < 2 ^ Zpos (digits2_pos p).
Proof.
  assert (S : forall d : positive, 2 ^ Zpos d = 2 * 2 ^ (Zpos d - 1)).
  { intros d. rewrite <- Z.pow_succ_r by lia. f_equal. lia. }
  induction p as [p IH|p IH|]; simpl digits2_pos;
    [rewrite Pos2Z.inj_xI | rewrite Pos2Z.inj_xO | simpl; lia];
    rewrite Pos2Z.inj_succ;
    replace (Z.succ (Zpos (digits2_pos p)) - 1) with (Zpos (digits2_pos p)) by lia;
    rewrite Z.pow_succ_r by lia; rewrite S in IH |- *; lia.
Qed.

Lemma Zdigits2_le (m : Z) (n : Z) : 0 <= n -> 0 <= m < 2 ^ n -> Zdigits2 m <= n.
Proof.
  intros Hn [H0 Hm]. destruct m as [|p|p]; simpl; [lia | | lia].
  pose proof (digits2_pos_bounds p) as [Hl _].
  destruct (Z.le_gt_cases (Zpos (digits2_pos p)) n) as [|Hgt]; [assumption|].
  assert (2 ^ n <= 2 ^ (Zpos (digits2_pos p) - 1)) by (apply Z.pow_le_mono_r; lia).
  lia.
Qed.

Lemma fexp_eq (e : Z) : fexp prec emax e = Z.max (e - 53) (-1074).
Proof. reflexivity. Qed.

Lemma shr_fexp_noop (m e : Z) (l : location) :
  fexp prec emax (Zdigits2 m + e) - e <= 0 ->
  shr_fexp prec emax m e l = (shr_record_of_loc m l, e).
Proof.
  intros H. unfold shr_fexp, shr.
  destruct (fexp prec emax (Zdigits2 m + e) - e); [reflexivity | lia | reflexivity].
Qed.

(** A mantissa of 53 digits with an exponent in range is already rounded. *)
Lemma binary_round_aux_canonical (s : bool) (mz : positive) (ez : Z) :
  Zpos (digits2_pos mz) = 53 -> -1074 <= ez <= 971 ->
  binary_round_aux prec emax s (Zpos mz) ez loc_Exact = S754_finite s mz ez.
Proof.
  intros Hd He. unfold binary_round_aux.
  assert (N : fexp prec emax (Zdigits2 (Zpos mz) + ez) - ez <= 0).
  { simpl Zdigits2. rewrite Hd, fexp_eq. lia. }
  rewrite (shr_fexp_noop _ _ _ N). simpl shr_m. simpl loc_of_shr_record.
  simpl round_nearest_even. rewrite (shr_fexp_noop _ _ _ N). simpl shr_m.
  destruct (Z.leb_spec ez (emax - prec)) as [_|H]; [reflexivity|].
  unfold emax, prec in H. lia.
Qed.

Lemma binary_round_small (s : bool) (p : positive) :
  Zpos (digits2_pos p) <= 53 ->
  binary_round prec emax s p 0 = canon s p.
Proof.
  intros Hd. unfold binary_round, shl_align, canon.
  rewrite fexp_eq.
  replace (Z.max (Zpos (digits2_pos p) + 0 - 53) (-1074))
    with (Zpos (digits2_pos p) - 53) by lia.
  destruct (53 - Zpos (digits2_pos p)) as [|k|k] eqn:Hk.
  - replace (Zpos (digits2_pos p) - 53) with 0 by lia. simpl Z.sub. cbv iota.
    apply binary_round_aux_canonical; lia.
  - replace (Zpos (digits2_pos p) - 53) with (Zneg k) by lia. simpl Z.sub. cbv iota.
    apply binary_round_aux_canonical; [|lia].
    rewrite digits2_pos_iter_xO. lia.
  - lia.
Qed.

Lemma div_eucl_div_mod (a b : Z) : Z.div_eucl a b = (a / b, a mod b).
Proof. unfold Z.div, Z.modulo. now destruct (Z.div_eucl a b). Qed.

Lemma div_eucl_scale (a b c : Z) :
  0 < b -> 0 < c -> Z.div_eucl (a * c) (b * c) = (a / b, (a mod b) * c).
Proof.
  intros Hb Hc. rewrite div_eucl_div_mod.
  rewrite Z.div_mul_cancel_r by lia. rewrite Z.mul_mod_distr_r by lia. reflexivity.
Qed.

Lemma new_location_even_scale (nb k c : Z) :
  0 < c -> new_location_even (nb * c) (k * c) = new_location_even nb k.
Proof.
  intros Hc. unfold new_location_even.
  destruct (Z.eqb_spec k 0) as [->|Hk].
  - reflexivity.
  - destruct (Z.eqb_spec (k * c) 0) as [E|_]; [nia|].
    f_equal. rewrite Z.mul_assoc. symmetry. apply Zmult_compare_compat_r. lia.
Qed.

Lemma Prim2SF_100 : Prim2SF 100 = S754_finite false hundred_m (-46).
Proof. vm_compute. reflexivity. Qed.

(** The quotient by 100 of an integer below 2^53, from its 53-digit form
    and from the integer itself: the same digits reach the rounding. *)
Lemma SFdiv_core_100 (p : positive) (k : Z) (mz : positive) :
  0 <= k -> Zpos (digits2_pos p) = 53 - k ->
  Zpos mz = Zpos p * 2 ^ k -> Zpos (digits2_pos mz) = 53 ->
  SFdiv_core_binary prec emax (Zpos mz) (- k) (Zpos hundred_m) (-46)
  = SFdiv_core_binary prec emax (Zpos p) 0 100 0.
Proof.
  intros Hk Hd Hm Hdz. unfold SFdiv_core_binary.
  change (Zdigits2 (Zpos mz)) with (Zpos (digits2_pos mz)).
  change (Zdigits2 (Zpos p)) with (Zpos (digits2_pos p)).
  change (Zdigits2 (Zpos hundred_m)) with 53.
  change (Zdigits2 100) with 7.
  rewrite Hd, Hdz.
  rewrite !fexp_eq.
  replace (Z.min (Z.max (53 + - k - (53 + -46) - 53) (-1074)) (- k - -46)) with (-7 - k) by lia.
  replace (Z.min (Z.max (53 - k + 0 - (7 + 0) - 53) (-1074)) (0 - 0)) with (-7 - k) by lia.
  replace (- k - -46 - (-7 - k)) with 53 by lia.
  replace (0 - 0 - (-7 - k)) with (7 + k) by lia.
  destruct (7 + k) as [|s|s] eqn:Hs; [lia| |lia]. rewrite <- Hs.
  rewrite !Z.shiftl_mul_pow2 by lia.
  rewrite Hm.
  replace (Zpos p * 2 ^ k * 2 ^ 53) with (Zpos p * 2 ^ (7 + k) * two46).
  2:{ rewrite Z.pow_add_r by lia. unfold two46. change (2 ^ 53) with (2 ^ 7 * 70368744177664). lia. }
  change (Zpos hundred_m) with (100 * two46).
  rewrite div_eucl_scale by (unfold two46; lia).
  rewrite div_eucl_div_mod.
  f_equal. unfold new_location.
  change (Z.even (100 * two46)) with true. change (Z.even 100) with true. cbv iota.
  apply new_location_even_scale. unfold two46. lia.
Qed.

(** Shifting right keeps a mantissa between 0 and where it started. *)
Lemma iter_pos_invariant {A} (f : A -> A) (P : A -> Prop) :
  (forall x, P x -> P (f x)) -> forall n x, P x -> P (SpecFloat.iter_pos f n x).
Proof.
  intros Hf. induction n as [n IH|n IH|]; intros x Hx; simpl; auto.
Qed.

Lemma shr_1_bounded (B : Z) (mrs : shr_record) :
  0 <= shr_m mrs <= B -> 0 <= shr_m (shr_1 mrs) <= B.
Proof.
  destruct mrs as [m r s]. simpl.
  destruct m as [|[p|p|]|[p|p|]]; simpl; lia.
Qed.

Lemma shr_fexp_bounded (m e : Z) (l : location) :
  0 <= m ->
  0 <= shr_m (fst (shr_fexp prec emax m e l)) <= m
  /\ snd (shr_fexp prec emax m e l) = Z.max e (fexp prec emax (Zdigits2 m + e)).
Proof.
  intros Hm. unfold shr_fexp, shr.
  assert (H0 : 0 <= shr_m (shr_record_of_loc m l) <= m).
  { destruct l as [|[]]; simpl; lia. }
  destruct (fexp prec emax (Zdigits2 m + e) - e) as [|n|n] eqn:Hn; simpl fst; simpl snd.
  - split; [exact H0 | lia].
  - split; [|lia].
    apply (iter_pos_invariant shr_1 (fun x => 0 <= shr_m x <= m)); [|exact H0].
    intros x. apply shr_1_bounded.
  - split; [exact H0 | lia].
Qed.

Lemma round_nearest_even_bounded (m : Z) (l : location) :
  m <= round_nearest_even m l <= m + 1.
Proof. destruct l as [|[]]; simpl; try lia. destruct (Z.even m); lia. Qed.

(** A quotient of at most 54 digits with an exponent at most 0 does not
    round to an infinity. *)
Lemma binary_round_aux_finite (s : bool) (m e : Z) (l : location) :
  0 <= m < 2 ^ 54 -> e <= 0 ->
  forall s', binary_round_aux prec emax s m e l <> S754_infinity s'.
Proof.
  intros Hm He s'. unfold binary_round_aux.
  destruct (shr_fexp_bounded m e l) as [Hb1 He1]; [lia|].
  destruct (shr_fexp prec emax m e l) as [mrs1 e1]. simpl fst in Hb1. simpl snd in He1.
  pose proof (round_nearest_even_bounded (shr_m mrs1) (loc_of_shr_record mrs1)) as Hr.
  set (m2 := round_nearest_even (shr_m mrs1) (loc_of_shr_record mrs1)) in *.
  destruct (shr_fexp_bounded m2 e1 loc_Exact) as [Hb2 He2]; [lia|].
  destruct (shr_fexp prec emax m2 e1 loc_Exact) as [mrs2 e2].
  simpl fst in Hb2. simpl snd in He2.
  assert (D1 : Zdigits2 m <= 54) by (apply Zdigits2_le; lia).
  assert (D2 : Zdigits2 m2 <= 55).
  { apply Zdigits2_le; [lia|]. change (2 ^ 55) with (2 * 2 ^ 54). lia. }
  rewrite fexp_eq in He1, He2.
  destruct (shr_m mrs2) as [|p|p]; try discriminate.
  destruct (Z.leb_spec e2 (emax - prec)) as [_|H]; [discriminate|].
  unfold emax, prec in H. lia.
Qed.

Lemma canon_valid (s : bool) (p : positive) :
  Zpos (digits2_pos p) <= 53 -> valid_binary (canon s p) = true.
Proof.
  intros Hd. unfold canon.
  destruct (53 - Zpos (digits2_pos p)) as [|k|k] eqn:Hk; [| |lia];
    unfold SpecFloat.valid_binary, bounded, canonical_mantissa;
    rewrite ?digits2_pos_iter_xO, fexp_eq;
    apply andb_true_intro; (split; [apply Z.eqb_eq | apply Z.leb_le]); unfold emax, prec; lia.
Qed.

(** Below 2^53 the quotient of the doubles is the quotient of the integers. *)
Lemma SFdiv_canon_100 (s : bool) (p : positive) :
  Zpos (digits2_pos p) <= 53 ->
  SFdiv prec emax (canon s p) (Prim2SF 100)
  = SFdiv prec emax (S754_finite s p 0) (S754_finite false 100 0).
Proof.
  intros Hd. rewrite Prim2SF_100. unfold canon.
  destruct (53 - Zpos (digits2_pos p)) as [|k|k] eqn:Hk; [| |lia]; unfold SFdiv.
  - assert (H : SFdiv_core_binary prec emax (Zpos p) (- 0) (Zpos hundred_m) (-46)
                 = SFdiv_core_binary prec emax (Zpos p) 0 100 0)
      by (apply SFdiv_core_100; lia).
    change (- 0) with 0 in H. now rewrite H.
  - assert (H : SFdiv_core_binary prec emax (Zpos (Pos.iter xO p k)) (- Zpos k)
                   (Zpos hundred_m) (-46)
                 = SFdiv_core_binary prec emax (Zpos p) 0 100 0).
    { apply SFdiv_core_100; [lia | lia | apply Zpos_iter_xO |].
      rewrite digits2_pos_iter_xO. lia. }
    change (- Zpos k) with (Zneg k) in H. now rewrite H.
Qed.

Lemma SFdiv_int_100_finite (s : bool) (p : positive) :
  Zpos (digits2_pos p) <= 60 ->
  forall s', SFdiv prec emax (S754_finite s p 0) (S754_finite false 100 0) <> S754_infinity s'.
Proof.
  intros Hd s'. unfold SFdiv, SFdiv_core_binary.
  change (Zdigits2 (Zpos p)) with (Zpos (digits2_pos p)).
  change (Zdigits2 (Zpos 100)) with 7. rewrite fexp_eq.
  set (d := Zpos (digits2_pos p)) in *.
  assert (Hd0 : 0 < d) by (unfold d; lia).
  replace (Z.min (Z.max (d + 0 - (7 + 0) - 53) (-1074)) (0 - 0)) with (d - 60) by lia.
  replace (0 - 0 - (d - 60)) with (60 - d) by lia.
  pose proof (digits2_pos_bounds p) as [_ Hp]. fold d in Hp.
  assert (Zpos p * 2 ^ (60 - d) < 2 ^ 60).
  { replace (2 ^ 60) with (2 ^ d * 2 ^ (60 - d)) by (rewrite <- Z.pow_add_r by lia; f_equal; lia).
    apply Z.mul_lt_mono_pos_r; [apply Z.pow_pos_nonneg; lia | exact Hp]. }
  assert (Q : 0 <= Zpos p * 2 ^ (60 - d) / 100 < 2 ^ 54).
  { split.
    - apply Z.div_pos; [|lia]. apply Z.mul_nonneg_nonneg; [lia|]. apply Z.pow_nonneg; lia.
    - apply Z.div_lt_upper_bound; [lia|]. change (100 * 2 ^ 54) with (100 * 18014398509481984).
      change (2 ^ 60) with 1152921504606846976 in H. lia. }
  destruct (60 - d) as [|n|n] eqn:Hn; [| |lia].
  - rewrite Z.mul_1_r in Q. rewrite div_eucl_div_mod.
    apply binary_round_aux_finite; [exact Q | lia].
  - rewrite <- Hn in Q |- *.
    rewrite Z.shiftl_mul_pow2 by lia. rewrite div_eucl_div_mod.
    apply binary_round_aux_finite; [exact Q | lia].
Qed.

Lemma finite_or_overflow_Prim2SF (f : float) :
  (forall s, Prim2SF f <> S754_infinity s) -> finite_or_overflow (Prim2SF f) = Ok f.
Proof.
  intros H. unfold finite_or_overflow.
  destruct (Prim2SF f) eqn:E;
    try (rewrite <- E, SF2Prim_Prim2SF; reflexivity).
  exfalso. exact (H _ eq_refl).
Qed.

Lemma small_int_truediv_100_signed (s : bool) (p : positive) :
  Zpos (digits2_pos p) <= 53 ->
  (finite_or_overflow (binary_round prec emax s p 0) ≫= fun f => Ok (f / 100)%float)
  = finite_or_overflow (SFdiv prec emax (S754_finite s p 0) (S754_finite false 100 0)).
Proof.
  intros Hd. rewrite binary_round_small by exact Hd.
  assert (Hc : finite_or_overflow (canon s p) = Ok (SF2Prim (canon s p))).
  { unfold canon. destruct (53 - Zpos (digits2_pos p)); reflexivity. }
  rewrite Hc, bind_Ok.
  pose proof (div_spec (SF2Prim (canon s p)) 100) as Hdiv.
  rewrite Prim2SF_SF2Prim in Hdiv by (apply canon_valid; exact Hd).
  unfold SF64div in Hdiv. rewrite SFdiv_canon_100 in Hdiv by exact Hd.
  pose proof (SFdiv_int_100_finite s p ltac:(lia)) as Hfin.
  rewrite <- Hdiv in Hfin |- *.
  symmetry. apply finite_or_overflow_Prim2SF. exact Hfin.
Qed.

(** [float(z) / 100.0] is [z / 100] for an integer that a double holds
    exactly: the quotient of the doubles and the quotient of the integers
    are rounded once, from the same digits. *)
Lemma small_int_truediv (z : Z) :
  - 2 ^ 53 <= z <= 2 ^ 53 ->
  (int_to_float z ≫= fun f => Ok (f / 100)%float) = int_truediv z 100.
Proof.
  intros Hz.
  assert (D : forall p, Zpos p < 2 ^ 53 -> Zpos (digits2_pos p) <= 53).
  { intros p Hp. pose proof (digits2_pos_bounds p) as [Hl _].
    destruct (Z.le_gt_cases (Zpos (digits2_pos p)) 53) as [|Hgt]; [assumption|].
    assert (2 ^ 53 <= 2 ^ (Zpos (digits2_pos p) - 1)) by (apply Z.pow_le_mono_r; lia).
    lia. }
  destruct z as [|p|p].
  - vm_compute. reflexivity.
  - destruct (Z.eq_dec (Zpos p) (2 ^ 53)) as [E|N].
    + rewrite E. vm_compute. reflexivity.
    + apply (small_int_truediv_100_signed false p). apply D. lia.
  - destruct (Z.eq_dec (Zpos p) (2 ^ 53)) as [E|N].
    + replace (Zneg p) with (- 2 ^ 53) by lia. vm_compute. reflexivity.
    + apply (small_int_truediv_100_signed true p). apply D. lia.
Qed.

Lemma small_int_to_float_ok (z : Z) :
  - 2 ^ 53 <= z <= 2 ^ 53 -> exists f, int_to_float z = Ok f.
Proof.
  intros Hz. pose proof (small_int_truediv z Hz) as H.
  destruct (int_to_float z) as [f|e]; [eauto|].
  exfalso. rewrite bind_Raise in H.
  assert (F : forall s p, Zpos (digits2_pos p) <= 53 ->
            is_ok (finite_or_overflow
                     (SFdiv prec emax (S754_finite s p 0) (S754_finite false 100 0))) = true).
  { intros s p Hd. pose proof (SFdiv_int_100_finite s p ltac:(lia)) as Hf.
    unfold finite_or_overflow. destruct (SFdiv _ _ _ _); try reflexivity.
    exfalso. exact (Hf _ eq_refl). }
  assert (D : forall p, Zpos p < 2 ^ 53 -> Zpos (digits2_pos p) <= 53).
  { intros p Hp. pose proof (digits2_pos_bounds p) as [Hl _].
    destruct (Z.le_gt_cases (Zpos (digits2_pos p)) 53) as [|Hgt]; [assumption|].
    assert (2 ^ 53 <= 2 ^ (Zpos (digits2_pos p) - 1)) by (apply Z.pow_le_mono_r; lia).
    lia. }
  destruct z as [|p|p].
  - vm_compute in H. discriminate H.
  - destruct (Z.eq_dec (Zpos p) (2 ^ 53)) as [E|N].
    + rewrite E in H. vm_compute in H. discriminate H.
    + specialize (F false p (D p ltac:(lia))).
      change (int_truediv (Zpos p) 100)
        with (finite_or_overflow
                (SFdiv prec emax (S754_finite false p 0) (S754_finite false 100 0))) in H.
      rewrite <- H in F. discriminate F.
  - destruct (Z.eq_dec (Zpos p) (2 ^ 53)) as [E|N].
    + replace (Zneg p) with (- 2 ^ 53) in H by lia. vm_compute in H. discriminate H.
    + specialize (F true p (D p ltac:(lia))).
      change (int_truediv (Zneg p) 100)
        with (finite_or_overflow
                (SFdiv prec emax (S754_finite true p 0) (S754_finite false 100 0))) in H.
      rewrite <- H in F. discriminate F.
Qed.

(** * Binary64: [round(x, 2)] is total *)

(** Shifting an exact multiple of [2^n] right by [n] loses nothing. *)
Lemma shr_1_double (M : Z) :
  0 <= M -> shr_1 (Build_shr_record (2 * M) false false) = Build_shr_record M false false.
Proof. intros H. destruct M as [|p|p]; [reflexivity | reflexivity | lia]. Qed.

Lemma iter_shr_1_exact (n : positive) (M : Z) :
  0 <= M ->
  SpecFloat.iter_pos shr_1 n (Build_shr_record (M * 2 ^ Zpos n) false false)
  = Build_shr_record M false false.
Proof.
  assert (P : forall a b, 0 <= a -> 0 <= a * 2 ^ Zpos b).
  { intros a b Ha. apply Z.mul_nonneg_nonneg; [exact Ha | apply Z.pow_nonneg; lia]. }
  revert M. induction n as [n IH|n IH|]; intros M HM.
  - change (SpecFloat.iter_pos shr_1 n~1 ?x)
      with (SpecFloat.iter_pos shr_1 n (SpecFloat.iter_pos shr_1 n (shr_1 x))).
    replace (M * 2 ^ Zpos n~1) with (2 * (M * 2 ^ Zpos n * 2 ^ Zpos n)).
    2:{ replace (Zpos n~1) with (Zpos n + Zpos n + 1) by lia.
        rewrite !Z.pow_add_r by lia. change (2 ^ 1) with 2. ring. }
    rewrite shr_1_double by auto. rewrite IH by auto. apply IH. exact HM.
  - change (SpecFloat.iter_pos shr_1 n~0 ?x)
      with (SpecFloat.iter_pos shr_1 n (SpecFloat.iter_pos shr_1 n x)).
    replace (M * 2 ^ Zpos n~0) with (M * 2 ^ Zpos n * 2 ^ Zpos n).
    2:{ replace (Zpos n~0) with (Zpos n + Zpos n) by lia.
        rewrite Z.pow_add_r by lia. ring. }
    rewrite IH by auto. apply IH. exact HM.
  - change (SpecFloat.iter_pos shr_1 1 ?x) with (shr_1 x).
    replace (M * 2 ^ 1) with (2 * M) by lia. apply shr_1_double. exact HM.
Qed.

Lemma Zdigits2_mul_pow2 (m : positive) (k : Z) :
  0 <= k -> Zdigits2 (Zpos m * 2 ^ k) = Zpos (digits2_pos m) + k.
Proof.
  intros Hk. destruct k as [|k|k]; [|clear Hk|lia].
  - rewrite Z.mul_1_r. simpl. lia.
  - rewrite <- Zpos_iter_xO. simpl Zdigits2. rewrite digits2_pos_iter_xO. lia.
Qed.

(** A canonical mantissa scaled by a power of two rounds back to itself. *)
Lemma binary_round_aux_exact (s : bool) (m : positive) (e k : Z) :
  bounded prec emax m e = true -> 0 <= k ->
  binary_round_aux prec emax s (Zpos m * 2 ^ k) (e - k) loc_Exact = S754_finite s m e.
Proof.
  intros Hb Hk. unfold bounded, canonical_mantissa in Hb.
  apply andb_prop in Hb as [Hc He]. apply Z.eqb_eq in Hc. apply Z.leb_le in He.
  unfold binary_round_aux.
  assert (S1 : shr_fexp prec emax (Zpos m * 2 ^ k) (e - k) loc_Exact
               = (Build_shr_record (Zpos m) false false, e)).
  { unfold shr_fexp. rewrite Zdigits2_mul_pow2 by exact Hk.
    replace (Zpos (digits2_pos m) + k + (e - k)) with (Zpos (digits2_pos m) + e) by lia.
    rewrite Hc. replace (e - (e - k)) with k by lia.
    unfold shr. destruct k as [|k|k]; [|clear Hk|lia].
    - rewrite Z.mul_1_r, Z.sub_0_r. reflexivity.
    - change (shr_record_of_loc (Zpos m * 2 ^ Zpos k) loc_Exact)
        with (Build_shr_record (Zpos m * 2 ^ Zpos k) false false).
      cbv iota. rewrite iter_shr_1_exact by lia. f_equal. lia. }
  rewrite S1. simpl shr_m. simpl loc_of_shr_record. simpl round_nearest_even.
  rewrite shr_fexp_noop by (simpl Zdigits2; rewrite Hc; lia).
  simpl shr_m. now rewrite (proj2 (Z.leb_le _ _) He).
Qed.

Lemma round_half_even_bounds (n d : Z) :
  0 <= n -> 0 < d -> n / d <= round_half_even n d <= n / d + 1.
Proof.
  intros Hn Hd. unfold round_half_even.
  destruct (Z.compare (2 * (n mod d)) d); [destruct (Z.even (n / d))| |]; lia.
Qed.

(** An integer double: printed with two decimals and read back, it is
    itself. *)
Lemma SFdiv_integer_100 (s : bool) (m : positive) (e : Z) (pn : positive) :
  bounded prec emax m e = true -> 0 <= e ->
  Zpos pn = Zpos m * 2 ^ e * 100 ->
  SFdiv prec emax (S754_finite s pn 0) (S754_finite false 100 0) = S754_finite s m e.
Proof.
  intros Hb He Hn. unfold SFdiv, SFdiv_core_binary.
  set (e' := Z.min (fexp prec emax (Zdigits2 (Zpos pn) + 0 - (Zdigits2 (Zpos 100) + 0))) (0 - 0)).
  assert (He' : e' <= 0) by (unfold e'; lia).
  assert (Hm' : match 0 - 0 - e' with
                | Zpos _ => Z.shiftl (Zpos pn) (0 - 0 - e')
                | 0 => Zpos pn
                | Zneg _ => 0
                end = Zpos m * 2 ^ (e - e') * 100).
  { destruct (0 - 0 - e') as [|k|k] eqn:Hk; [| |lia].
    - replace (e - e') with e by lia. exact Hn.
    - rewrite Z.shiftl_mul_pow2 by lia. rewrite Hn.
      replace (e - e') with (e + Zpos k) by lia. rewrite Z.pow_add_r by lia. ring. }
  rewrite Hm'. rewrite div_eucl_div_mod.
  rewrite Z.div_mul by lia. rewrite Z.mod_mul by lia.
  change (new_location 100 0) with loc_Exact.
  replace (xorb s false) with s by (destruct s; reflexivity).
  replace e' with (e - (e - e')) at 2 by lia.
  apply binary_round_aux_exact; [exact Hb | lia].
Qed.

Lemma bounded_mantissa (m : positive) (e : Z) :
  bounded prec emax m e = true -> Zpos m < 2 ^ 53.
Proof.
  intros Hb. unfold bounded, canonical_mantissa in Hb.
  apply andb_prop in Hb as [Hc _]. apply Z.eqb_eq in Hc. rewrite fexp_eq in Hc.
  pose proof (digits2_pos_bounds m) as [_ Hu].
  assert (Zpos (digits2_pos m) <= 53) by lia.
  assert (2 ^ Zpos (digits2_pos m) <= 2 ^ 53) by (apply Z.pow_le_mono_r; lia).
  lia.
Qed.

(** [round(x, 2)] never overflows. *)
Lemma py_round_2_total (x : float) : exists r, py_round x 2 = Ok r.
Proof.
  unfold py_round. pose proof (Prim2SF_valid x) as Hv.
  destruct (Prim2SF x) as [s|s| |s m e]; eauto.
  simpl in Hv. change (10 ^ 2) with 100.
  change (SF_of_int false 100) with (S754_finite false 100 0).
  destruct (Z.leb_spec 0 e) as [He|He].
  - assert (Hp : 0 < Zpos m * 2 ^ e * 100).
    { apply Z.mul_pos_pos; [|lia]. apply Z.mul_pos_pos; [lia|]. apply Z.pow_pos_nonneg; lia. }
    destruct (Zpos m * 2 ^ e * 100) as [|pn|pn] eqn:Hn; [lia| |lia].
    simpl SF_of_int. rewrite (SFdiv_integer_100 s m e pn Hv He) by (symmetry; exact Hn).
    eexists. reflexivity.
  - pose proof (bounded_mantissa m e Hv) as Hm.
    assert (H2 : 2 <= 2 ^ (- e)).
    { change 2 with (2 ^ 1) at 1. apply Z.pow_le_mono_r; lia. }
    pose proof (round_half_even_bounds (Zpos m * 100) (2 ^ (- e)) ltac:(lia) ltac:(lia)) as [Hl Hu].
    assert (Hq : 0 <= Zpos m * 100 / 2 ^ (- e) <= Zpos m * 100 / 2).
    { split; [apply Z.div_pos; lia | apply Z.div_le_compat_l; lia]. }
    assert (Hh : Zpos m * 100 / 2 < 2 ^ 59).
    { apply Z.div_lt_upper_bound; [lia|]. change (2 ^ 53) with 9007199254740992 in Hm.
      change (2 ^ 59) with 576460752303423488. lia. }
    destruct (round_half_even (Zpos m * 100) (2 ^ (- e))) as [|pn|pn] eqn:Hn; [|clear Hl|lia].
    + eexists. reflexivity.
    + simpl SF_of_int.
      assert (Hd : Zpos (digits2_pos pn) <= 60).
      { apply (Zdigits2_le (Zpos pn) 60); [lia|]. change (2 ^ 60) with (2 * 2 ^ 59). lia. }
      pose proof (SFdiv_int_100_finite s pn Hd) as Hf.
      unfold finite_or_overflow.
      destruct (SFdiv prec emax (S754_finite s pn 0) (S754_finite false 100 0));
        try (eexists; reflexivity).
      exfalso. exact (Hf _ eq_refl).
Qed.

(** * The Date Resolver *)

(** C6: an ISO-8601 string whose offset is written without the colon
    (a sign and four digits) and the same string with the colon resolve to
    the same result, in both scripts: the first is rewritten into the
    second before it is parsed, the second is parsed as it is. *)
Theorem C6_offset_colon_same_date (rt : Runtime) (cfg : Mqtt2Exist.Config)
    (now : instant rt) (p : string) (sg h1 h2 m1 m2 : ascii) :
  in_plus_minus sg = true ->
  forallb is_digit [h1; h2; m1; m2] = true ->
  Mqtt2Exist.to_local_date rt cfg now (PyStr (p +:+ offset_basic sg h1 h2 m1 m2))
  = Mqtt2Exist.to_local_date rt cfg now (PyStr (p +:+ offset_extended sg h1 h2 m1 m2))
  /\ Mqtt2Exit.to_local_date rt now (PyStr (p +:+ offset_basic sg h1 h2 m1 m2))
     = Mqtt2Exit.to_local_date rt now (PyStr (p +:+ offset_extended sg h1 h2 m1 m2)).
Proof.
  intros Hs Hd.
  assert (Hd2 : is_digit h2 = true).
  { simpl in Hd. destruct (is_digit h1); [|discriminate].
    destruct (is_digit h2); [reflexivity | discriminate]. }
  unfold Mqtt2Exist.to_local_date, Mqtt2Exit.to_local_date, py_str.
  rewrite (offset_basic_detected p sg h1 h2 m1 m2 Hs Hd2).
  rewrite (insert_colon_basic p sg h1 h2 m1 m2).
  rewrite (offset_extended_kept p sg h1 h2 m1 m2).
  split; reflexivity.
Qed.

(** The two strings of the specification, on the fixture runtime. *)
Lemma C6_offset_colon_same_date_witness :
  Mqtt2Exist.to_local_date Fixture.runtime Fixture.cfg Fixture.today
    (PyStr "2025-11-04T07:11-0500")
  = Mqtt2Exist.to_local_date Fixture.runtime Fixture.cfg Fixture.today
      (PyStr "2025-11-04T07:11-05:00")
  /\ Mqtt2Exit.to_local_date Fixture.runtime Fixture.today (PyStr "2025-11-04T07:11-0500")
     = Mqtt2Exit.to_local_date Fixture.runtime Fixture.today (PyStr "2025-11-04T07:11-05:00").
Proof.
  exact (C6_offset_colon_same_date Fixture.runtime Fixture.cfg Fixture.today
           "2025-11-04T07:11" "-" "0" "5" "0" "0" eq_refl eq_refl).
Defined.

(** On the fixture, whose parser refuses an offset without a colon, both
    strings resolve to the fourth of November. *)
Example offset_colon_dates :
  Mqtt2Exist.to_local_date Fixture.runtime Fixture.cfg Fixture.today
    (PyStr "2025-11-04T07:11-0500") = Ok "2025-11-04"
  /\ Fixture.fromisoformat "2025-11-04T07:11-0500"
     = Raise (ValueError "Invalid isoformat string").
Proof. vm_compute. split; reflexivity. Qed.

(** The date field that reaches the resolver. *)
Section DateField.
Context (rt : Runtime) (cfg : Mqtt2Exist.Config) (m : gmap string pyval).

Lemma exist_date_field : Mqtt2Exist.date_field (PyDict m) = Ok (first_truthy_date m).
Proof.
  unfold Mqtt2Exist.date_field, first_truthy_date, or_else, py_or.
  autorewrite with py.
  destruct (truthy (field m "date")); [reflexivity|].
  autorewrite with py. destruct (truthy (field m "timestamp")); reflexivity.
Qed.

Lemma exit_date_field : Mqtt2Exit.date_field (PyDict m) = Ok (first_truthy_date m).
Proof. exact exist_date_field. Qed.

Lemma exist_resolve_date (now : instant rt) :
  Mqtt2Exist.resolve_date rt cfg now (PyDict m)
  = Mqtt2Exist.to_local_date rt cfg now (first_truthy_date m).
Proof. unfold Mqtt2Exist.resolve_date. now rewrite exist_date_field. Qed.

Lemma exit_resolve_date (now : instant rt) :
  Mqtt2Exit.resolve_date rt now (PyDict m)
  = Mqtt2Exit.to_local_date rt now (first_truthy_date m).
Proof. unfold Mqtt2Exit.resolve_date. now rewrite exit_date_field. Qed.

Lemma first_truthy_date_None :
  first_truthy_date m = PyNone <->
  truthy (field m "date") = false /\ truthy (field m "timestamp") = false
  /\ field m "ts" = PyNone.
Proof.
  unfold first_truthy_date, py_or.
  destruct (truthy (field m "date")) eqn:Ha.
  - split; [intros E; rewrite E in Ha; discriminate | intros [? _]; discriminate].
  - destruct (truthy (field m "timestamp")) eqn:Hb.
    + split; [intros E; rewrite E in Hb; discriminate | intros (_ & ? & _); discriminate].
    + split; [auto | intros (_ & _ & ?); assumption].
Qed.

End DateField.

(** * How [parse_payload] is put together *)

Section ParseDict.
Context (rt : Runtime) (cfg : Mqtt2Exist.Config) (now : instant rt) (d : pyval).

Lemma exist_parse_dict_ok (ds : string) (kg w : float) (fat : option float) :
  Mqtt2Exist.resolve_date rt cfg now d = Ok ds ->
  Mqtt2Exist.resolve_weight rt d = Ok kg ->
  Mqtt2Exist.resolve_fat rt d = Ok fat ->
  py_round kg 2 = Ok w ->
  Mqtt2Exist.parse_dict rt cfg now d = Ok (ds, w, fat).
Proof.
  intros Hd Hw Hf Hr. unfold Mqtt2Exist.parse_dict.
  rewrite Hd, bind_Ok, Hw, bind_Ok, Hf, bind_Ok, Hr. reflexivity.
Qed.

Lemma exist_parse_dict_inv (ds : string) (w : float) (fat : option float) :
  Mqtt2Exist.parse_dict rt cfg now d = Ok (ds, w, fat) ->
  Mqtt2Exist.resolve_date rt cfg now d = Ok ds
  /\ Mqtt2Exist.resolve_fat rt d = Ok fat
  /\ exists kg, Mqtt2Exist.resolve_weight rt d = Ok kg /\ py_round kg 2 = Ok w.
Proof.
  unfold Mqtt2Exist.parse_dict. intros H.
  apply bind_inv_Ok in H as (ds' & Hd & H).
  apply bind_inv_Ok in H as (kg & Hw & H).
  apply bind_inv_Ok in H as (fat' & Hf & H).
  apply bind_inv_Ok in H as (w' & Hr & H).
  injection H as -> -> ->. eauto.
Qed.

(** The rounding of the optional fraction in the last line of
    mqtt2exit's [parse_payload]. *)
Lemma exit_parse_dict_ok (ds : string) (kg w : float) (fat : option float) :
  Mqtt2Exit.resolve_date rt now d = Ok ds ->
  Mqtt2Exit.resolve_weight rt d = Ok kg ->
  py_round kg 2 = Ok w ->
  match fat with
  | None => Mqtt2Exit.resolve_fat rt d = Ok None
  | Some r => exists f, Mqtt2Exit.resolve_fat rt d = Ok (Some f) /\ py_round f 2 = Ok r
  end ->
  Mqtt2Exit.parse_dict rt now d = Ok (ds, w, fat).
Proof.
  intros Hd Hw Hr Hf. unfold Mqtt2Exit.parse_dict.
  rewrite Hd, bind_Ok, Hw, bind_Ok.
  destruct fat as [r|].
  - destruct Hf as (f & Hf & Hrf). rewrite Hf, bind_Ok, Hr, bind_Ok, Hrf. reflexivity.
  - rewrite Hf, bind_Ok, Hr. reflexivity.
Qed.

Lemma exit_parse_dict_inv (ds : string) (w : float) (fat : option float) :
  Mqtt2Exit.parse_dict rt now d = Ok (ds, w, fat) ->
  Mqtt2Exit.resolve_date rt now d = Ok ds
  /\ (exists kg, Mqtt2Exit.resolve_weight rt d = Ok kg /\ py_round kg 2 = Ok w)
  /\ match fat with
     | None => Mqtt2Exit.resolve_fat rt d = Ok None
     | Some r => exists f, Mqtt2Exit.resolve_fat rt d = Ok (Some f) /\ py_round f 2 = Ok r
     end.
Proof.
  unfold Mqtt2Exit.parse_dict. intros H.
  apply bind_inv_Ok in H as (ds' & Hd & H).
  apply bind_inv_Ok in H as (kg & Hw & H).
  apply bind_inv_Ok in H as (fatu & Hf & H).
  apply bind_inv_Ok in H as (w' & Hr & H).
  apply bind_inv_Ok in H as (fat' & Hrf & H).
  injection H as -> -> ->.
  split; [assumption|]. split; [eauto|].
  destruct fatu as [f|].
  - apply bind_inv_Ok in Hrf as (r & Hrf & E). injection E as <-. eauto.
  - injection Hrf as <-. assumption.
Qed.

End ParseDict.

(** With [round(x, 2)] total, a record is returned as soon as the three
    blocks succeed. *)
Lemma exist_parse_dict_total (rt : Runtime) (cfg : Mqtt2Exist.Config) (now : instant rt)
    (d : pyval) (ds : string) (kg : float) (fat : option float) :
  Mqtt2Exist.resolve_date rt cfg now d = Ok ds ->
  Mqtt2Exist.resolve_weight rt d = Ok kg ->
  Mqtt2Exist.resolve_fat rt d = Ok fat ->
  exists w, py_round kg 2 = Ok w /\ Mqtt2Exist.parse_dict rt cfg now d = Ok (ds, w, fat).
Proof.
  intros Hd Hw Hf. destruct (py_round_2_total kg) as (w & Hr).
  exists w. split; [exact Hr|]. now apply (exist_parse_dict_ok rt cfg now d ds kg).
Qed.

Lemma exit_parse_dict_total (rt : Runtime) (now : instant rt)
    (d : pyval) (ds : string) (kg : float) (fatu : option float) :
  Mqtt2Exit.resolve_date rt now d = Ok ds ->
  Mqtt2Exit.resolve_weight rt d = Ok kg ->
  Mqtt2Exit.resolve_fat rt d = Ok fatu ->
  exists w fat, py_round kg 2 = Ok w
    /\ match fatu with
       | None => fat = None
       | Some f => exists r, py_round f 2 = Ok r /\ fat = Some r
       end
    /\ Mqtt2Exit.parse_dict rt now d = Ok (ds, w, fat).
Proof.
  intros Hd Hw Hf. destruct (py_round_2_total kg) as (w & Hr).
  destruct fatu as [f|].
  - destruct (py_round_2_total f) as (r & Hrf).
    exists w, (Some r). split; [exact Hr|]. split; [eauto|].
    apply (exit_parse_dict_ok rt now d ds kg w (Some r) Hd Hw Hr). eauto.
  - exists w, None. split; [exact Hr|]. split; [reflexivity|].
    now apply (exit_parse_dict_ok rt now d ds kg w None Hd Hw Hr).
Qed.

(** C4, as the scripts have it: the value handed to the Date Resolver is
    [d.get("date") or d.get("timestamp") or d.get("ts")], that is the first
    of [date] and [timestamp] whose value is true (present, and not null,
    zero, empty or false), else the value of [ts], else [None].  The date
    of a parsed record is the resolver's answer on that value; the value
    is [None], which resolves to today in the local zone, exactly when
    [date] and [timestamp] are false or absent and [ts] is absent or null. *)
Theorem C4_date_is_first_truthy (rt : Runtime) (cfg : Mqtt2Exist.Config)
    (now : instant rt) (m : gmap string pyval) :
  Mqtt2Exist.resolve_date rt cfg now (PyDict m)
    = Mqtt2Exist.to_local_date rt cfg now (first_truthy_date m)
  /\ Mqtt2Exit.resolve_date rt now (PyDict m)
     = Mqtt2Exit.to_local_date rt now (first_truthy_date m)
  /\ (forall ds w fat,
        Mqtt2Exist.parse_dict rt cfg now (PyDict m) = Ok (ds, w, fat) ->
        Mqtt2Exist.to_local_date rt cfg now (first_truthy_date m) = Ok ds)
  /\ (forall ds w fat,
        Mqtt2Exit.parse_dict rt now (PyDict m) = Ok (ds, w, fat) ->
        Mqtt2Exit.to_local_date rt now (first_truthy_date m) = Ok ds)
  /\ (first_truthy_date m = PyNone <->
        truthy (field m "date") = false /\ truthy (field m "timestamp") = false
        /\ field m "ts" = PyNone)
  /\ (forall tz, ZoneInfo rt (Mqtt2Exist.LOCAL_TZ cfg) = Ok tz ->
        Mqtt2Exist.to_local_date rt cfg now PyNone
        = Ok (dt_strftime rt (datetime_now rt now tz) "%Y-%m-%d"))
  /\ (forall tz, ZoneInfo rt Mqtt2Exit.LOCAL_TZ = Ok tz ->
        Mqtt2Exit.to_local_date rt now PyNone
        = Ok (dt_strftime rt (datetime_now rt now tz) "%Y-%m-%d")).
Proof.
  split; [apply exist_resolve_date|]. split; [apply exit_resolve_date|].
  split.
  { intros ds w fat H. apply exist_parse_dict_inv in H as (H & _).
    now rewrite exist_resolve_date in H. }
  split.
  { intros ds w fat H. apply exit_parse_dict_inv in H as (H & _).
    now rewrite exit_resolve_date in H. }
  split; [apply first_truthy_date_None|].
  split; intros tz Htz.
  - unfold Mqtt2Exist.to_local_date. now rewrite Htz.
  - unfold Mqtt2Exit.to_local_date. now rewrite Htz.
Qed.

(** C4 as stated fails on a payload whose [timestamp] is the epoch: the
    field is present, with the Unix time 0, yet the resolver is handed
    [None] and the record is dated today instead of 1969-12-31. *)
Lemma C4_counterexample :
  Fixture.d_epoch !! "date" = None
  /\ Fixture.d_epoch !! "timestamp" = Some (PyInt 0)
  /\ Mqtt2Exist.date_field (PyDict Fixture.d_epoch) = Ok PyNone
  /\ Mqtt2Exit.date_field (PyDict Fixture.d_epoch) = Ok PyNone
  /\ Mqtt2Exist.to_local_date Fixture.runtime Fixture.cfg Fixture.today (PyInt 0)
     = Ok "1969-12-31"
  /\ Mqtt2Exist.parse_payload Fixture.runtime Fixture.cfg Fixture.today
       Fixture.payload_epoch = Ok (Fixture.today, 80, None)%float.
Proof. vm_compute. repeat split; reflexivity. Qed.

(** * The unit rule *)

Section UnitRule.
Context (rt : Runtime) (m : gmap string pyval).

Lemma unit_field_false :
  truthy (field m "unit") = false -> Mqtt2Exist.unit_field (PyDict m) = Ok "kg".
Proof.
  intros H. unfold Mqtt2Exist.unit_field, py_or.
  autorewrite with py. now rewrite H.
Qed.

Lemma unit_field_str (s : string) :
  m !! "unit" = Some (PyStr s) -> s <> "" ->
  Mqtt2Exist.unit_field (PyDict m) = Ok (str_lower s).
Proof.
  intros H Hs. unfold Mqtt2Exist.unit_field, py_or, field.
  autorewrite with py. unfold field. rewrite H. simpl.
  apply String.eqb_neq in Hs. now rewrite Hs.
Qed.

Lemma unit_field_not_str (v : pyval) :
  m !! "unit" = Some v -> truthy v = true -> (forall s, v <> PyStr s) ->
  Mqtt2Exist.unit_field (PyDict m) = Raise AttributeError.
Proof.
  intros H Ht Hs. unfold Mqtt2Exist.unit_field, py_or.
  autorewrite with py. unfold field. rewrite H. simpl default. rewrite Ht.
  destruct v; try reflexivity. now destruct (Hs s).
Qed.

Lemma resolve_weight_bad_unit :
  is_None (weight_field m) = false ->
  Mqtt2Exist.unit_field (PyDict m) = Raise AttributeError ->
  Mqtt2Exist.resolve_weight rt (PyDict m) = Raise AttributeError
  /\ Mqtt2Exit.resolve_weight rt (PyDict m) = Raise AttributeError.
Proof.
  intros Hn Hu. unfold Mqtt2Exist.resolve_weight, Mqtt2Exit.resolve_weight.
  change (Mqtt2Exit.unit_field (PyDict m)) with (Mqtt2Exist.unit_field (PyDict m)).
  autorewrite with py. simpl dict_get. fold (weight_field m).
  autorewrite with py. rewrite Hn, Hu. split; reflexivity.
Qed.

Lemma exist_resolve_weight (u : string) (wv : float) :
  is_None (weight_field m) = false ->
  py_float (float_of_str rt) (weight_field m) = Ok wv ->
  Mqtt2Exist.unit_field (PyDict m) = Ok u ->
  Mqtt2Exist.resolve_weight rt (PyDict m)
  = Ok (if String.eqb u "kg" then wv else wv * 0.45359237)%float.
Proof.
  intros Hn Hf Hu. unfold Mqtt2Exist.resolve_weight.
  autorewrite with py. simpl dict_get. fold (weight_field m).
  autorewrite with py. rewrite Hn, Hu. autorewrite with py.
  destruct (String.eqb u "kg"); [exact Hf|].
  rewrite Hf. reflexivity.
Qed.

Lemma exit_resolve_weight (u : string) (wv : float) :
  is_None (weight_field m) = false ->
  py_float (float_of_str rt) (weight_field m) = Ok wv ->
  Mqtt2Exit.unit_field (PyDict m) = Ok u ->
  Mqtt2Exit.resolve_weight rt (PyDict m)
  = Ok (if String.eqb u "kg" then wv else wv * 0.45359237)%float.
Proof.
  intros Hn Hf Hu. unfold Mqtt2Exit.resolve_weight.
  autorewrite with py. simpl dict_get. fold (weight_field m).
  autorewrite with py. rewrite Hn, Hu. autorewrite with py.
  destruct (String.eqb u "kg"); [exact Hf|].
  unfold Mqtt2Exit.lb_to_kg. rewrite Hf. reflexivity.
Qed.

End UnitRule.

(** C1, as the scripts have it: for a payload that carries a weight, the
    weight is left in kilograms when the [unit] field is absent, null or
    otherwise false, or is a string equal to "kg" without regard to case;
    for every other string the Unit Converter runs, and a unit that is
    true but not a string raises [AttributeError].  The [weight_kg] of a
    record is that value rounded to 2 decimals, and the record is returned
    as soon as the date and the fat resolve too. *)
Theorem C1_unit_rule (rt : Runtime) (m : gmap string pyval) (wv : float) :
  is_None (weight_field m) = false ->
  py_float (float_of_str rt) (weight_field m) = Ok wv ->
  (truthy (field m "unit") = false ->
     Mqtt2Exist.resolve_weight rt (PyDict m) = Ok wv
     /\ Mqtt2Exit.resolve_weight rt (PyDict m) = Ok wv)
  /\ (forall s, m !! "unit" = Some (PyStr s) -> s <> "" ->
        Mqtt2Exist.resolve_weight rt (PyDict m)
        = Ok (if String.eqb (str_lower s) "kg" then wv else wv * 0.45359237)%float
        /\ Mqtt2Exit.resolve_weight rt (PyDict m)
           = Ok (if String.eqb (str_lower s) "kg" then wv else wv * 0.45359237)%float)
  /\ (forall v, m !! "unit" = Some v -> truthy v = true -> (forall s, v <> PyStr s) ->
        Mqtt2Exist.resolve_weight rt (PyDict m) = Raise AttributeError
        /\ Mqtt2Exit.resolve_weight rt (PyDict m) = Raise AttributeError)
  /\ (forall cfg now ds w fat,
        Mqtt2Exist.parse_dict rt cfg now (PyDict m) = Ok (ds, w, fat) ->
        exists kg, Mqtt2Exist.resolve_weight rt (PyDict m) = Ok kg /\ py_round kg 2 = Ok w)
  /\ (forall now ds w fat,
        Mqtt2Exit.parse_dict rt now (PyDict m) = Ok (ds, w, fat) ->
        exists kg, Mqtt2Exit.resolve_weight rt (PyDict m) = Ok kg /\ py_round kg 2 = Ok w)
  /\ (forall cfg now ds kg fat,
        Mqtt2Exist.resolve_date rt cfg now (PyDict m) = Ok ds ->
        Mqtt2Exist.resolve_weight rt (PyDict m) = Ok kg ->
        Mqtt2Exist.resolve_fat rt (PyDict m) = Ok fat ->
        exists w, py_round kg 2 = Ok w
                  /\ Mqtt2Exist.parse_dict rt cfg now (PyDict m) = Ok (ds, w, fat))
  /\ (forall now ds kg fatu,
        Mqtt2Exit.resolve_date rt now (PyDict m) = Ok ds ->
        Mqtt2Exit.resolve_weight rt (PyDict m) = Ok kg ->
        Mqtt2Exit.resolve_fat rt (PyDict m) = Ok fatu ->
        exists w fat, py_round kg 2 = Ok w
                      /\ Mqtt2Exit.parse_dict rt now (PyDict m) = Ok (ds, w, fat)).
Proof.
  intros Hn Hf. split; [|split; [|split; [|split; [|split; [|split]]]]].
  - intros Hu. apply unit_field_false in Hu.
    rewrite (exist_resolve_weight rt m "kg" wv Hn Hf Hu).
    rewrite (exit_resolve_weight rt m "kg" wv Hn Hf Hu). split; reflexivity.
  - intros s Hs Hne. pose proof (unit_field_str m s Hs Hne) as Hu.
    rewrite (exist_resolve_weight rt m _ wv Hn Hf Hu).
    rewrite (exit_resolve_weight rt m _ wv Hn Hf Hu). split; reflexivity.
  - intros v Hv Ht Hs. apply (resolve_weight_bad_unit rt m Hn).
    now apply (unit_field_not_str m v).
  - intros cfg now ds w fat H. apply exist_parse_dict_inv in H as (_ & _ & H). exact H.
  - intros now ds w fat H. apply exit_parse_dict_inv in H as (_ & H & _). exact H.
  - intros cfg now ds kg fat. apply exist_parse_dict_total.
  - intros now ds kg fatu Hd Hw Hfat.
    destruct (exit_parse_dict_total rt now _ ds kg fatu Hd Hw Hfat) as (w & fat & Hr & _ & H).
    eauto.
Qed.

(** The payload of the specification, in pounds. *)
Lemma C1_unit_rule_witness :
  Mqtt2Exist.resolve_weight Fixture.runtime (PyDict Fixture.d_spec)
  = Ok (186.5 * 0.45359237)%float
  /\ Mqtt2Exit.resolve_weight Fixture.runtime (PyDict Fixture.d_spec)
     = Ok (186.5 * 0.45359237)%float.
Proof.
  exact (proj1 (proj2 (C1_unit_rule Fixture.runtime Fixture.d_spec 186.5%float
                         eq_refl eq_refl))
           "lb" eq_refl ltac:(discriminate)).
Defined.

(** C1 as stated fails on a unit that is neither kilograms nor pounds:
    with [unit] "stone" and [weight] 80 both scripts run the converter and
    give 36.29, where the claim leaves the weight at 80. *)
Lemma C1_counterexample :
  Fixture.d_stone !! "unit" = Some (PyStr "stone")
  /\ Fixture.d_stone !! "weight" = Some (PyInt 80)
  /\ Mqtt2Exist.parse_payload Fixture.runtime Fixture.cfg Fixture.today Fixture.payload_stone
     = Ok (Fixture.today, 36.29, Some 0.24)%float
  /\ Mqtt2Exit.parse_payload Fixture.runtime Fixture.today Fixture.payload_stone
     = Ok (Fixture.today, 36.29, Some 0.24)%float
  /\ py_round 80 2 = Ok 80%float
  /\ PrimFloat.eqb 36.29 80 = false.
Proof. vm_compute. repeat split; reflexivity. Qed.

(** * The fat fraction *)

Lemma percent_int_truediv (z : Z) :
  0 <= z <= 100 ->
  (int_to_float z ≫= fun f => Ok (f / 100)%float) = int_truediv z 100.
Proof. intros Hz. apply small_int_truediv. change (2 ^ 53) with 9007199254740992. lia. Qed.

Lemma int_truediv_percent_ok (z : Z) :
  0 <= z <= 100 -> exists q, int_truediv z 100 = Ok q.
Proof.
  intros Hz. rewrite <- percent_int_truediv by exact Hz.
  destruct (small_int_to_float_ok z) as (f & ->);
    [change (2 ^ 53) with 9007199254740992; lia|].
  rewrite bind_Ok. eauto.
Qed.

Lemma float_truediv_100 (x : float) : py_truediv (PyFloat x) 100 = Ok (x / 100)%float.
Proof. reflexivity. Qed.

Lemma percent_truediv_ok (v : pyval) :
  percent v = true -> exists q, py_truediv v 100 = Ok q.
Proof.
  intros Hpct. destruct v as [| | z | x | | |]; try discriminate Hpct.
  - apply int_truediv_percent_ok. simpl in Hpct. lia.
  - eexists. apply float_truediv_100.
Qed.

Section FatFraction.
Context (rt : Runtime) (m : gmap string pyval) (v : pyval).
Hypothesis Hfat : m !! "fat" = Some v.
Hypothesis Hpct : percent v = true.

Lemma exist_resolve_fat_percent (q : float) :
  py_truediv v 100 = Ok q ->
  Mqtt2Exist.resolve_fat rt (PyDict m) = (r ← py_round q 2; Ok (Some r)).
Proof.
  intros Hq. unfold Mqtt2Exist.resolve_fat. autorewrite with py.
  unfold field. rewrite Hfat. simpl default.
  destruct v as [| | z | x | | |]; try discriminate Hpct; simpl is_None; simpl negb.
  - simpl py_float. simpl py_truediv in Hq.
    rewrite <- percent_int_truediv in Hq by (simpl in Hpct; lia).
    destruct (int_to_float z) as [f|e]; [|discriminate Hq].
    injection Hq as <-. reflexivity.
  - rewrite float_truediv_100 in Hq. injection Hq as <-. reflexivity.
Qed.

Lemma exit_resolve_fat_percent (q : float) :
  py_truediv v 100 = Ok q ->
  Mqtt2Exit.resolve_fat rt (PyDict m) = Ok (Some q).
Proof.
  intros Hq. unfold Mqtt2Exit.resolve_fat. autorewrite with py.
  unfold field. rewrite Hfat. simpl default. rewrite Hq. reflexivity.
Qed.

End FatFraction.

(** C8: when the [fat] field is a number [f] between 0 and 100, the
    quotient [f / 100] and its rounding [round(f / 100, 2)] are defined,
    every record either script returns carries that value as its fat
    fraction, and a record is returned as soon as the date and the weight
    resolve. *)
Theorem C8_fat_fraction (rt : Runtime) (cfg : Mqtt2Exist.Config) (now : instant rt)
    (m : gmap string pyval) (v : pyval) :
  m !! "fat" = Some v ->
  percent v = true ->
  exists q r, py_truediv v 100 = Ok q /\ py_round q 2 = Ok r
  /\ (forall ds w fat,
        Mqtt2Exist.parse_dict rt cfg now (PyDict m) = Ok (ds, w, fat) -> fat = Some r)
  /\ (forall ds w fat,
        Mqtt2Exit.parse_dict rt now (PyDict m) = Ok (ds, w, fat) -> fat = Some r)
  /\ (forall ds kg,
        Mqtt2Exist.resolve_date rt cfg now (PyDict m) = Ok ds ->
        Mqtt2Exist.resolve_weight rt (PyDict m) = Ok kg ->
        exists w, py_round kg 2 = Ok w
                  /\ Mqtt2Exist.parse_dict rt cfg now (PyDict m) = Ok (ds, w, Some r))
  /\ (forall ds kg,
        Mqtt2Exit.resolve_date rt now (PyDict m) = Ok ds ->
        Mqtt2Exit.resolve_weight rt (PyDict m) = Ok kg ->
        exists w, py_round kg 2 = Ok w
                  /\ Mqtt2Exit.parse_dict rt now (PyDict m) = Ok (ds, w, Some r)).
Proof.
  intros Hfat Hpct.
  destruct (percent_truediv_ok v Hpct) as (q & Hq).
  destruct (py_round_2_total q) as (r & Hr).
  exists q, r. split; [exact Hq|]. split; [exact Hr|].
  pose proof (exist_resolve_fat_percent rt m v Hfat Hpct q Hq) as He.
  rewrite Hr, bind_Ok in He.
  pose proof (exit_resolve_fat_percent rt m v Hfat q Hq) as Hx.
  split; [|split; [|split]].
  - intros ds w fat H. apply exist_parse_dict_inv in H as (_ & H & _).
    rewrite He in H. now injection H as <-.
  - intros ds w fat H. apply exit_parse_dict_inv in H as (_ & _ & H).
    rewrite Hx in H. destruct fat as [r'|]; [|discriminate H].
    destruct H as (f & E & Hr'). injection E as <-. congruence.
  - intros ds kg Hd Hw. now apply exist_parse_dict_total.
  - intros ds kg Hd Hw. destruct (py_round_2_total kg) as (w & Hrw).
    exists w. split; [exact Hrw|].
    apply (exit_parse_dict_ok rt now _ ds kg w (Some r) Hd Hw Hrw). eauto.
Qed.

(** The payload of the specification, whose [fat] is 24.22. *)
Lemma C8_fat_fraction_witness :
  exists q r, py_truediv (PyFloat 24.22) 100 = Ok q /\ py_round q 2 = Ok r
  /\ (forall ds w fat,
        Mqtt2Exist.parse_dict Fixture.runtime Fixture.cfg Fixture.today (PyDict Fixture.d_spec)
        = Ok (ds, w, fat) -> fat = Some r)
  /\ (forall ds w fat,
        Mqtt2Exit.parse_dict Fixture.runtime Fixture.today (PyDict Fixture.d_spec)
        = Ok (ds, w, fat) -> fat = Some r)
  /\ (forall ds kg,
        Mqtt2Exist.resolve_date Fixture.runtime Fixture.cfg Fixture.today
          (PyDict Fixture.d_spec) = Ok ds ->
        Mqtt2Exist.resolve_weight Fixture.runtime (PyDict Fixture.d_spec) = Ok kg ->
        exists w, py_round kg 2 = Ok w
                  /\ Mqtt2Exist.parse_dict Fixture.runtime Fixture.cfg Fixture.today
                       (PyDict Fixture.d_spec) = Ok (ds, w, Some r))
  /\ (forall ds kg,
        Mqtt2Exit.resolve_date Fixture.runtime Fixture.today (PyDict Fixture.d_spec) = Ok ds ->
        Mqtt2Exit.resolve_weight Fixture.runtime (PyDict Fixture.d_spec) = Ok kg ->
        exists w, py_round kg 2 = Ok w
                  /\ Mqtt2Exit.parse_dict Fixture.runtime Fixture.today
                       (PyDict Fixture.d_spec) = Ok (ds, w, Some r)).
Proof.
  exact (C8_fat_fraction Fixture.runtime Fixture.cfg Fixture.today Fixture.d_spec
           (PyFloat 24.22) eq_refl eq_refl).
Defined.

(** That fraction is 0.24, in both scripts. *)
Example fat_24_22 :
  (py_truediv (PyFloat 24.22) 100 ≫= fun q => py_round q 2) = Ok 0.24%float
  /\ Mqtt2Exit.parse_payload Fixture.runtime Fixture.today Fixture.payload_spec
     = Ok ("2025-11-04", 84.59, Some 0.24)%float.
Proof. vm_compute. split; reflexivity. Qed.

(** * The Update Mapper *)

Section Updates.
Context (rt : Runtime) (cfg : Mqtt2Exist.Config) (xcfg : Mqtt2Exit.Config).
Context (ds : string) (w : float) (fat : option float).

Lemma exist_updates_of :
  Mqtt2Exist.updates_of cfg ds w fat
  = Update (Mqtt2Exist.ATTR_WEIGHT cfg) ds w
    :: match fat with
       | Some f => [Update (Mqtt2Exist.ATTR_FAT cfg) ds f]
       | None => []
       end.
Proof. destruct fat; reflexivity. Qed.

Lemma exit_updates_of :
  Mqtt2Exit.updates_of ds w fat
  = Update Mqtt2Exit.ATTR_WEIGHT ds w
    :: match fat with
       | Some f => [Update Mqtt2Exit.ATTR_FAT ds f]
       | None => []
       end.
Proof. destruct fat; reflexivity. Qed.

(** With a token, [post_exist] sends one request, whatever comes back. *)
Lemma exist_post_exist_posted (wd : world) :
  str_truthy (Mqtt2Exist.EXIST_TOKEN cfg) = true ->
  exists rq, posted (snd (Mqtt2Exist.post_exist rt cfg ds w fat wd)) = (posted wd ++ [rq])%list
             /\ json rq = Mqtt2Exist.updates_of cfg ds w fat.
Proof.
  intros Ht. unfold Mqtt2Exist.post_exist. rewrite Ht. simpl negb. cbv iota.
  exists (Request EXIST_UPDATE_URL
            [("Authorization", "Bearer " +:+ default "None" (Mqtt2Exist.EXIST_TOKEN cfg));
             ("Content-Type", "application/json")]
            (Mqtt2Exist.updates_of cfg ds w fat) 30).
  split; [|reflexivity].
  unfold mbind, M_bind, logging_info, logging, post, raise, try_except, lift. simpl.
  destruct (requests_post rt _ _) as [r|e]; [|reflexivity].
  destruct (negb _); [reflexivity|].
  destruct (json_body r); reflexivity.
Qed.

Lemma exit_post_exist_posted (wd : world) :
  str_truthy (Mqtt2Exit.EXIST_TOKEN xcfg) = true ->
  exists rq, posted (snd (Mqtt2Exit.post_exist rt xcfg ds w fat wd)) = (posted wd ++ [rq])%list
             /\ json rq = Mqtt2Exit.updates_of ds w fat.
Proof.
  intros Ht. unfold Mqtt2Exit.post_exist. rewrite Ht. simpl negb. cbv iota.
  exists (Request EXIST_UPDATE_URL
            [("Authorization", "Bearer " +:+ default "None" (Mqtt2Exit.EXIST_TOKEN xcfg));
             ("Content-Type", "application/json")]
            (Mqtt2Exit.updates_of ds w fat) 30).
  split; [|reflexivity].
  unfold mbind, M_bind, logging_info, logging, post, raise, lift. simpl.
  destruct (requests_post rt _ _) as [r|e]; [|reflexivity].
  destruct (negb _); [reflexivity|].
  destruct (json_body r); reflexivity.
Qed.

End Updates.

(** C9: for a record [(ds, w, fat)] the scripts post one list of updates:
    the weight update first, then the fat update exactly when [fat] is not
    [None]; both carry the date [ds]. *)
Theorem C9_updates_order (rt : Runtime) (cfg : Mqtt2Exist.Config)
    (xcfg : Mqtt2Exit.Config) (ds : string) (w : float) (fat : option float)
    (wd : world) :
  str_truthy (Mqtt2Exist.EXIST_TOKEN cfg) = true ->
  str_truthy (Mqtt2Exit.EXIST_TOKEN xcfg) = true ->
  (exists rq,
      posted (snd (Mqtt2Exist.post_exist rt cfg ds w fat wd)) = (posted wd ++ [rq])%list
      /\ json rq = Update (Mqtt2Exist.ATTR_WEIGHT cfg) ds w
                   :: match fat with
                      | Some f => [Update (Mqtt2Exist.ATTR_FAT cfg) ds f]
                      | None => []
                      end)
  /\ (exists rq,
        posted (snd (Mqtt2Exit.post_exist rt xcfg ds w fat wd)) = (posted wd ++ [rq])%list
        /\ json rq = Update Mqtt2Exit.ATTR_WEIGHT ds w
                     :: match fat with
                        | Some f => [Update Mqtt2Exit.ATTR_FAT ds f]
                        | None => []
                        end).
Proof.
  intros Ht Hx. split.
  - destruct (exist_post_exist_posted rt cfg ds w fat wd Ht) as (rq & Hp & Hj).
    exists rq. now rewrite <- exist_updates_of.
  - destruct (exit_post_exist_posted rt xcfg ds w fat wd Hx) as (rq & Hp & Hj).
    exists rq. now rewrite <- exit_updates_of.
Qed.

(** The record of the specification's end-to-end example. *)
Lemma C9_updates_order_witness :
  (exists rq,
      posted (snd (Mqtt2Exist.post_exist Fixture.runtime Fixture.cfg
                     "2025-11-04" 84.59 (Some 0.24%float) Fixture.w0)) = [rq]
      /\ json rq = [Update "weight" "2025-11-04" 84.59; Update "body_fat" "2025-11-04" 0.24])
  /\ (exists rq,
        posted (snd (Mqtt2Exit.post_exist Fixture.runtime Fixture.cfg_exit
                       "2025-11-04" 84.59 (Some 0.24%float) Fixture.w0)) = [rq]
        /\ json rq = [Update "weight" "2025-11-04" 84.59; Update "body_fat" "2025-11-04" 0.24]).
Proof.
  exact (C9_updates_order Fixture.runtime Fixture.cfg Fixture.cfg_exit
           "2025-11-04" 84.59%float (Some 0.24%float) Fixture.w0 eq_refl eq_refl).
Defined.

(** * The Pipeline Controller *)

Section Controller.
Context (rt : Runtime) (cfg : Mqtt2Exist.Config) (xcfg : Mqtt2Exit.Config).

Lemma exist_on_message_cases (now : instant rt) (msg : mqtt_msg) (wd : world) :
  Mqtt2Exist.on_message rt cfg now msg wd
  = match Mqtt2Exist.process rt cfg now (decode_utf8_replace rt (payload msg))
            (exist_received rt msg wd) with
    | (Ok _, wd') => (Ok tt, wd')
    | (Raise e, wd') => (Ok tt, failure_logged e wd')
    end.
Proof.
  unfold Mqtt2Exist.on_message, try_except, mbind, M_bind, exist_received. simpl.
  destruct (Mqtt2Exist.process _ _ _ _ _) as [[[]|e] wd']; reflexivity.
Qed.

Lemma exit_on_message_cases (now : instant rt) (msg : mqtt_msg) (wd : world) :
  Mqtt2Exit.on_message rt xcfg now msg wd
  = match Mqtt2Exit.process rt xcfg now (decode_utf8_replace rt (payload msg))
            (exit_received rt msg wd) with
    | (Ok _, wd') => (Ok tt, wd')
    | (Raise e, wd') => (Ok tt, failure_logged e wd')
    end.
Proof.
  unfold Mqtt2Exit.on_message, try_except, mbind, M_bind, exit_received. simpl.
  destruct (Mqtt2Exit.process _ _ _ _ _) as [[[]|e] wd']; reflexivity.
Qed.

Lemma exist_on_message_returns (now : instant rt) (msg : mqtt_msg) (wd : world) :
  fst (Mqtt2Exist.on_message rt cfg now msg wd) = Ok tt.
Proof.
  rewrite exist_on_message_cases.
  destruct (Mqtt2Exist.process _ _ _ _ _) as [[|] ?]; reflexivity.
Qed.

Lemma exit_on_message_returns (now : instant rt) (msg : mqtt_msg) (wd : world) :
  fst (Mqtt2Exit.on_message rt xcfg now msg wd) = Ok tt.
Proof.
  rewrite exit_on_message_cases.
  destruct (Mqtt2Exit.process _ _ _ _ _) as [[|] ?]; reflexivity.
Qed.

(** A parse failure leaves the [try] at once: nothing is posted. *)
Lemma exist_process_parse_failure (now : instant rt) (text : string) (e : exn)
    (wd : world) :
  Mqtt2Exist.parse_payload rt cfg now text = Raise e ->
  Mqtt2Exist.process rt cfg now text wd = (Raise e, wd).
Proof.
  intros H. unfold Mqtt2Exist.process, mbind at 1, M_bind, lift. now rewrite H.
Qed.

Lemma exit_process_parse_failure (now : instant rt) (text : string) (e : exn)
    (wd : world) :
  Mqtt2Exit.parse_payload rt now text = Raise e ->
  Mqtt2Exit.process rt xcfg now text wd = (Raise e, wd).
Proof.
  intros H. unfold Mqtt2Exit.process, mbind at 1, M_bind, lift. now rewrite H.
Qed.

End Controller.

Section Loop.
Context {I : Type} (f : I -> mqtt_msg -> M unit).
Hypothesis f_returns : forall t msg wd, fst (f t msg wd) = Ok tt.

Lemma loop_forever_cons (t : I) (msg : mqtt_msg) (rest : list (I * mqtt_msg))
    (wd : world) :
  loop_forever f ((t, msg) :: rest) wd = loop_forever f rest (snd (f t msg wd)).
Proof.
  simpl. unfold mbind, M_bind. specialize (f_returns t msg wd).
  destruct (f t msg wd) as [[[]|e] wd']; [reflexivity | discriminate f_returns].
Qed.

Lemma loop_forever_app (evs1 evs2 : list (I * mqtt_msg)) (wd : world) :
  loop_forever f (evs1 ++ evs2) wd
  = loop_forever f evs2 (snd (loop_forever f evs1 wd)).
Proof.
  revert wd. induction evs1 as [|[t msg] evs1 IH]; intros wd; [reflexivity|].
  rewrite <- app_comm_cons, !loop_forever_cons. apply IH.
Qed.

Lemma loop_forever_returns (evs : list (I * mqtt_msg)) (wd : world) :
  fst (loop_forever f evs wd) = Ok tt.
Proof.
  revert wd. induction evs as [|[t msg] evs IH]; intros wd; [reflexivity|].
  rewrite loop_forever_cons. apply IH.
Qed.

End Loop.

(** C7: in both scripts [on_message] returns normally whatever the message:
    an exception of the [try] body (parsing, conversion, a rejected update)
    ends in the [except] branch, which logs it.  So the loop handles every
    message delivered, those after a failing one included, and ends only
    with the deliveries. *)
Theorem C7_failures_are_contained (rt : Runtime) (cfg : Mqtt2Exist.Config)
    (xcfg : Mqtt2Exit.Config) :
  (forall now msg wd, fst (Mqtt2Exist.on_message rt cfg now msg wd) = Ok tt)
  /\ (forall now msg wd, fst (Mqtt2Exit.on_message rt xcfg now msg wd) = Ok tt)
  /\ (forall now msg wd e wd',
        Mqtt2Exist.process rt cfg now (decode_utf8_replace rt (payload msg))
          (exist_received rt msg wd) = (Raise e, wd') ->
        Mqtt2Exist.on_message rt cfg now msg wd = (Ok tt, failure_logged e wd'))
  /\ (forall now msg wd e wd',
        Mqtt2Exit.process rt xcfg now (decode_utf8_replace rt (payload msg))
          (exit_received rt msg wd) = (Raise e, wd') ->
        Mqtt2Exit.on_message rt xcfg now msg wd = (Ok tt, failure_logged e wd'))
  /\ (forall evs wd, fst (loop_forever (Mqtt2Exist.on_message rt cfg) evs wd) = Ok tt)
  /\ (forall evs wd, fst (loop_forever (Mqtt2Exit.on_message rt xcfg) evs wd) = Ok tt)
  /\ (forall evs1 t msg evs2 wd,
        loop_forever (Mqtt2Exist.on_message rt cfg) (evs1 ++ (t, msg) :: evs2) wd
        = loop_forever (Mqtt2Exist.on_message rt cfg) evs2
            (snd (Mqtt2Exist.on_message rt cfg t msg
                    (snd (loop_forever (Mqtt2Exist.on_message rt cfg) evs1 wd)))))
  /\ (forall evs1 t msg evs2 wd,
        loop_forever (Mqtt2Exit.on_message rt xcfg) (evs1 ++ (t, msg) :: evs2) wd
        = loop_forever (Mqtt2Exit.on_message rt xcfg) evs2
            (snd (Mqtt2Exit.on_message rt xcfg t msg
                    (snd (loop_forever (Mqtt2Exit.on_message rt xcfg) evs1 wd))))).
Proof.
  pose proof (exist_on_message_returns rt cfg) as He.
  pose proof (exit_on_message_returns rt xcfg) as Hx.
  repeat split.
  - exact He.
  - exact Hx.
  - intros now msg wd e wd' H. now rewrite exist_on_message_cases, H.
  - intros now msg wd e wd' H. now rewrite exit_on_message_cases, H.
  - intros evs wd. now apply loop_forever_returns.
  - intros evs wd. now apply loop_forever_returns.
  - intros evs1 t msg evs2 wd.
    rewrite loop_forever_app by exact He. now apply loop_forever_cons.
  - intros evs1 t msg evs2 wd.
    rewrite loop_forever_app by exact Hx. now apply loop_forever_cons.
Qed.

(** A rejected update, then a good message: the first is logged as a
    failure with the status and the body, the second is still handled. *)
Example rejected_update_is_logged :
  Mqtt2Exist.on_message Fixture.runtime_rejecting Fixture.cfg Fixture.today
    (Fixture.message Fixture.payload_weight_only) Fixture.w0
  = (Ok tt,
     World
       [LogRecord INFO "MQTT message on %s: %s"
          [AStr "openScaleSync/measurements/last"; AStr Fixture.payload_weight_only];
        LogRecord INFO "Parsed payload -> date=%s, weight_kg=%.2f, fat=%s"
          [AStr Fixture.today; AFloat 84.75; AStr "None"];
        LogRecord INFO "Posting to Exist.io: %s"
          [AUpdates [Update "weight" Fixture.today 84.75]];
        LogRecord ERROR "Processing failed: %s"
          [AExn (RuntimeError "Exist update failed 500: Internal Server Error")]]
       [Request EXIST_UPDATE_URL
          [("Authorization", "Bearer token"); ("Content-Type", "application/json")]
          [Update "weight" Fixture.today 84.75] 30]
       [])
  /\ length (posted (snd (loop_forever
                            (Mqtt2Exist.on_message Fixture.runtime_rejecting Fixture.cfg)
                            [(Fixture.today, Fixture.message Fixture.payload_no_weight);
                             (Fixture.today, Fixture.message Fixture.payload_spec)]
                            Fixture.w0))) = 1%nat.
Proof. vm_compute. split; reflexivity. Qed.

(** * A payload without a weight *)

Section MissingWeight.
Context (rt : Runtime) (cfg : Mqtt2Exist.Config) (now : instant rt).
Context (m : gmap string pyval).
Hypothesis no_weight : m !! "weight" = None.
Hypothesis no_weight_kg : m !! "weight_kg" = None.

Lemma exist_resolve_weight_missing :
  Mqtt2Exist.resolve_weight rt (PyDict m) = Raise missing_weight.
Proof.
  unfold Mqtt2Exist.resolve_weight. simpl dict_get. unfold field.
  rewrite no_weight, no_weight_kg. reflexivity.
Qed.

Lemma exit_resolve_weight_missing :
  Mqtt2Exit.resolve_weight rt (PyDict m) = Raise missing_weight.
Proof.
  unfold Mqtt2Exit.resolve_weight. simpl dict_get. unfold field.
  rewrite no_weight, no_weight_kg. reflexivity.
Qed.

Lemma exist_parse_dict_missing :
  exists e, Mqtt2Exist.parse_dict rt cfg now (PyDict m) = Raise e
    /\ (is_ok (Mqtt2Exist.resolve_date rt cfg now (PyDict m)) = true -> e = missing_weight).
Proof.
  unfold Mqtt2Exist.parse_dict.
  destruct (Mqtt2Exist.resolve_date rt cfg now (PyDict m)) as [ds|e].
  - exists missing_weight. now rewrite bind_Ok, exist_resolve_weight_missing.
  - exists e. split; [reflexivity | discriminate].
Qed.

Lemma exit_parse_dict_missing :
  exists e, Mqtt2Exit.parse_dict rt now (PyDict m) = Raise e
    /\ (is_ok (Mqtt2Exit.resolve_date rt now (PyDict m)) = true -> e = missing_weight).
Proof.
  unfold Mqtt2Exit.parse_dict.
  destruct (Mqtt2Exit.resolve_date rt now (PyDict m)) as [ds|e].
  - exists missing_weight. now rewrite bind_Ok, exit_resolve_weight_missing.
  - exists e. split; [reflexivity | discriminate].
Qed.

End MissingWeight.

(** C5: when the payload parses to an object with neither [weight] nor
    [weight_kg], [parse_payload] raises (the [ValueError] of the missing
    weight, unless the date already failed), [on_message] logs the failure
    and returns, and no request is sent to the Exist API. *)
Theorem C5_missing_weight (rt : Runtime) (cfg : Mqtt2Exist.Config)
    (xcfg : Mqtt2Exit.Config) (now : instant rt) (msg : mqtt_msg)
    (m : gmap string pyval) (wd : world) :
  json_loads rt (decode_utf8_replace rt (payload msg)) = Ok (PyDict m) ->
  m !! "weight" = None ->
  m !! "weight_kg" = None ->
  (exists e,
      Mqtt2Exist.parse_payload rt cfg now (decode_utf8_replace rt (payload msg)) = Raise e
      /\ (is_ok (Mqtt2Exist.resolve_date rt cfg now (PyDict m)) = true ->
          e = ValueError "Payload missing 'weight' or 'weight_kg'")
      /\ Mqtt2Exist.on_message rt cfg now msg wd
         = (Ok tt, failure_logged e (exist_received rt msg wd)))
  /\ (exists e,
        Mqtt2Exit.parse_payload rt now (decode_utf8_replace rt (payload msg)) = Raise e
        /\ (is_ok (Mqtt2Exit.resolve_date rt now (PyDict m)) = true ->
            e = ValueError "Payload missing 'weight' or 'weight_kg'")
        /\ Mqtt2Exit.on_message rt xcfg now msg wd
           = (Ok tt, failure_logged e (exit_received rt msg wd)))
  /\ posted (snd (Mqtt2Exist.on_message rt cfg now msg wd)) = posted wd
  /\ posted (snd (Mqtt2Exit.on_message rt xcfg now msg wd)) = posted wd.
Proof.
  intros Hl Hw Hk.
  destruct (exist_parse_dict_missing rt cfg now m Hw Hk) as (e & He & Hde).
  destruct (exit_parse_dict_missing rt now m Hw Hk) as (x & Hx & Hdx).
  assert (Pe : Mqtt2Exist.parse_payload rt cfg now (decode_utf8_replace rt (payload msg))
               = Raise e).
  { unfold Mqtt2Exist.parse_payload. now rewrite Hl, bind_Ok. }
  assert (Px : Mqtt2Exit.parse_payload rt now (decode_utf8_replace rt (payload msg))
               = Raise x).
  { unfold Mqtt2Exit.parse_payload. now rewrite Hl, bind_Ok. }
  assert (Oe : Mqtt2Exist.on_message rt cfg now msg wd
               = (Ok tt, failure_logged e (exist_received rt msg wd))).
  { rewrite exist_on_message_cases.
    now rewrite (exist_process_parse_failure rt cfg now _ e _ Pe). }
  assert (Ox : Mqtt2Exit.on_message rt xcfg now msg wd
               = (Ok tt, failure_logged x (exit_received rt msg wd))).
  { rewrite exit_on_message_cases.
    now rewrite (exit_process_parse_failure rt xcfg now _ x _ Px). }
  split; [exists e; auto|]. split; [exists x; auto|].
  rewrite Oe, Ox. split; reflexivity.
Qed.

(** The payload of the fixture that has only a [fat] field. *)
Lemma C5_missing_weight_witness :
  (exists e,
      Mqtt2Exist.parse_payload Fixture.runtime Fixture.cfg Fixture.today
        Fixture.payload_no_weight = Raise e
      /\ (is_ok (Mqtt2Exist.resolve_date Fixture.runtime Fixture.cfg Fixture.today
                   (PyDict Fixture.d_no_weight)) = true ->
          e = ValueError "Payload missing 'weight' or 'weight_kg'")
      /\ Mqtt2Exist.on_message Fixture.runtime Fixture.cfg Fixture.today
           (Fixture.message Fixture.payload_no_weight) Fixture.w0
         = (Ok tt, failure_logged e
                     (exist_received Fixture.runtime
                        (Fixture.message Fixture.payload_no_weight) Fixture.w0)))
  /\ (exists e,
        Mqtt2Exit.parse_payload Fixture.runtime Fixture.today
          Fixture.payload_no_weight = Raise e
        /\ (is_ok (Mqtt2Exit.resolve_date Fixture.runtime Fixture.today
                     (PyDict Fixture.d_no_weight)) = true ->
            e = ValueError "Payload missing 'weight' or 'weight_kg'")
        /\ Mqtt2Exit.on_message Fixture.runtime Fixture.cfg_exit Fixture.today
             (Fixture.message Fixture.payload_no_weight) Fixture.w0
           = (Ok tt, failure_logged e
                       (exit_received Fixture.runtime
                          (Fixture.message Fixture.payload_no_weight) Fixture.w0)))
  /\ posted (snd (Mqtt2Exist.on_message Fixture.runtime Fixture.cfg Fixture.today
                    (Fixture.message Fixture.payload_no_weight) Fixture.w0)) = []
  /\ posted (snd (Mqtt2Exit.on_message Fixture.runtime Fixture.cfg_exit Fixture.today
                    (Fixture.message Fixture.payload_no_weight) Fixture.w0)) = [].
Proof.
  exact (C5_missing_weight Fixture.runtime Fixture.cfg Fixture.cfg_exit Fixture.today
           (Fixture.message Fixture.payload_no_weight) Fixture.d_no_weight Fixture.w0
           eq_refl eq_refl eq_refl).
Defined.

(** * A payload without a fat reading *)

Section FatAbsent.
Context (rt : Runtime) (cfg : Mqtt2Exist.Config) (now : instant rt).
Context (m : gmap string pyval).
Hypothesis no_fat : field m "fat" = PyNone.

Lemma exist_resolve_fat_absent : Mqtt2Exist.resolve_fat rt (PyDict m) = Ok None.
Proof. unfold Mqtt2Exist.resolve_fat. autorewrite with py. now rewrite no_fat. Qed.

Lemma exit_resolve_fat_absent : Mqtt2Exit.resolve_fat rt (PyDict m) = Raise TypeError.
Proof. unfold Mqtt2Exit.resolve_fat. autorewrite with py. now rewrite no_fat. Qed.

(** mqtt2exist.py does what the specification asks: the record has no fat
    fraction, and the list of updates has the weight update only. *)
Lemma exist_fat_absent_record (ds : string) (kg : float) :
  Mqtt2Exist.resolve_date rt cfg now (PyDict m) = Ok ds ->
  Mqtt2Exist.resolve_weight rt (PyDict m) = Ok kg ->
  exists w, py_round kg 2 = Ok w
    /\ Mqtt2Exist.parse_dict rt cfg now (PyDict m) = Ok (ds, w, None)
    /\ Mqtt2Exist.updates_of cfg ds w None = [Update (Mqtt2Exist.ATTR_WEIGHT cfg) ds w].
Proof.
  intros Hd Hw.
  destruct (exist_parse_dict_total rt cfg now _ ds kg None Hd Hw exist_resolve_fat_absent)
    as (w & Hr & H).
  exists w. auto.
Qed.

(** mqtt2exit.py divides the missing value by 100. *)
Lemma exit_fat_absent_raises (ds : string) (kg : float) :
  Mqtt2Exit.resolve_date rt now (PyDict m) = Ok ds ->
  Mqtt2Exit.resolve_weight rt (PyDict m) = Ok kg ->
  Mqtt2Exit.parse_dict rt now (PyDict m) = Raise TypeError.
Proof.
  intros Hd Hw. unfold Mqtt2Exit.parse_dict.
  now rewrite Hd, bind_Ok, Hw, bind_Ok, exit_resolve_fat_absent.
Qed.

End FatAbsent.

(** C2 fails in mqtt2exit.py: on the payload with only [weight] 84.75 its
    [parse_payload] raises [TypeError] and nothing is posted, where
    mqtt2exist.py returns the record without a fat fraction and posts the
    one weight update. *)
Theorem C2_exit_raises_without_fat :
  Fixture.d_weight_only !! "fat" = None
  /\ Mqtt2Exit.parse_payload Fixture.runtime Fixture.today Fixture.payload_weight_only
     = Raise TypeError
  /\ posted (snd (Mqtt2Exit.on_message Fixture.runtime Fixture.cfg_exit Fixture.today
                    (Fixture.message Fixture.payload_weight_only) Fixture.w0)) = []
  /\ Mqtt2Exist.parse_payload Fixture.runtime Fixture.cfg Fixture.today
       Fixture.payload_weight_only = Ok (Fixture.today, 84.75, None)%float
  /\ map json (posted (snd (Mqtt2Exist.on_message Fixture.runtime Fixture.cfg Fixture.today
                              (Fixture.message Fixture.payload_weight_only) Fixture.w0)))
     = [[Update "weight" Fixture.today 84.75]].
Proof. vm_compute. repeat split; reflexivity. Qed.

(** * Starting without a token *)

(** mqtt2exist.py refuses to start without a token: [main] raises before
    it connects, and nothing is logged, subscribed or posted. *)
Lemma exist_main_without_token (rt : Runtime) (cfg : Mqtt2Exist.Config)
    (session : Session rt) (wd : world) :
  str_truthy (Mqtt2Exist.EXIST_TOKEN cfg) = false ->
  Mqtt2Exist.main rt cfg session wd
  = (Raise (RuntimeError
              "EXIST_TOKEN is not configured. Set it in .env or environment variables."),
     wd).
Proof. intros H. unfold Mqtt2Exist.main. now rewrite H. Qed.

Lemma exist_script_without_token (rt : Runtime) (environ : gmap string string)
    (session : Session rt) (wd : world) :
  environ !! "EXIST_TOKEN" = None ->
  exists e, Mqtt2Exist.script rt environ session wd = (Raise e, wd).
Proof.
  intros H. unfold Mqtt2Exist.script, mbind, M_bind, lift.
  destruct (Mqtt2Exist.load_config rt environ) as [cfg|e] eqn:Hc; [|eauto].
  eexists. apply exist_main_without_token.
  unfold Mqtt2Exist.load_config in Hc.
  destruct (int_of_str rt _); [|discriminate Hc].
  injection Hc as <-. simpl. unfold getenv. now rewrite H.
Qed.

(** mqtt2exit.py has no such check: it connects, subscribes and takes
    messages, and each one fails in [post_exist]. *)
Lemma exit_main_without_token (rt : Runtime) (xcfg : Mqtt2Exit.Config)
    (evs : list (instant rt * mqtt_msg)) (wd : world) :
  fst (Mqtt2Exit.main rt xcfg {| connect := Ok 0; deliveries := evs |} wd) = Ok tt.
Proof.
  unfold Mqtt2Exit.main, mbind at 1, M_bind at 1, lift. simpl connect.
  unfold mbind at 1, M_bind at 1.
  destruct (Mqtt2Exit.on_connect 0 wd) as [[[]|e] wd'] eqn:Hc.
  - apply loop_forever_returns. apply exit_on_message_returns.
  - discriminate Hc.
Qed.

(** C3 fails in mqtt2exit.py: with [EXIST_TOKEN] unset the script starts,
    subscribes, and fails on the message it is given, where mqtt2exist.py
    raises from [main] before anything else happens. *)
Theorem C3_exit_starts_without_token :
  Mqtt2Exit.script Fixture.runtime ∅ (Fixture.session Fixture.payload_spec) Fixture.w0
  = (Ok tt,
     World
       [LogRecord INFO "Connected to MQTT; subscribing %s"
          [AStr "openScaleSync/measurements/last"];
        LogRecord INFO "MQTT %s: %s"
          [AStr "openScaleSync/measurements/last"; AStr Fixture.payload_spec];
        LogRecord ERROR "Processing failed: %s"
          [AExn (RuntimeError "Set EXIST_TOKEN (OAuth2 Bearer with write scope).")]]
       []
       [("openScaleSync/measurements/last", 1)])
  /\ Mqtt2Exist.script Fixture.runtime ∅ (Fixture.session Fixture.payload_spec) Fixture.w0
     = (Raise (RuntimeError
                 "EXIST_TOKEN is not configured. Set it in .env or environment variables."),
        Fixture.w0).
Proof. vm_compute. split; reflexivity. Qed.

(** * The two normalizers side by side *)

Lemma py_round_raises (x : float) (n : Z) (e : exn) :
  py_round x n = Raise e -> e = OverflowError.
Proof.
  unfold py_round. destruct (Prim2SF x) as [s|s| |s mx ex]; try discriminate.
  unfold finite_or_overflow.
  destruct (SFdiv _ _ _ _); try discriminate. now intros [= <-].
Qed.

Section Agreement.
Context (rt : Runtime) (cfg : Mqtt2Exist.Config) (now : instant rt).
Hypothesis same_zone : Mqtt2Exist.LOCAL_TZ cfg = Mqtt2Exit.LOCAL_TZ.

Lemma to_local_date_agree (v : pyval) :
  Mqtt2Exist.to_local_date rt cfg now v = Mqtt2Exit.to_local_date rt now v.
Proof.
  unfold Mqtt2Exist.to_local_date, Mqtt2Exit.to_local_date. rewrite same_zone.
  destruct (ZoneInfo rt Mqtt2Exit.LOCAL_TZ) as [tz|e] eqn:Hz; [|reflexivity].
  rewrite !bind_Ok. destruct v; try reflexivity;
    (destruct (datetime_fromisoformat rt _) as [dt|e]; [|reflexivity]);
    rewrite !bind_Ok; reflexivity.
Qed.

Lemma resolve_date_agree (d : pyval) :
  Mqtt2Exist.resolve_date rt cfg now d = Mqtt2Exit.resolve_date rt now d.
Proof.
  unfold Mqtt2Exist.resolve_date, Mqtt2Exit.resolve_date.
  change (Mqtt2Exit.date_field d) with (Mqtt2Exist.date_field d).
  destruct (Mqtt2Exist.date_field d) as [v|e]; [|reflexivity].
  rewrite !bind_Ok. apply to_local_date_agree.
Qed.

Lemma resolve_weight_agree (d : pyval) :
  Mqtt2Exist.resolve_weight rt d = Mqtt2Exit.resolve_weight rt d.
Proof.
  unfold Mqtt2Exist.resolve_weight, Mqtt2Exit.resolve_weight.
  destruct (dict_get d "weight" PyNone) as [w|e]; [|reflexivity]. rewrite !bind_Ok.
  destruct (dict_get d "weight_kg" w) as [weight|e]; [|reflexivity]. rewrite !bind_Ok.
  destruct (is_None weight); [reflexivity|].
  change (Mqtt2Exit.unit_field d) with (Mqtt2Exist.unit_field d).
  destruct (Mqtt2Exist.unit_field d) as [u|e]; [|reflexivity]. rewrite !bind_Ok.
  destruct (String.eqb u "kg"); [reflexivity|].
  unfold Mqtt2Exit.lb_to_kg, Mqtt2Exist.lb_to_kg.
  destruct (py_float (float_of_str rt) weight) as [f|e]; reflexivity.
Qed.

(** The scripts agree on every payload on which [float(fat) / 100.0]
    and [fat / 100] agree. *)
Lemma parse_dict_agree (m : gmap string pyval) (v : pyval) :
  m !! "fat" = Some v ->
  is_None v = false ->
  (py_float (float_of_str rt) v ≫= fun f => Ok (f / 100)%float) = py_truediv v 100 ->
  Mqtt2Exist.parse_dict rt cfg now (PyDict m) = Mqtt2Exit.parse_dict rt now (PyDict m).
Proof.
  intros Hfat Hn Hq.
  unfold Mqtt2Exist.parse_dict, Mqtt2Exit.parse_dict.
  rewrite resolve_date_agree, resolve_weight_agree.
  destruct (Mqtt2Exit.resolve_date rt now (PyDict m)) as [ds|e]; [|reflexivity].
  rewrite !bind_Ok.
  destruct (Mqtt2Exit.resolve_weight rt (PyDict m)) as [kg|e]; [|reflexivity].
  rewrite !bind_Ok.
  unfold Mqtt2Exist.resolve_fat, Mqtt2Exit.resolve_fat.
  autorewrite with py. unfold field. rewrite Hfat. simpl default.
  rewrite Hn. simpl negb. cbv iota. rewrite <- Hq.
  destruct (py_float (float_of_str rt) v) as [f|e]; [|reflexivity].
  rewrite !bind_Ok. simpl is_None. cbv iota. simpl py_float. rewrite !bind_Ok.
  destruct (py_round (f / 100) 2) as [r|e1] eqn:Hr;
    destruct (py_round kg 2) as [w|e2] eqn:Hw; try reflexivity.
  apply py_round_raises in Hr, Hw. now subst.
Qed.

Lemma exit_fat_not_a_number (m : gmap string pyval) (ds : string) (kg : float) :
  field m "fat" = PyNone \/ (exists s, field m "fat" = PyStr s) ->
  Mqtt2Exit.resolve_date rt now (PyDict m) = Ok ds ->
  Mqtt2Exit.resolve_weight rt (PyDict m) = Ok kg ->
  Mqtt2Exit.parse_dict rt now (PyDict m) = Raise TypeError.
Proof.
  intros Hf Hd Hw. unfold Mqtt2Exit.parse_dict.
  rewrite Hd, bind_Ok, Hw, bind_Ok.
  unfold Mqtt2Exit.resolve_fat. autorewrite with py.
  destruct Hf as [-> | (s & ->)]; reflexivity.
Qed.

Lemma exist_fat_not_a_number (m : gmap string pyval) (ds : string) (kg : float) :
  field m "fat" = PyNone \/ (exists s, field m "fat" = PyStr s) ->
  Mqtt2Exist.resolve_date rt cfg now (PyDict m) = Ok ds ->
  Mqtt2Exist.resolve_weight rt (PyDict m) = Ok kg ->
  Mqtt2Exist.parse_dict rt cfg now (PyDict m) <> Raise TypeError.
Proof.
  intros Hf Hd Hw. unfold Mqtt2Exist.parse_dict.
  rewrite Hd, bind_Ok, Hw, bind_Ok.
  unfold Mqtt2Exist.resolve_fat. autorewrite with py.
  destruct Hf as [-> | (s & ->)]; simpl is_None; simpl negb; cbv iota.
  - rewrite bind_Ok. destruct (py_round kg 2) as [w|e] eqn:Hr; [discriminate|].
    apply py_round_raises in Hr. subst e. discriminate.
  - simpl py_float. destruct (float_of_str rt s) as [f|]; [|discriminate].
    rewrite bind_Ok.
    destruct (py_round (f / 100) 2) as [r|e] eqn:Hr.
    + rewrite !bind_Ok. destruct (py_round kg 2) as [w|e] eqn:Hk; [discriminate|].
      apply py_round_raises in Hk. subst e. discriminate.
    + apply py_round_raises in Hr. subst e. discriminate.
Qed.

End Agreement.

(** C10, as the scripts have it: under the zone of mqtt2exit.py the two
    [parse_payload] give the same result, record or exception, when [fat]
    is a JSON real, or a JSON integer of magnitude at most 2^53 (one that a
    double holds exactly).  When [fat] is absent, null or a string and the
    date and the weight resolve, mqtt2exit.py raises [TypeError] and
    mqtt2exist.py does not. *)
Theorem C10_normalizers_agree (rt : Runtime) (cfg : Mqtt2Exist.Config)
    (now : instant rt) (m : gmap string pyval) :
  Mqtt2Exist.LOCAL_TZ cfg = Mqtt2Exit.LOCAL_TZ ->
  (forall x, m !! "fat" = Some (PyFloat x) ->
     Mqtt2Exist.parse_dict rt cfg now (PyDict m) = Mqtt2Exit.parse_dict rt now (PyDict m))
  /\ (forall z, m !! "fat" = Some (PyInt z) -> - 2 ^ 53 <= z <= 2 ^ 53 ->
        Mqtt2Exist.parse_dict rt cfg now (PyDict m) = Mqtt2Exit.parse_dict rt now (PyDict m))
  /\ (forall ds kg,
        field m "fat" = PyNone \/ (exists s, field m "fat" = PyStr s) ->
        Mqtt2Exist.resolve_date rt cfg now (PyDict m) = Ok ds ->
        Mqtt2Exist.resolve_weight rt (PyDict m) = Ok kg ->
        Mqtt2Exit.parse_dict rt now (PyDict m) = Raise TypeError
        /\ Mqtt2Exist.parse_dict rt cfg now (PyDict m) <> Raise TypeError).
Proof.
  intros Hz. split; [|split].
  - intros x Hf. now apply (parse_dict_agree rt cfg now Hz m (PyFloat x)).
  - intros z Hf Hr. apply (parse_dict_agree rt cfg now Hz m (PyInt z)); auto.
    now apply small_int_truediv.
  - intros ds kg Hf Hd Hw. split.
    + apply (exit_fat_not_a_number rt now m ds kg Hf).
      * now rewrite <- (resolve_date_agree rt cfg now Hz).
      * now rewrite <- resolve_weight_agree.
    + now apply (exist_fat_not_a_number rt cfg now m ds kg).
Qed.

Lemma C10_normalizers_agree_witness :
  (forall x, Fixture.d_spec !! "fat" = Some (PyFloat x) ->
     Mqtt2Exist.parse_dict Fixture.runtime Fixture.cfg Fixture.today (PyDict Fixture.d_spec)
     = Mqtt2Exit.parse_dict Fixture.runtime Fixture.today (PyDict Fixture.d_spec))
  /\ (forall z, Fixture.d_spec !! "fat" = Some (PyInt z) -> - 2 ^ 53 <= z <= 2 ^ 53 ->
        Mqtt2Exist.parse_dict Fixture.runtime Fixture.cfg Fixture.today (PyDict Fixture.d_spec)
        = Mqtt2Exit.parse_dict Fixture.runtime Fixture.today (PyDict Fixture.d_spec))
  /\ (forall ds kg,
        field Fixture.d_spec "fat" = PyNone \/ (exists s, field Fixture.d_spec "fat" = PyStr s) ->
        Mqtt2Exist.resolve_date Fixture.runtime Fixture.cfg Fixture.today
          (PyDict Fixture.d_spec) = Ok ds ->
        Mqtt2Exist.resolve_weight Fixture.runtime (PyDict Fixture.d_spec) = Ok kg ->
        Mqtt2Exit.parse_dict Fixture.runtime Fixture.today (PyDict Fixture.d_spec)
        = Raise TypeError
        /\ Mqtt2Exist.parse_dict Fixture.runtime Fixture.cfg Fixture.today
             (PyDict Fixture.d_spec) <> Raise TypeError).
Proof.
  exact (C10_normalizers_agree Fixture.runtime Fixture.cfg Fixture.today Fixture.d_spec
           eq_refl).
Defined.

(** C10 as stated fails on an integer too large for a double: with [fat]
    the JSON number 10^309, [float(fat)] raises [OverflowError] in
    mqtt2exist.py, while mqtt2exit.py divides the integers exactly and
    returns a record. *)
Lemma C10_counterexample :
  Fixture.d_huge_fat !! "fat" = Some (PyInt (10 ^ 309))
  /\ Mqtt2Exist.LOCAL_TZ Fixture.cfg = Mqtt2Exit.LOCAL_TZ
  /\ Mqtt2Exist.parse_dict Fixture.runtime Fixture.cfg Fixture.today
       (PyDict Fixture.d_huge_fat) = Raise OverflowError
  /\ Mqtt2Exit.parse_dict Fixture.runtime Fixture.today (PyDict Fixture.d_huge_fat)
     = Ok (Fixture.today, 80, Some 1e307)%float.
Proof. vm_compute. repeat split; reflexivity. Qed.

(** * The fields [parse_payload] reads *)

Lemma weight_field_kg (m : gmap string pyval) (v : pyval) :
  m !! "weight_kg" = Some v -> weight_field m = v.
Proof. intros H. unfold weight_field. now rewrite H. Qed.

Lemma first_truthy_date_ext (m1 m2 : gmap string pyval) :
  m1 !! "date" = m2 !! "date" -> m1 !! "timestamp" = m2 !! "timestamp" ->
  m1 !! "ts" = m2 !! "ts" ->
  first_truthy_date m1 = first_truthy_date m2.
Proof. intros Hd Ht Hs. unfold first_truthy_date, field. now rewrite Hd, Ht, Hs. Qed.

Lemma weight_field_ext (m1 m2 : gmap string pyval) :
  m1 !! "weight" = m2 !! "weight" -> m1 !! "weight_kg" = m2 !! "weight_kg" ->
  weight_field m1 = weight_field m2.
Proof. intros Hw Hk. unfold weight_field, field. now rewrite Hw, Hk. Qed.

Lemma weight_field_insert_weight (m : gmap string pyval) (v : pyval) :
  weight_field (<["weight" := v]> m) = default v (m !! "weight_kg").
Proof.
  unfold weight_field, field.
  rewrite lookup_insert_eq. now rewrite lookup_insert_ne.
Qed.

Lemma weight_field_insert_kg (m : gmap string pyval) (v : pyval) :
  weight_field (<["weight_kg" := v]> m) = v.
Proof. unfold weight_field. now rewrite lookup_insert_eq. Qed.

Section Fields.
Context (rt : Runtime) (m1 m2 : gmap string pyval).

(** The weight depends on the dict through [is None] and [float()] of the
    weight field, and through the [unit] field. *)
Lemma resolve_weight_congr :
  is_None (weight_field m1) = is_None (weight_field m2) ->
  py_float (float_of_str rt) (weight_field m1)
  = py_float (float_of_str rt) (weight_field m2) ->
  m1 !! "unit" = m2 !! "unit" ->
  Mqtt2Exist.resolve_weight rt (PyDict m1) = Mqtt2Exist.resolve_weight rt (PyDict m2)
  /\ Mqtt2Exit.resolve_weight rt (PyDict m1) = Mqtt2Exit.resolve_weight rt (PyDict m2).
Proof.
  intros Hn Hf Hu.
  unfold Mqtt2Exist.resolve_weight, Mqtt2Exit.resolve_weight,
    Mqtt2Exist.unit_field, Mqtt2Exit.unit_field, Mqtt2Exit.lb_to_kg.
  autorewrite with py. simpl dict_get. fold (weight_field m1) (weight_field m2).
  autorewrite with py. unfold field. rewrite Hn, Hf, Hu. split; reflexivity.
Qed.

Lemma resolve_fat_ext :
  m1 !! "fat" = m2 !! "fat" ->
  Mqtt2Exist.resolve_fat rt (PyDict m1) = Mqtt2Exist.resolve_fat rt (PyDict m2)
  /\ Mqtt2Exit.resolve_fat rt (PyDict m1) = Mqtt2Exit.resolve_fat rt (PyDict m2).
Proof.
  intros Hf. unfold Mqtt2Exist.resolve_fat, Mqtt2Exit.resolve_fat.
  autorewrite with py. unfold field. rewrite Hf. split; reflexivity.
Qed.

Lemma resolve_date_ext (cfg : Mqtt2Exist.Config) (now : instant rt) :
  first_truthy_date m1 = first_truthy_date m2 ->
  Mqtt2Exist.resolve_date rt cfg now (PyDict m1)
  = Mqtt2Exist.resolve_date rt cfg now (PyDict m2)
  /\ Mqtt2Exit.resolve_date rt now (PyDict m1) = Mqtt2Exit.resolve_date rt now (PyDict m2).
Proof.
  intros Hd. rewrite !exist_resolve_date, !exit_resolve_date, Hd. split; reflexivity.
Qed.

Lemma parse_dict_congr (cfg : Mqtt2Exist.Config) (now : instant rt) :
  first_truthy_date m1 = first_truthy_date m2 ->
  is_None (weight_field m1) = is_None (weight_field m2) ->
  py_float (float_of_str rt) (weight_field m1)
  = py_float (float_of_str rt) (weight_field m2) ->
  m1 !! "unit" = m2 !! "unit" ->
  m1 !! "fat" = m2 !! "fat" ->
  Mqtt2Exist.parse_dict rt cfg now (PyDict m1) = Mqtt2Exist.parse_dict rt cfg now (PyDict m2)
  /\ Mqtt2Exit.parse_dict rt now (PyDict m1) = Mqtt2Exit.parse_dict rt now (PyDict m2).
Proof.
  intros Hd Hn Hw Hu Hf.
  destruct (resolve_date_ext cfg now Hd) as (Hd1 & Hd2).
  destruct (resolve_weight_congr Hn Hw Hu) as (Hw1 & Hw2).
  destruct (resolve_fat_ext Hf) as (Hf1 & Hf2).
  unfold Mqtt2Exist.parse_dict, Mqtt2Exit.parse_dict.
  rewrite Hd1, Hd2, Hw1, Hw2, Hf1, Hf2. split; reflexivity.
Qed.

End Fields.

(** What [float()] raises, by the type of its argument. *)
Lemma py_float_raises (fos : string -> option float) (v : pyval) (e : exn) :
  py_float fos v = Raise e ->
  match v with
  | PyStr s => fos s = None /\ exists msg, e = ValueError msg
  | PyInt _ => e = OverflowError
  | PyNone | PyList _ | PyDict _ => e = TypeError
  | PyBool _ | PyFloat _ => False
  end.
Proof.
  destruct v as [| b | z | f | s | l | m]; simpl; try discriminate; try (now intros [= <-]).
  - unfold int_to_float, finite_or_overflow.
    destruct (binary_normalize _ _ _ _ _); try discriminate. now intros [= <-].
  - destruct (fos s); [discriminate|]. intros [= <-]. eauto.
Qed.

Lemma resolve_weight_float_raises (rt : Runtime) (m : gmap string pyval) (u : string)
    (e : exn) :
  is_None (weight_field m) = false ->
  Mqtt2Exist.unit_field (PyDict m) = Ok u ->
  py_float (float_of_str rt) (weight_field m) = Raise e ->
  Mqtt2Exist.resolve_weight rt (PyDict m) = Raise e
  /\ Mqtt2Exit.resolve_weight rt (PyDict m) = Raise e.
Proof.
  intros Hn Hu Hf. unfold Mqtt2Exist.resolve_weight, Mqtt2Exit.resolve_weight.
  change (Mqtt2Exit.unit_field (PyDict m)) with (Mqtt2Exist.unit_field (PyDict m)).
  autorewrite with py. simpl dict_get. fold (weight_field m).
  autorewrite with py. rewrite Hn, Hu. autorewrite with py.
  unfold Mqtt2Exit.lb_to_kg. rewrite Hf.
  destruct (String.eqb u "kg"); split; reflexivity.
Qed.

(** X1: [weight_kg] is looked up first.  When the key is present, the
    [weight] key is not used: the weight both scripts resolve is the same
    whatever [weight] holds; and a [weight_kg] that is null counts as a
    missing weight even when [weight] has a value. *)
Theorem X1_weight_kg_precedence (rt : Runtime) (m : gmap string pyval) (v w : pyval) :
  m !! "weight_kg" = Some v ->
  Mqtt2Exist.resolve_weight rt (PyDict (<["weight" := w]> m))
  = Mqtt2Exist.resolve_weight rt (PyDict m)
  /\ Mqtt2Exit.resolve_weight rt (PyDict (<["weight" := w]> m))
     = Mqtt2Exit.resolve_weight rt (PyDict m)
  /\ (v = PyNone ->
      Mqtt2Exist.resolve_weight rt (PyDict (<["weight" := w]> m)) = Raise missing_weight
      /\ Mqtt2Exit.resolve_weight rt (PyDict (<["weight" := w]> m)) = Raise missing_weight).
Proof.
  intros Hk.
  assert (Hk' : <["weight" := w]> m !! "weight_kg" = Some v)
    by now rewrite lookup_insert_ne.
  assert (Hwf : weight_field (<["weight" := w]> m) = weight_field m)
    by now rewrite (weight_field_kg _ v Hk'), (weight_field_kg _ v Hk).
  assert (Hu : <["weight" := w]> m !! "unit" = m !! "unit")
    by now rewrite lookup_insert_ne.
  destruct (resolve_weight_congr rt (<["weight" := w]> m) m) as (He & Hx);
    [now rewrite Hwf | now rewrite Hwf | exact Hu |].
  split; [exact He|]. split; [exact Hx|].
  intros ->.
  unfold Mqtt2Exist.resolve_weight, Mqtt2Exit.resolve_weight.
  autorewrite with py. simpl dict_get. fold (weight_field (<["weight" := w]> m)).
  rewrite (weight_field_kg _ PyNone Hk'). split; reflexivity.
Qed.

(** A payload with [weight] 84.75 and a null [weight_kg]. *)
Lemma X1_weight_kg_precedence_witness :
  Mqtt2Exist.resolve_weight Fixture.runtime
    (PyDict (<["weight" := PyFloat 84.75]> {[ "weight_kg" := PyNone ]}))
  = Raise missing_weight
  /\ Mqtt2Exit.resolve_weight Fixture.runtime
       (PyDict (<["weight" := PyFloat 84.75]> {[ "weight_kg" := PyNone ]}))
     = Raise missing_weight.
Proof.
  exact (proj2 (proj2 (X1_weight_kg_precedence Fixture.runtime {[ "weight_kg" := PyNone ]}
                         PyNone (PyFloat 84.75) eq_refl)) eq_refl).
Defined.

(** X2: a weight that [float()] does not accept is an error in both
    scripts, not a default: the exception of [float()] leaves
    [parse_payload] as soon as the date has resolved.  It is a
    [ValueError] for a string that is no number, an [OverflowError] for an
    integer beyond the doubles and a [TypeError] for an array or an
    object. *)
Theorem X2_weight_not_a_number (rt : Runtime) (m : gmap string pyval) (u : string)
    (e : exn) :
  is_None (weight_field m) = false ->
  Mqtt2Exist.unit_field (PyDict m) = Ok u ->
  py_float (float_of_str rt) (weight_field m) = Raise e ->
  Mqtt2Exist.resolve_weight rt (PyDict m) = Raise e
  /\ Mqtt2Exit.resolve_weight rt (PyDict m) = Raise e
  /\ (forall cfg now ds,
        Mqtt2Exist.resolve_date rt cfg now (PyDict m) = Ok ds ->
        Mqtt2Exist.parse_dict rt cfg now (PyDict m) = Raise e)
  /\ (forall now ds,
        Mqtt2Exit.resolve_date rt now (PyDict m) = Ok ds ->
        Mqtt2Exit.parse_dict rt now (PyDict m) = Raise e)
  /\ match weight_field m with
     | PyStr s => float_of_str rt s = None /\ exists msg, e = ValueError msg
     | PyInt _ => e = OverflowError
     | _ => e = TypeError
     end.
Proof.
  intros Hn Hu Hf.
  destruct (resolve_weight_float_raises rt m u e Hn Hu Hf) as (He & Hx).
  split; [exact He|]. split; [exact Hx|]. split; [|split].
  - intros cfg now ds Hd. unfold Mqtt2Exist.parse_dict. now rewrite Hd, bind_Ok, He.
  - intros now ds Hd. unfold Mqtt2Exit.parse_dict. now rewrite Hd, bind_Ok, Hx.
  - apply py_float_raises in Hf. destruct (weight_field m); tauto.
Qed.

(** The payload whose [weight] is the string "heavy". *)
Lemma X2_weight_not_a_number_witness :
  Mqtt2Exist.resolve_weight Fixture.runtime (PyDict Cases.d_weight_text)
  = Raise (ValueError "could not convert string to float")
  /\ Mqtt2Exit.resolve_weight Fixture.runtime (PyDict Cases.d_weight_text)
     = Raise (ValueError "could not convert string to float").
Proof.
  pose proof (X2_weight_not_a_number Fixture.runtime Cases.d_weight_text "kg"
                (ValueError "could not convert string to float")
                eq_refl eq_refl eq_refl) as H.
  exact (conj (proj1 H) (proj1 (proj2 H))).
Defined.

(** X3: a number written as a string is taken as the number.  Where
    [float()] accepts the string [s] and gives [f], a [weight] or
    [weight_kg] with the value [s] resolves as it does with the value [f],
    in both scripts; so does the [fat] of mqtt2exist.py. *)
Theorem X3_numeric_string_is_coerced (rt : Runtime) (m : gmap string pyval)
    (s : string) (f : float) :
  float_of_str rt s = Some f ->
  (forall k, k = "weight" \/ k = "weight_kg" ->
     Mqtt2Exist.resolve_weight rt (PyDict (<[k := PyStr s]> m))
     = Mqtt2Exist.resolve_weight rt (PyDict (<[k := PyFloat f]> m))
     /\ Mqtt2Exit.resolve_weight rt (PyDict (<[k := PyStr s]> m))
        = Mqtt2Exit.resolve_weight rt (PyDict (<[k := PyFloat f]> m)))
  /\ Mqtt2Exist.resolve_fat rt (PyDict (<["fat" := PyStr s]> m))
     = Mqtt2Exist.resolve_fat rt (PyDict (<["fat" := PyFloat f]> m)).
Proof.
  intros Hs. split.
  - intros k Hk. apply resolve_weight_congr.
    + destruct Hk as [-> | ->].
      * rewrite !weight_field_insert_weight. now destruct (m !! "weight_kg").
      * now rewrite !weight_field_insert_kg.
    + destruct Hk as [-> | ->].
      * rewrite !weight_field_insert_weight.
        destruct (m !! "weight_kg"); [reflexivity|]. simpl. now rewrite Hs.
      * rewrite !weight_field_insert_kg. simpl. now rewrite Hs.
    + destruct Hk as [-> | ->]; now rewrite !lookup_insert_ne.
  - unfold Mqtt2Exist.resolve_fat. autorewrite with py. unfold field.
    rewrite !lookup_insert_eq. simpl. now rewrite Hs.
Qed.

(** A weight written as the string "84.75". *)
Lemma X3_numeric_string_is_coerced_witness :
  Mqtt2Exist.resolve_weight Cases.runtime (PyDict (<["weight" := PyStr "84.75"]> ∅))
  = Mqtt2Exist.resolve_weight Cases.runtime (PyDict (<["weight" := PyFloat 84.75]> ∅))
  /\ Mqtt2Exit.resolve_weight Cases.runtime (PyDict (<["weight" := PyStr "84.75"]> ∅))
     = Mqtt2Exit.resolve_weight Cases.runtime (PyDict (<["weight" := PyFloat 84.75]> ∅)).
Proof.
  exact (proj1 (X3_numeric_string_is_coerced Cases.runtime ∅ "84.75" 84.75%float eq_refl)
           "weight" (or_introl eq_refl)).
Defined.

(** The string resolves to the number. *)
Example weight_as_string :
  Mqtt2Exist.resolve_weight Cases.runtime (PyDict (<["weight" := PyStr "84.75"]> ∅))
  = Ok 84.75%float.
Proof. vm_compute. reflexivity. Qed.

(** X4: the [fat] field is not checked against the range of a percentage.
    For every float [x] (negative, above 100, infinite or not a number)
    [round(x / 100, 2)] is defined and is the fat fraction of the record,
    which both scripts return as soon as the date and the weight
    resolve. *)
Theorem X4_fat_not_range_checked (rt : Runtime) (cfg : Mqtt2Exist.Config)
    (now : instant rt) (m : gmap string pyval) (x : float) :
  m !! "fat" = Some (PyFloat x) ->
  exists r, py_round (x / 100) 2 = Ok r
  /\ Mqtt2Exist.resolve_fat rt (PyDict m) = Ok (Some r)
  /\ (forall ds kg,
        Mqtt2Exist.resolve_date rt cfg now (PyDict m) = Ok ds ->
        Mqtt2Exist.resolve_weight rt (PyDict m) = Ok kg ->
        exists w, py_round kg 2 = Ok w
                  /\ Mqtt2Exist.parse_dict rt cfg now (PyDict m) = Ok (ds, w, Some r))
  /\ (forall ds kg,
        Mqtt2Exit.resolve_date rt now (PyDict m) = Ok ds ->
        Mqtt2Exit.resolve_weight rt (PyDict m) = Ok kg ->
        exists w, py_round kg 2 = Ok w
                  /\ Mqtt2Exit.parse_dict rt now (PyDict m) = Ok (ds, w, Some r)).
Proof.
  intros Hfat. destruct (py_round_2_total (x / 100)) as (r & Hr).
  exists r. split; [exact Hr|].
  assert (He : Mqtt2Exist.resolve_fat rt (PyDict m) = Ok (Some r)).
  { unfold Mqtt2Exist.resolve_fat. autorewrite with py. unfold field.
    rewrite Hfat. simpl. now rewrite Hr. }
  split; [exact He|]. split.
  - intros ds kg Hd Hw. now apply exist_parse_dict_total.
  - intros ds kg Hd Hw. destruct (py_round_2_total kg) as (w & Hrw).
    exists w. split; [exact Hrw|].
    apply (exit_parse_dict_ok rt now _ ds kg w (Some r) Hd Hw Hrw).
    exists (x / 100)%float. split; [|exact Hr].
    apply (exit_resolve_fat_percent rt m (PyFloat x) Hfat). apply float_truediv_100.
Qed.

(** A payload whose [fat] is 150. *)
Lemma X4_fat_not_range_checked_witness :
  exists r, py_round (150 / 100) 2 = Ok r
  /\ Mqtt2Exist.resolve_fat Fixture.runtime
       (PyDict (<["fat" := PyFloat 150]> Fixture.d_weight_only)) = Ok (Some r)
  /\ (forall ds kg,
        Mqtt2Exist.resolve_date Fixture.runtime Fixture.cfg Fixture.today
          (PyDict (<["fat" := PyFloat 150]> Fixture.d_weight_only)) = Ok ds ->
        Mqtt2Exist.resolve_weight Fixture.runtime
          (PyDict (<["fat" := PyFloat 150]> Fixture.d_weight_only)) = Ok kg ->
        exists w, py_round kg 2 = Ok w
                  /\ Mqtt2Exist.parse_dict Fixture.runtime Fixture.cfg Fixture.today
                       (PyDict (<["fat" := PyFloat 150]> Fixture.d_weight_only))
                     = Ok (ds, w, Some r))
  /\ (forall ds kg,
        Mqtt2Exit.resolve_date Fixture.runtime Fixture.today
          (PyDict (<["fat" := PyFloat 150]> Fixture.d_weight_only)) = Ok ds ->
        Mqtt2Exit.resolve_weight Fixture.runtime
          (PyDict (<["fat" := PyFloat 150]> Fixture.d_weight_only)) = Ok kg ->
        exists w, py_round kg 2 = Ok w
                  /\ Mqtt2Exit.parse_dict Fixture.runtime Fixture.today
                       (PyDict (<["fat" := PyFloat 150]> Fixture.d_weight_only))
                     = Ok (ds, w, Some r)).
Proof.
  exact (X4_fat_not_range_checked Fixture.runtime Fixture.cfg Fixture.today
           (<["fat" := PyFloat 150]> Fixture.d_weight_only) 150%float eq_refl).
Defined.

(** Fat readings of 150, -5 and infinity give the fractions 1.5, -0.05 and
    infinity. *)
Example fat_out_of_range :
  Mqtt2Exist.parse_dict Fixture.runtime Fixture.cfg Fixture.today
    (PyDict (<["fat" := PyFloat 150]> Fixture.d_weight_only))
  = Ok (Fixture.today, 84.75, Some 1.5)%float
  /\ Mqtt2Exit.parse_dict Fixture.runtime Fixture.today
       (PyDict (<["fat" := PyFloat (-5)]> Fixture.d_weight_only))
     = Ok (Fixture.today, 84.75, Some (-0.05))%float
  /\ Mqtt2Exist.parse_dict Fixture.runtime Fixture.cfg Fixture.today
       (PyDict (<["fat" := PyFloat infinity]> Fixture.d_weight_only))
     = Ok (Fixture.today, 84.75, Some infinity)%float.
Proof. vm_compute. repeat split; reflexivity. Qed.

(** X5: a [date] that is true hides [timestamp] and [ts].  Whatever
    value either of the two keys is given, both scripts return what they
    return without it: there is no fall-back to them, also when the [date]
    cannot be parsed. *)
Theorem X5_date_hides_timestamp (rt : Runtime) (cfg : Mqtt2Exist.Config)
    (now : instant rt) (m : gmap string pyval) (k : string) (v : pyval) :
  truthy (field m "date") = true ->
  k = "timestamp" \/ k = "ts" ->
  Mqtt2Exist.parse_dict rt cfg now (PyDict (<[k := v]> m))
  = Mqtt2Exist.parse_dict rt cfg now (PyDict m)
  /\ Mqtt2Exit.parse_dict rt now (PyDict (<[k := v]> m))
     = Mqtt2Exit.parse_dict rt now (PyDict m).
Proof.
  intros Ht Hk.
  assert (Hne : forall j, In j ["date"; "weight"; "weight_kg"; "unit"; "fat"] ->
                          <[k := v]> m !! j = m !! j).
  { intros j Hj. apply lookup_insert_ne. intros <-.
    destruct Hk as [-> | ->]; simpl in Hj;
      repeat (destruct Hj as [Hj | Hj]; [discriminate Hj|]); exact Hj. }
  assert (Hw : weight_field (<[k := v]> m) = weight_field m).
  { apply weight_field_ext; apply Hne; simpl; tauto. }
  apply parse_dict_congr.
  - unfold first_truthy_date, py_or, field. rewrite (Hne "date") by (simpl; tauto).
    fold (field m "date"). now rewrite Ht.
  - now rewrite Hw.
  - now rewrite Hw.
  - apply Hne; simpl; tauto.
  - apply Hne; simpl; tauto.
Qed.

(** The payload of the specification with a [timestamp] added. *)
Lemma X5_date_hides_timestamp_witness :
  Mqtt2Exist.parse_dict Fixture.runtime Fixture.cfg Fixture.today
    (PyDict (<["timestamp" := PyInt 0]> Fixture.d_spec))
  = Mqtt2Exist.parse_dict Fixture.runtime Fixture.cfg Fixture.today (PyDict Fixture.d_spec)
  /\ Mqtt2Exit.parse_dict Fixture.runtime Fixture.today
       (PyDict (<["timestamp" := PyInt 0]> Fixture.d_spec))
     = Mqtt2Exit.parse_dict Fixture.runtime Fixture.today (PyDict Fixture.d_spec).
Proof.
  exact (X5_date_hides_timestamp Fixture.runtime Fixture.cfg Fixture.today Fixture.d_spec
           "timestamp" (PyInt 0) eq_refl (or_introl eq_refl)).
Defined.

(** X6: [parse_payload] reads the keys [date], [timestamp], [ts],
    [weight], [weight_kg], [unit] and [fat], and no other: two objects
    that agree on these seven keys get the same result, record or
    exception, in both scripts. *)
Theorem X6_other_keys_ignored (rt : Runtime) (cfg : Mqtt2Exist.Config)
    (now : instant rt) (m1 m2 : gmap string pyval) :
  (forall k, In k payload_keys -> m1 !! k = m2 !! k) ->
  Mqtt2Exist.parse_dict rt cfg now (PyDict m1) = Mqtt2Exist.parse_dict rt cfg now (PyDict m2)
  /\ Mqtt2Exit.parse_dict rt now (PyDict m1) = Mqtt2Exit.parse_dict rt now (PyDict m2).
Proof.
  intros H.
  assert (Hw : weight_field m1 = weight_field m2).
  { apply weight_field_ext; apply H; simpl; tauto. }
  apply parse_dict_congr.
  - apply first_truthy_date_ext; apply H; simpl; tauto.
  - now rewrite Hw.
  - now rewrite Hw.
  - apply H; simpl; tauto.
  - apply H; simpl; tauto.
Qed.

(** The payload of the specification with a [battery] field. *)
Lemma X6_other_keys_ignored_witness :
  Mqtt2Exist.parse_dict Fixture.runtime Fixture.cfg Fixture.today
    (PyDict (<["battery" := PyInt 3]> Fixture.d_spec))
  = Mqtt2Exist.parse_dict Fixture.runtime Fixture.cfg Fixture.today (PyDict Fixture.d_spec)
  /\ Mqtt2Exit.parse_dict Fixture.runtime Fixture.today
       (PyDict (<["battery" := PyInt 3]> Fixture.d_spec))
     = Mqtt2Exit.parse_dict Fixture.runtime Fixture.today (PyDict Fixture.d_spec).
Proof.
  apply (X6_other_keys_ignored Fixture.runtime Fixture.cfg Fixture.today
           (<["battery" := PyInt 3]> Fixture.d_spec) Fixture.d_spec).
  intros k Hk. simpl in Hk.
  repeat (destruct Hk as [<- | Hk]; [reflexivity|]). destruct Hk.
Defined.

(** * The offset rewrite, on any string *)

(** A string of at least [n] characters ends in [n] characters. *)
Lemma string_split_end (n : nat) (s : string) :
  (n <= String.length s)%nat ->
  exists p t, s = p +:+ t /\ String.length t = n.
Proof.
  induction s as [|c s IH]; intros Hn.
  - exists "", "". split; [reflexivity|]. simpl in Hn. simpl. lia.
  - destruct (Nat.eq_dec n (String.length (String c s))) as [-> | Hne].
    + exists "", (String c s). split; reflexivity.
    + destruct IH as (p & t & -> & Ht); [simpl in Hn, Hne; lia|].
      exists (String c p), t. split; [reflexivity | exact Ht].
Qed.

(** The strings on which the test of [to_local_date] fires end in five
    characters, the first a sign and the third no colon. *)
Lemma offset_without_colon_inv (s : string) :
  offset_without_colon s = true ->
  exists p sg h1 h2 m1 m2, s = p +:+ offset_basic sg h1 h2 m1 m2.
Proof.
  intros H. unfold offset_without_colon in H.
  destruct (Nat.leb_spec 5 (String.length s)) as [Hlen|]; [|discriminate H].
  destruct (string_split_end 5 s Hlen) as (p & t & -> & Ht).
  destruct t as [|sg [|h1 [|h2 [|m1 [|m2 [|? ?]]]]]]; try discriminate Ht.
  now exists p, sg, h1, h2, m1, m2.
Qed.

(** X7: the rewrite of an offset is applied once.  On every string [s] on
    which the test [len(s) >= 5 and s[-5] in "+-" and s[-3] != ":"] holds,
    the rewritten string [s[:-2] + ":" + s[-2:]] is one character longer,
    fails the test, and resolves in both scripts to what [s] resolves
    to. *)
Theorem X7_offset_rewritten_once (rt : Runtime) (cfg : Mqtt2Exist.Config)
    (now : instant rt) (s : string) :
  offset_without_colon s = true ->
  offset_without_colon (insert_colon s) = false
  /\ String.length (insert_colon s) = S (String.length s)
  /\ Mqtt2Exist.to_local_date rt cfg now (PyStr (insert_colon s))
     = Mqtt2Exist.to_local_date rt cfg now (PyStr s)
  /\ Mqtt2Exit.to_local_date rt now (PyStr (insert_colon s))
     = Mqtt2Exit.to_local_date rt now (PyStr s).
Proof.
  intros H.
  assert (Hk : offset_without_colon (insert_colon s) = false).
  { destruct (offset_without_colon_inv s H) as (p & sg & h1 & h2 & m1 & m2 & ->).
    rewrite insert_colon_basic. apply offset_extended_kept. }
  split; [exact Hk|]. split.
  - destruct (offset_without_colon_inv s H) as (p & sg & h1 & h2 & m1 & m2 & ->).
    rewrite insert_colon_basic, !length_append. simpl. lia.
  - unfold Mqtt2Exist.to_local_date, Mqtt2Exit.to_local_date, py_str.
    rewrite Hk, H. split; reflexivity.
Qed.

(** A time with seconds and the offset [+0530]. *)
Lemma X7_offset_rewritten_once_witness :
  offset_without_colon (insert_colon "2025-11-04T07:11:30+0530") = false
  /\ String.length (insert_colon "2025-11-04T07:11:30+0530")
     = S (String.length "2025-11-04T07:11:30+0530")
  /\ Mqtt2Exist.to_local_date Fixture.runtime Fixture.cfg Fixture.today
       (PyStr (insert_colon "2025-11-04T07:11:30+0530"))
     = Mqtt2Exist.to_local_date Fixture.runtime Fixture.cfg Fixture.today
         (PyStr "2025-11-04T07:11:30+0530")
  /\ Mqtt2Exit.to_local_date Fixture.runtime Fixture.today
       (PyStr (insert_colon "2025-11-04T07:11:30+0530"))
     = Mqtt2Exit.to_local_date Fixture.runtime Fixture.today
         (PyStr "2025-11-04T07:11:30+0530").
Proof.
  exact (X7_offset_rewritten_once Fixture.runtime Fixture.cfg Fixture.today
           "2025-11-04T07:11:30+0530" eq_refl).
Defined.

(** The test looks at two characters only: it leaves a plain date alone,
    and fires on a date whose month is written with one digit. *)
Example offset_rewrite_misfires :
  offset_without_colon "2025-11-04" = false
  /\ offset_without_colon "2025-1-04" = true
  /\ insert_colon "2025-1-04" = "2025-1-:04"
  /\ insert_colon "2025-11-04T07:11:30+0530" = "2025-11-04T07:11:30+05:30".
Proof. vm_compute. repeat split; reflexivity. Qed.

(** * What a run adds to the world *)

Lemma grows_refl (n : nat) (wd : world) : grows n wd wd.
Proof.
  split; [|split]; [exists [] | exists [] | reflexivity].
  - split; [now rewrite app_nil_r | simpl; lia].
  - now rewrite app_nil_r.
Qed.

Lemma grows_trans (n k : nat) (a b c : world) :
  grows n a b -> grows k b c -> grows (n + k) a c.
Proof.
  intros ((r1 & Hp1 & Hl1) & (l1 & Hg1) & Hs1) ((r2 & Hp2 & Hl2) & (l2 & Hg2) & Hs2).
  split; [|split].
  - exists (r1 ++ r2)%list. rewrite Hp2, Hp1, <- app_assoc, length_app.
    split; [reflexivity | lia].
  - exists (l1 ++ l2)%list. now rewrite Hg2, Hg1, <- app_assoc.
  - now rewrite Hs2.
Qed.

Lemma grows_le (n k : nat) (a b : world) : (n <= k)%nat -> grows n a b -> grows k a b.
Proof.
  intros Hle ((r & Hp & Hl) & Hg & Hs). split; [|split]; [|assumption..].
  exists r. split; [exact Hp | lia].
Qed.

Lemma logging_grows (lvl : log_level) (f : string) (a : list log_arg) :
  M_grows 0 (logging lvl f a).
Proof.
  intros wd. split; [|split]; [exists [] | eexists | reflexivity]; simpl.
  - split; [now rewrite app_nil_r | lia].
  - reflexivity.
Qed.

Lemma post_grows (rt : Runtime) (rq : request) : M_grows 1 (post rt rq).
Proof.
  intros wd. split; [|split]; [exists [rq] | exists [] | reflexivity]; simpl.
  - split; [reflexivity | lia].
  - now rewrite app_nil_r.
Qed.

Lemma raise_grows {A : Type} (e : exn) : M_grows 0 (raise (A := A) e).
Proof. intros wd. apply grows_refl. Qed.

Lemma lift_grows {A : Type} (r : result A) : M_grows 0 (lift r).
Proof. intros wd. apply grows_refl. Qed.

Lemma mret_grows {A : Type} (a : A) : M_grows 0 (mret a : M A).
Proof. intros wd. apply grows_refl. Qed.

Lemma M_grows_le {A : Type} (n k : nat) (c : M A) :
  (n <= k)%nat -> M_grows n c -> M_grows k c.
Proof. intros Hle H wd. apply (grows_le n k); [exact Hle | apply H]. Qed.

Lemma bind_grows {A B : Type} (n k : nat) (c : M A) (f : A -> M B) :
  M_grows n c -> (forall a, M_grows k (f a)) -> M_grows (n + k) (c ≫= f).
Proof.
  intros Hc Hf wd. unfold mbind, M_bind. specialize (Hc wd).
  destruct (c wd) as [[a|e] wd'].
  - apply (grows_trans n k _ wd'); [exact Hc | apply Hf].
  - apply (grows_le n); [lia | exact Hc].
Qed.

Lemma try_except_grows {A : Type} (n k : nat) (body : M A) (handler : exn -> M A) :
  M_grows n body -> (forall e, M_grows k (handler e)) ->
  M_grows (n + k) (try_except body handler).
Proof.
  intros Hb Hh wd. unfold try_except. specialize (Hb wd).
  destruct (body wd) as [[a|e] wd'].
  - apply (grows_le n); [lia | exact Hb].
  - apply (grows_trans n k _ wd'); [exact Hb | apply Hh].
Qed.

Section Frame.
Context (rt : Runtime) (cfg : Mqtt2Exist.Config) (xcfg : Mqtt2Exit.Config).

Lemma exist_post_exist_grows (ds : string) (w : float) (fat : option float) :
  M_grows 1 (Mqtt2Exist.post_exist rt cfg ds w fat).
Proof.
  unfold Mqtt2Exist.post_exist.
  destruct (negb _); [apply (M_grows_le 0); [lia | apply raise_grows]|].
  apply (bind_grows 0 1); [apply logging_grows|]. intros _.
  apply (bind_grows 1 0); [apply post_grows|]. intros r.
  destruct (negb _); [apply raise_grows|].
  apply (try_except_grows 0 0); [|intros e; apply logging_grows].
  apply (bind_grows 0 0); [apply lift_grows | intros j; apply logging_grows].
Qed.

Lemma exit_post_exist_grows (ds : string) (w : float) (fat : option float) :
  M_grows 1 (Mqtt2Exit.post_exist rt xcfg ds w fat).
Proof.
  unfold Mqtt2Exit.post_exist.
  destruct (negb _); [apply (M_grows_le 0); [lia | apply raise_grows]|].
  apply (bind_grows 1 0); [apply post_grows|]. intros r.
  destruct (negb _); [apply raise_grows|].
  apply (bind_grows 0 0); [apply lift_grows | intros j; apply logging_grows].
Qed.

Lemma exist_process_grows (now : instant rt) (payload : string) :
  M_grows 1 (Mqtt2Exist.process rt cfg now payload).
Proof.
  unfold Mqtt2Exist.process.
  apply (bind_grows 0 1); [apply lift_grows|]. intros [[ds w] fat].
  apply (bind_grows 0 1); [apply logging_grows|]. intros _.
  apply exist_post_exist_grows.
Qed.

Lemma exit_process_grows (now : instant rt) (payload : string) :
  M_grows 1 (Mqtt2Exit.process rt xcfg now payload).
Proof.
  unfold Mqtt2Exit.process.
  apply (bind_grows 0 1); [apply lift_grows|]. intros [[ds w] fat].
  apply exit_post_exist_grows.
Qed.

Lemma exist_on_message_grows (now : instant rt) (msg : mqtt_msg) :
  M_grows 1 (Mqtt2Exist.on_message rt cfg now msg).
Proof.
  unfold Mqtt2Exist.on_message.
  apply (bind_grows 0 1); [apply logging_grows|]. intros _.
  apply (try_except_grows 1 0); [apply exist_process_grows|].
  intros e. apply logging_grows.
Qed.

Lemma exit_on_message_grows (now : instant rt) (msg : mqtt_msg) :
  M_grows 1 (Mqtt2Exit.on_message rt xcfg now msg).
Proof.
  unfold Mqtt2Exit.on_message.
  apply (bind_grows 0 1); [apply logging_grows|]. intros _.
  apply (try_except_grows 1 0); [apply exit_process_grows|].
  intros e. apply logging_grows.
Qed.

End Frame.

Lemma loop_forever_grows {I : Type} (f : I -> mqtt_msg -> M unit)
    (evs : list (I * mqtt_msg)) :
  (forall t msg, M_grows 1 (f t msg)) ->
  M_grows (List.length evs) (loop_forever f evs).
Proof.
  intros Hf. induction evs as [|[t msg] evs IH].
  - apply mret_grows.
  - simpl loop_forever. apply (bind_grows 1 (List.length evs)); [apply Hf|].
    intros _. exact IH.
Qed.

(** * Payloads that are dropped *)

Section Dropped.
Context (rt : Runtime) (cfg : Mqtt2Exist.Config) (xcfg : Mqtt2Exit.Config).
Context (now : instant rt) (msg : mqtt_msg) (wd : world).

Lemma exist_parse_failure_dropped (e : exn) :
  Mqtt2Exist.parse_payload rt cfg now (decode_utf8_replace rt (payload msg)) = Raise e ->
  Mqtt2Exist.on_message rt cfg now msg wd
  = (Ok tt, failure_logged e (exist_received rt msg wd)).
Proof.
  intros H. rewrite exist_on_message_cases.
  now rewrite (exist_process_parse_failure rt cfg now _ e _ H).
Qed.

Lemma exit_parse_failure_dropped (e : exn) :
  Mqtt2Exit.parse_payload rt now (decode_utf8_replace rt (payload msg)) = Raise e ->
  Mqtt2Exit.on_message rt xcfg now msg wd
  = (Ok tt, failure_logged e (exit_received rt msg wd)).
Proof.
  intros H. rewrite exit_on_message_cases.
  now rewrite (exit_process_parse_failure rt xcfg now _ e _ H).
Qed.

End Dropped.

(** X8: a payload that is not JSON is dropped.  When [json.loads] raises,
    [on_message] of both scripts logs that exception as the failure and
    returns, and no request is sent. *)
Theorem X8_malformed_json_dropped (rt : Runtime) (cfg : Mqtt2Exist.Config)
    (xcfg : Mqtt2Exit.Config) (now : instant rt) (msg : mqtt_msg) (e : exn) (wd : world) :
  json_loads rt (decode_utf8_replace rt (payload msg)) = Raise e ->
  Mqtt2Exist.on_message rt cfg now msg wd
  = (Ok tt, failure_logged e (exist_received rt msg wd))
  /\ Mqtt2Exit.on_message rt xcfg now msg wd
     = (Ok tt, failure_logged e (exit_received rt msg wd))
  /\ posted (snd (Mqtt2Exist.on_message rt cfg now msg wd)) = posted wd
  /\ posted (snd (Mqtt2Exit.on_message rt xcfg now msg wd)) = posted wd.
Proof.
  intros Hl.
  assert (He : Mqtt2Exist.on_message rt cfg now msg wd
               = (Ok tt, failure_logged e (exist_received rt msg wd))).
  { apply exist_parse_failure_dropped. unfold Mqtt2Exist.parse_payload. now rewrite Hl. }
  assert (Hx : Mqtt2Exit.on_message rt xcfg now msg wd
               = (Ok tt, failure_logged e (exit_received rt msg wd))).
  { apply exit_parse_failure_dropped. unfold Mqtt2Exit.parse_payload. now rewrite Hl. }
  rewrite He, Hx. repeat split.
Qed.

(** A message that is plain text. *)
Lemma X8_malformed_json_dropped_witness :
  Mqtt2Exist.on_message Fixture.runtime Fixture.cfg Fixture.today
    (Fixture.message "scale offline") Fixture.w0
  = (Ok tt, failure_logged (ValueError "Expecting value")
              (exist_received Fixture.runtime (Fixture.message "scale offline") Fixture.w0))
  /\ Mqtt2Exit.on_message Fixture.runtime Fixture.cfg_exit Fixture.today
       (Fixture.message "scale offline") Fixture.w0
     = (Ok tt, failure_logged (ValueError "Expecting value")
                 (exit_received Fixture.runtime (Fixture.message "scale offline") Fixture.w0))
  /\ posted (snd (Mqtt2Exist.on_message Fixture.runtime Fixture.cfg Fixture.today
                    (Fixture.message "scale offline") Fixture.w0)) = []
  /\ posted (snd (Mqtt2Exit.on_message Fixture.runtime Fixture.cfg_exit Fixture.today
                    (Fixture.message "scale offline") Fixture.w0)) = [].
Proof.
  exact (X8_malformed_json_dropped Fixture.runtime Fixture.cfg Fixture.cfg_exit
           Fixture.today (Fixture.message "scale offline") (ValueError "Expecting value")
           Fixture.w0 eq_refl).
Defined.

(** X9: a payload that is JSON but not an object is dropped.  When
    [json.loads] returns an array, a string, a number, a boolean or null,
    the first [d.get] raises [AttributeError]; [on_message] of both
    scripts logs it as the failure and returns, and no request is sent. *)
Theorem X9_json_not_an_object_dropped (rt : Runtime) (cfg : Mqtt2Exist.Config)
    (xcfg : Mqtt2Exit.Config) (now : instant rt) (msg : mqtt_msg) (v : pyval) (wd : world) :
  json_loads rt (decode_utf8_replace rt (payload msg)) = Ok v ->
  (forall m, v <> PyDict m) ->
  Mqtt2Exist.on_message rt cfg now msg wd
  = (Ok tt, failure_logged AttributeError (exist_received rt msg wd))
  /\ Mqtt2Exit.on_message rt xcfg now msg wd
     = (Ok tt, failure_logged AttributeError (exit_received rt msg wd))
  /\ posted (snd (Mqtt2Exist.on_message rt cfg now msg wd)) = posted wd
  /\ posted (snd (Mqtt2Exit.on_message rt xcfg now msg wd)) = posted wd.
Proof.
  intros Hl Hv.
  assert (He : Mqtt2Exist.on_message rt cfg now msg wd
               = (Ok tt, failure_logged AttributeError (exist_received rt msg wd))).
  { apply exist_parse_failure_dropped. unfold Mqtt2Exist.parse_payload.
    rewrite Hl, bind_Ok. destruct v; try reflexivity. now destruct (Hv m). }
  assert (Hx : Mqtt2Exit.on_message rt xcfg now msg wd
               = (Ok tt, failure_logged AttributeError (exit_received rt msg wd))).
  { apply exit_parse_failure_dropped. unfold Mqtt2Exit.parse_payload.
    rewrite Hl, bind_Ok. destruct v; try reflexivity. now destruct (Hv m). }
  rewrite He, Hx. repeat split.
Qed.

(** A message that is a JSON array. *)
Lemma X9_json_not_an_object_dropped_witness :
  Mqtt2Exist.on_message Cases.runtime Fixture.cfg Fixture.today
    (Fixture.message Cases.payload_array) Fixture.w0
  = (Ok tt, failure_logged AttributeError
              (exist_received Cases.runtime (Fixture.message Cases.payload_array)
                 Fixture.w0))
  /\ Mqtt2Exit.on_message Cases.runtime Fixture.cfg_exit Fixture.today
       (Fixture.message Cases.payload_array) Fixture.w0
     = (Ok tt, failure_logged AttributeError
                 (exit_received Cases.runtime (Fixture.message Cases.payload_array)
                    Fixture.w0))
  /\ posted (snd (Mqtt2Exist.on_message Cases.runtime Fixture.cfg Fixture.today
                    (Fixture.message Cases.payload_array) Fixture.w0)) = []
  /\ posted (snd (Mqtt2Exit.on_message Cases.runtime Fixture.cfg_exit Fixture.today
                    (Fixture.message Cases.payload_array) Fixture.w0)) = [].
Proof.
  apply (X9_json_not_an_object_dropped Cases.runtime Fixture.cfg Fixture.cfg_exit
           Fixture.today (Fixture.message Cases.payload_array)
           (PyList [PyInt 1; PyInt 2]) Fixture.w0 eq_refl).
  intros m. discriminate.
Defined.

(** * The Exist client *)

Section PostExist.
Context (rt : Runtime) (cfg : Mqtt2Exist.Config) (xcfg : Mqtt2Exit.Config).
Context (ds : string) (w : float) (fat : option float) (wd : world).

(** [post_exist] of mqtt2exist.py, run to its end. *)
Lemma exist_post_exist_run :
  str_truthy (Mqtt2Exist.EXIST_TOKEN cfg) = true ->
  Mqtt2Exist.post_exist rt cfg ds w fat wd
  = let updates := Mqtt2Exist.updates_of cfg ds w fat in
    let rq := update_request (Mqtt2Exist.EXIST_TOKEN cfg) updates in
    let sent := World (logged wd ++ [LogRecord INFO "Posting to Exist.io: %s"
                                       [AUpdates updates]])
                  (posted wd ++ [rq]) (subscribed wd) in
    match requests_post rt (posted wd) rq with
    | Raise e => (Raise e, sent)
    | Ok r =>
        if accepted r then
          (Ok tt,
           World (logged sent
                  ++ [match json_body r with
                      | Ok j => LogRecord INFO "Exist response: %s" [AVal j]
                      | Raise _ => LogRecord INFO "Exist response (non-JSON): %s"
                                     [AStr (str_slice_to (text r) 300)]
                      end])
             (posted sent) (subscribed sent))
        else (Raise (update_failed r), sent)
    end.
Proof.
  intros Ht. unfold Mqtt2Exist.post_exist. rewrite Ht. simpl negb. cbv iota.
  unfold mbind, M_bind, logging_info, logging, post, raise, try_except, lift,
    update_request, accepted, update_failed.
  simpl.
  destruct (requests_post rt _ _) as [r|e]; [|reflexivity].
  destruct (Z.eqb (status_code r) 200 || Z.eqb (status_code r) 202); simpl;
    [|reflexivity].
  destruct (json_body r); reflexivity.
Qed.

(** [post_exist] of mqtt2exit.py, run to its end. *)
Lemma exit_post_exist_run :
  str_truthy (Mqtt2Exit.EXIST_TOKEN xcfg) = true ->
  Mqtt2Exit.post_exist rt xcfg ds w fat wd
  = let rq := update_request (Mqtt2Exit.EXIST_TOKEN xcfg)
                (Mqtt2Exit.updates_of ds w fat) in
    let sent := World (logged wd) (posted wd ++ [rq]) (subscribed wd) in
    match requests_post rt (posted wd) rq with
    | Raise e => (Raise e, sent)
    | Ok r =>
        if accepted r then
          match json_body r with
          | Ok j => (Ok tt,
                     World (logged sent ++ [LogRecord INFO "Exist response: %s" [AVal j]])
                       (posted sent) (subscribed sent))
          | Raise e => (Raise e, sent)
          end
        else (Raise (update_failed r), sent)
    end.
Proof.
  intros Ht. unfold Mqtt2Exit.post_exist. rewrite Ht. simpl negb. cbv iota.
  unfold mbind, M_bind, logging_info, logging, post, raise, lift,
    update_request, accepted, update_failed.
  simpl.
  destruct (requests_post rt _ _) as [r|e]; [|reflexivity].
  destruct (Z.eqb (status_code r) 200 || Z.eqb (status_code r) 202); simpl;
    [|reflexivity].
  destruct (json_body r); reflexivity.
Qed.

End PostExist.

(** X10: what [post_exist] returns, with a token.  An exception of
    [requests.post] leaves the function; a reply whose status is neither
    200 nor 202 raises the [RuntimeError] of a failed update.  On an
    accepted reply mqtt2exist.py returns whatever the body is, while
    mqtt2exit.py returns only when the body is JSON and else raises the
    decoder's exception. *)
Theorem X10_post_exist_outcome (rt : Runtime) (cfg : Mqtt2Exist.Config)
    (xcfg : Mqtt2Exit.Config) (ds : string) (w : float) (fat : option float)
    (wd : world) :
  str_truthy (Mqtt2Exist.EXIST_TOKEN cfg) = true ->
  str_truthy (Mqtt2Exit.EXIST_TOKEN xcfg) = true ->
  fst (Mqtt2Exist.post_exist rt cfg ds w fat wd)
  = match requests_post rt (posted wd)
            (update_request (Mqtt2Exist.EXIST_TOKEN cfg)
               (Mqtt2Exist.updates_of cfg ds w fat)) with
    | Raise e => Raise e
    | Ok r => if accepted r then Ok tt else Raise (update_failed r)
    end
  /\ fst (Mqtt2Exit.post_exist rt xcfg ds w fat wd)
     = match requests_post rt (posted wd)
               (update_request (Mqtt2Exit.EXIST_TOKEN xcfg)
                  (Mqtt2Exit.updates_of ds w fat)) with
       | Raise e => Raise e
       | Ok r =>
           if accepted r then
             match json_body r with Ok _ => Ok tt | Raise e => Raise e end
           else Raise (update_failed r)
       end.
Proof.
  intros Ht Hx. rewrite exist_post_exist_run, exit_post_exist_run by assumption.
  cbv zeta. split.
  - destruct (requests_post rt _ _) as [r|e]; [|reflexivity].
    destruct (accepted r); reflexivity.
  - destruct (requests_post rt _ _) as [r|e]; [|reflexivity].
    destruct (accepted r); [|reflexivity]. destruct (json_body r); reflexivity.
Qed.

(** An Exist API that answers 200 with a page of HTML. *)
Lemma X10_post_exist_outcome_witness :
  fst (Mqtt2Exist.post_exist Cases.runtime_html Fixture.cfg "2025-11-04" 84.59
         (Some 0.24%float) Fixture.w0) = Ok tt
  /\ fst (Mqtt2Exit.post_exist Cases.runtime_html Fixture.cfg_exit "2025-11-04" 84.59
            (Some 0.24%float) Fixture.w0) = Raise (ValueError "Expecting value").
Proof.
  exact (X10_post_exist_outcome Cases.runtime_html Fixture.cfg Fixture.cfg_exit
           "2025-11-04" 84.59%float (Some 0.24%float) Fixture.w0 eq_refl eq_refl).
Defined.

(** [s[:n]] is a prefix of [s], of [n] characters when [s] has as many. *)
Lemma substring_0_prefix (k : nat) (s : string) :
  exists rest, s = String.substring 0 k s +:+ rest
    /\ String.length (String.substring 0 k s) = Nat.min k (String.length s).
Proof.
  revert k. induction s as [|c s IH]; intros k.
  - exists "". destruct k; split; reflexivity.
  - destruct k as [|k].
    + exists (String c s). split; reflexivity.
    + destruct (IH k) as (rest & Hs & Hl). exists rest. split.
      * change (String c s = String c (String.substring 0 k s +:+ rest)). now rewrite <- Hs.
      * simpl. now rewrite Hl.
Qed.

Lemma str_slice_to_prefix (s : string) (n : Z) :
  0 <= n ->
  exists rest, s = str_slice_to s n +:+ rest
    /\ String.length (str_slice_to s n) = Nat.min (Z.to_nat n) (String.length s).
Proof.
  intros Hn. unfold str_slice_to.
  destruct (substring_0_prefix (slice_bound s n) s) as (rest & Hs & Hl).
  exists rest. split; [exact Hs|]. rewrite Hl. unfold slice_bound.
  destruct (Z.ltb_spec n 0); lia.
Qed.

(** X11: the error of a rejected update.  When the reply has a status
    other than 200 and 202, [post_exist] of either script raises a
    [RuntimeError] whose message is "Exist update failed ", the status, ": "
    and the body of the reply cut after its first 300 characters. *)
Theorem X11_rejection_message (rt : Runtime) (cfg : Mqtt2Exist.Config)
    (xcfg : Mqtt2Exit.Config) (ds : string) (w : float) (fat : option float)
    (wd : world) :
  str_truthy (Mqtt2Exist.EXIST_TOKEN cfg) = true ->
  str_truthy (Mqtt2Exit.EXIST_TOKEN xcfg) = true ->
  (forall r,
     requests_post rt (posted wd)
       (update_request (Mqtt2Exist.EXIST_TOKEN cfg) (Mqtt2Exist.updates_of cfg ds w fat))
     = Ok r ->
     accepted r = false ->
     exists body rest,
       fst (Mqtt2Exist.post_exist rt cfg ds w fat wd)
       = Raise (RuntimeError ("Exist update failed " +:+ pretty (status_code r)
                              +:+ ": " +:+ body))
       /\ text r = body +:+ rest
       /\ String.length body = Nat.min 300 (String.length (text r)))
  /\ (forall r,
        requests_post rt (posted wd)
          (update_request (Mqtt2Exit.EXIST_TOKEN xcfg) (Mqtt2Exit.updates_of ds w fat))
        = Ok r ->
        accepted r = false ->
        exists body rest,
          fst (Mqtt2Exit.post_exist rt xcfg ds w fat wd)
          = Raise (RuntimeError ("Exist update failed " +:+ pretty (status_code r)
                                 +:+ ": " +:+ body))
          /\ text r = body +:+ rest
          /\ String.length body = Nat.min 300 (String.length (text r))).
Proof.
  intros Ht Hx. split; intros r Hr Ha;
    destruct (str_slice_to_prefix (text r) 300) as (rest & Hs & Hl); try lia;
    exists (str_slice_to (text r) 300), rest.
  - rewrite exist_post_exist_run by exact Ht. cbv zeta. rewrite Hr, Ha.
    split; [reflexivity|]. split; [exact Hs | exact Hl].
  - rewrite exit_post_exist_run by exact Hx. cbv zeta. rewrite Hr, Ha.
    split; [reflexivity|]. split; [exact Hs | exact Hl].
Qed.

(** An Exist API that answers 500. *)
Lemma X11_rejection_message_witness :
  exists body rest,
    fst (Mqtt2Exist.post_exist Fixture.runtime_rejecting Fixture.cfg "2025-11-04" 84.59
           None Fixture.w0)
    = Raise (RuntimeError ("Exist update failed " +:+ pretty 500 +:+ ": " +:+ body))
    /\ "Internal Server Error" = body +:+ rest
    /\ String.length body = Nat.min 300 (String.length "Internal Server Error").
Proof.
  exact (proj1 (X11_rejection_message Fixture.runtime_rejecting Fixture.cfg Fixture.cfg_exit
                  "2025-11-04" 84.59%float None Fixture.w0 eq_refl eq_refl)
           (Response 500 "Internal Server Error" (Raise (ValueError "Expecting value")))
           eq_refl eq_refl).
Defined.

(** * The run of a script *)

Lemma grows_0_posted (a b : world) : grows 0 a b -> posted b = posted a.
Proof.
  intros ((rqs & Hp & Hl) & _). destruct rqs; [|simpl in Hl; lia].
  now rewrite Hp, app_nil_r.
Qed.

Lemma loop_forever_quiet {I : Type} (f : I -> mqtt_msg -> M unit)
    (evs : list (I * mqtt_msg)) :
  (forall t msg, M_grows 0 (f t msg)) -> M_grows 0 (loop_forever f evs).
Proof.
  intros Hf. induction evs as [|[t msg] evs IH].
  - apply mret_grows.
  - simpl loop_forever. apply (bind_grows 0 0); [apply Hf|]. intros _. exact IH.
Qed.

(** A statement that returns hands its world to the next. *)
Lemma seq_run {A : Type} (c : M unit) (k : M A) (wd : world) :
  fst (c wd) = Ok tt -> (c ≫= fun _ => k) wd = k (snd (c wd)).
Proof.
  unfold mbind, M_bind. destruct (c wd) as [[[]|e] w']; simpl;
    [reflexivity | discriminate].
Qed.

Section Run.
Context (rt : Runtime) (cfg : Mqtt2Exist.Config) (xcfg : Mqtt2Exit.Config).

(** Without a token [post_exist] raises at once. *)
Lemma exist_on_message_quiet (now : instant rt) (msg : mqtt_msg) :
  str_truthy (Mqtt2Exist.EXIST_TOKEN cfg) = false ->
  M_grows 0 (Mqtt2Exist.on_message rt cfg now msg).
Proof.
  intros Ht. unfold Mqtt2Exist.on_message.
  apply (bind_grows 0 0); [apply logging_grows|]. intros _.
  apply (try_except_grows 0 0); [|intros e; apply logging_grows].
  unfold Mqtt2Exist.process.
  apply (bind_grows 0 0); [apply lift_grows|]. intros [[ds w] fat].
  apply (bind_grows 0 0); [apply logging_grows|]. intros _.
  unfold Mqtt2Exist.post_exist. rewrite Ht. apply raise_grows.
Qed.

Lemma exit_on_message_quiet (now : instant rt) (msg : mqtt_msg) :
  str_truthy (Mqtt2Exit.EXIST_TOKEN xcfg) = false ->
  M_grows 0 (Mqtt2Exit.on_message rt xcfg now msg).
Proof.
  intros Ht. unfold Mqtt2Exit.on_message.
  apply (bind_grows 0 0); [apply logging_grows|]. intros _.
  apply (try_except_grows 0 0); [|intros e; apply logging_grows].
  unfold Mqtt2Exit.process.
  apply (bind_grows 0 0); [apply lift_grows|]. intros [[ds w] fat].
  unfold Mqtt2Exit.post_exist. rewrite Ht. apply raise_grows.
Qed.

(** [on_connect] returns, sends nothing, and subscribes when [rc] is 0. *)
Lemma exist_on_connect_run (rc : Z) (wd : world) :
  fst (Mqtt2Exist.on_connect cfg rc wd) = Ok tt
  /\ posted (snd (Mqtt2Exist.on_connect cfg rc wd)) = posted wd
  /\ subscribed (snd (Mqtt2Exist.on_connect cfg rc wd))
     = (subscribed wd
        ++ if Z.eqb rc 0 then [(Mqtt2Exist.MQTT_TOPIC cfg, 1)] else [])%list.
Proof.
  unfold Mqtt2Exist.on_connect. destruct (Z.eqb rc 0); simpl.
  - repeat split.
  - rewrite app_nil_r. repeat split.
Qed.

Lemma exit_on_connect_run (rc : Z) (wd : world) :
  fst (Mqtt2Exit.on_connect rc wd) = Ok tt
  /\ posted (snd (Mqtt2Exit.on_connect rc wd)) = posted wd
  /\ subscribed (snd (Mqtt2Exit.on_connect rc wd))
     = (subscribed wd ++ if Z.eqb rc 0 then [(Mqtt2Exit.MQTT_TOPIC, 1)] else [])%list.
Proof.
  unfold Mqtt2Exit.on_connect. destruct (Z.eqb rc 0); simpl.
  - repeat split.
  - rewrite app_nil_r. repeat split.
Qed.

(** [main] of mqtt2exist.py with a token: some logging, then the
    connection, [on_connect] and the loop. *)
Lemma exist_main_run (session : Session rt) (wd : world) :
  str_truthy (Mqtt2Exist.EXIST_TOKEN cfg) = true ->
  exists w1, grows 0 wd w1
    /\ Mqtt2Exist.main rt cfg session wd
       = match connect session with
         | Raise e => (Raise e, w1)
         | Ok rc => loop_forever (Mqtt2Exist.on_message rt cfg) (deliveries session)
                      (snd (Mqtt2Exist.on_connect cfg rc w1))
         end.
Proof.
  intros Ht. unfold Mqtt2Exist.main. rewrite Ht.
  change (negb true) with false. cbv iota.
  set (a := if str_truthy (Mqtt2Exist.MQTT_USERNAME cfg)
            then logging_info "Using MQTT username authentication" []
            else mret tt).
  set (b := if Mqtt2Exist.MQTT_TLS cfg then logging_info "Enabling MQTT TLS" []
            else mret tt).
  assert (Ha : forall w, fst (a w) = Ok tt /\ grows 0 w (snd (a w))).
  { intros w. subst a. destruct (str_truthy (Mqtt2Exist.MQTT_USERNAME cfg));
      split; try reflexivity;
      [apply logging_grows | apply mret_grows]. }
  assert (Hb : forall w, fst (b w) = Ok tt /\ grows 0 w (snd (b w))).
  { intros w. subst b. destruct (Mqtt2Exist.MQTT_TLS cfg); split; try reflexivity;
      [apply logging_grows | apply mret_grows]. }
  rewrite (seq_run a) by apply Ha. rewrite (seq_run b) by apply Hb.
  rewrite seq_run by reflexivity.
  set (w1 := snd (logging_info "Connecting to MQTT broker %s:%s (TLS=%s)" _ _)).
  exists w1. split.
  - apply (grows_trans 0 0 _ (snd (a wd))); [apply Ha|].
    apply (grows_trans 0 0 _ (snd (b (snd (a wd))))); [apply Hb | apply logging_grows].
  - unfold mbind, M_bind, lift.
    destruct (connect session) as [rc|e]; [|reflexivity].
    destruct (exist_on_connect_run rc w1) as (Ec & _).
    destruct (Mqtt2Exist.on_connect cfg rc w1) as [[[]|?] wc];
      [reflexivity | discriminate Ec].
Qed.

Lemma exit_main_run (session : Session rt) (wd : world) :
  Mqtt2Exit.main rt xcfg session wd
  = match connect session with
    | Raise e => (Raise e, wd)
    | Ok rc => loop_forever (Mqtt2Exit.on_message rt xcfg) (deliveries session)
                 (snd (Mqtt2Exit.on_connect rc wd))
    end.
Proof.
  unfold Mqtt2Exit.main, mbind, M_bind, lift.
  destruct (connect session) as [rc|e]; [|reflexivity].
  destruct (exit_on_connect_run rc wd) as (Ec & _).
  destruct (Mqtt2Exit.on_connect rc wd) as [[[]|?] wc]; [reflexivity|discriminate Ec].
Qed.

End Run.

(** X12: without a token no request is ever sent.  When [EXIST_TOKEN] is
    unset or empty, [on_message] of either script sends nothing for any
    message (the failure of [post_exist] is logged), [main] of
    mqtt2exist.py raises before anything is logged or sent, and a whole
    run of mqtt2exit.py, whatever the broker delivers, leaves the requests
    as they were. *)
Theorem X12_no_token_nothing_sent (rt : Runtime) (cfg : Mqtt2Exist.Config)
    (xcfg : Mqtt2Exit.Config) :
  str_truthy (Mqtt2Exist.EXIST_TOKEN cfg) = false ->
  str_truthy (Mqtt2Exit.EXIST_TOKEN xcfg) = false ->
  (forall now msg wd,
     posted (snd (Mqtt2Exist.on_message rt cfg now msg wd)) = posted wd)
  /\ (forall now msg wd,
        posted (snd (Mqtt2Exit.on_message rt xcfg now msg wd)) = posted wd)
  /\ (forall session wd, snd (Mqtt2Exist.main rt cfg session wd) = wd)
  /\ (forall session wd,
        posted (snd (Mqtt2Exit.main rt xcfg session wd)) = posted wd).
Proof.
  intros Ht Hx. split; [|split; [|split]].
  - intros now msg wd. apply grows_0_posted. now apply exist_on_message_quiet.
  - intros now msg wd. apply grows_0_posted. now apply exit_on_message_quiet.
  - intros session wd. now rewrite exist_main_without_token.
  - intros session wd. rewrite exit_main_run.
    destruct (connect session) as [rc|e]; [|reflexivity].
    destruct (exit_on_connect_run rc wd) as (_ & Hp & _). rewrite <- Hp.
    apply grows_0_posted. apply loop_forever_quiet.
    intros t msg. now apply exit_on_message_quiet.
Qed.

(** mqtt2exit.py without a token, given the payload of the
    specification. *)
Lemma X12_no_token_nothing_sent_witness :
  posted (snd (Mqtt2Exit.main Fixture.runtime Cases.cfg_exit_no_token
                 (Fixture.session Fixture.payload_spec) Fixture.w0)) = [].
Proof.
  exact (proj2 (proj2 (proj2 (X12_no_token_nothing_sent Fixture.runtime Cases.cfg_no_token
                                 Cases.cfg_exit_no_token eq_refl eq_refl)))
           (Fixture.session Fixture.payload_spec) Fixture.w0).
Defined.

(** X13: a message costs at most one request.  Whatever the message,
    [on_message] of either script appends to the log, sends at most one
    request and subscribes to nothing; so the loop over [n] deliveries
    sends at most [n] requests, appended to those sent before. *)
Theorem X13_one_request_per_message (rt : Runtime) (cfg : Mqtt2Exist.Config)
    (xcfg : Mqtt2Exit.Config) :
  (forall now msg wd, grows 1 wd (snd (Mqtt2Exist.on_message rt cfg now msg wd)))
  /\ (forall now msg wd, grows 1 wd (snd (Mqtt2Exit.on_message rt xcfg now msg wd)))
  /\ (forall evs wd,
        grows (List.length evs) wd
          (snd (loop_forever (Mqtt2Exist.on_message rt cfg) evs wd)))
  /\ (forall evs wd,
        grows (List.length evs) wd
          (snd (loop_forever (Mqtt2Exit.on_message rt xcfg) evs wd))).
Proof.
  split; [|split; [|split]].
  - intros now msg. apply exist_on_message_grows.
  - intros now msg. apply exit_on_message_grows.
  - intros evs. apply loop_forever_grows. intros t msg. apply exist_on_message_grows.
  - intros evs. apply loop_forever_grows. intros t msg. apply exit_on_message_grows.
Qed.

(** X14: what [main] does with the broker.  With a token in
    mqtt2exist.py, and always in mqtt2exit.py: an exception of
    [client.connect] leaves [main], with nothing subscribed and nothing
    sent; when the connection is answered with the return code [rc],
    [main] ends normally with the deliveries, has subscribed once, to the
    configured topic with QoS 1, exactly when [rc] is 0, and has sent at
    most one request per delivery. *)
Theorem X14_main_run (rt : Runtime) (cfg : Mqtt2Exist.Config)
    (xcfg : Mqtt2Exit.Config) (session : Session rt) (wd : world) :
  str_truthy (Mqtt2Exist.EXIST_TOKEN cfg) = true ->
  (forall e, connect session = Raise e ->
     fst (Mqtt2Exist.main rt cfg session wd) = Raise e
     /\ posted (snd (Mqtt2Exist.main rt cfg session wd)) = posted wd
     /\ subscribed (snd (Mqtt2Exist.main rt cfg session wd)) = subscribed wd
     /\ Mqtt2Exit.main rt xcfg session wd = (Raise e, wd))
  /\ (forall rc, connect session = Ok rc ->
        fst (Mqtt2Exist.main rt cfg session wd) = Ok tt
        /\ subscribed (snd (Mqtt2Exist.main rt cfg session wd))
           = (subscribed wd
              ++ if Z.eqb rc 0 then [(Mqtt2Exist.MQTT_TOPIC cfg, 1)] else [])%list
        /\ (exists rqs,
              posted (snd (Mqtt2Exist.main rt cfg session wd)) = (posted wd ++ rqs)%list
              /\ (List.length rqs <= List.length (deliveries session))%nat)
        /\ fst (Mqtt2Exit.main rt xcfg session wd) = Ok tt
        /\ subscribed (snd (Mqtt2Exit.main rt xcfg session wd))
           = (subscribed wd ++ if Z.eqb rc 0 then [(Mqtt2Exit.MQTT_TOPIC, 1)] else [])%list
        /\ (exists rqs,
              posted (snd (Mqtt2Exit.main rt xcfg session wd)) = (posted wd ++ rqs)%list
              /\ (List.length rqs <= List.length (deliveries session))%nat)).
Proof.
  intros Ht. destruct (exist_main_run rt cfg session wd Ht) as (w1 & G1 & ->).
  rewrite exit_main_run. pose proof (grows_0_posted _ _ G1) as Hp1.
  destruct G1 as (_ & _ & Hs1).
  split.
  - intros e ->. simpl. auto.
  - intros rc ->.
    destruct (exist_on_connect_run cfg rc w1) as (_ & Hpc & Hsc).
    destruct (exit_on_connect_run rc wd) as (_ & Hpx & Hsx).
    pose proof (loop_forever_grows (Mqtt2Exist.on_message rt cfg) (deliveries session)
                  (fun t msg => exist_on_message_grows rt cfg t msg)
                  (snd (Mqtt2Exist.on_connect cfg rc w1))) as ((rqs & Hq & Hl) & _ & Hs).
    pose proof (loop_forever_grows (Mqtt2Exit.on_message rt xcfg) (deliveries session)
                  (fun t msg => exit_on_message_grows rt xcfg t msg)
                  (snd (Mqtt2Exit.on_connect rc wd))) as ((rqx & Hqx & Hlx) & _ & Hsx').
    split; [apply loop_forever_returns; apply exist_on_message_returns|].
    split; [now rewrite Hs, Hsc, Hs1|].
    split; [exists rqs; split; [now rewrite Hq, Hpc, Hp1 | exact Hl]|].
    split; [apply loop_forever_returns; apply exit_on_message_returns|].
    split; [now rewrite Hsx', Hsx|].
    exists rqx. split; [now rewrite Hqx, Hpx | exact Hlx].
Qed.

(** The broker accepts the connection and delivers two messages, the
    first without a weight. *)
Lemma X14_main_run_witness :
  fst (Mqtt2Exist.main Fixture.runtime Fixture.cfg
         (Cases.session_two Fixture.runtime Fixture.today) Fixture.w0) = Ok tt
  /\ subscribed (snd (Mqtt2Exist.main Fixture.runtime Fixture.cfg
                        (Cases.session_two Fixture.runtime Fixture.today) Fixture.w0))
     = [("openScaleSync/measurements/last", 1)]
  /\ (exists rqs,
        posted (snd (Mqtt2Exist.main Fixture.runtime Fixture.cfg
                       (Cases.session_two Fixture.runtime Fixture.today) Fixture.w0))
        = rqs
        /\ (List.length rqs <= 2)%nat)
  /\ fst (Mqtt2Exit.main Fixture.runtime Fixture.cfg_exit
            (Cases.session_two Fixture.runtime Fixture.today) Fixture.w0) = Ok tt
  /\ subscribed (snd (Mqtt2Exit.main Fixture.runtime Fixture.cfg_exit
                        (Cases.session_two Fixture.runtime Fixture.today) Fixture.w0))
     = [("openScaleSync/measurements/last", 1)]
  /\ (exists rqs,
        posted (snd (Mqtt2Exit.main Fixture.runtime Fixture.cfg_exit
                       (Cases.session_two Fixture.runtime Fixture.today) Fixture.w0))
        = rqs
        /\ (List.length rqs <= 2)%nat).
Proof.
  exact (proj2 (X14_main_run Fixture.runtime Fixture.cfg Fixture.cfg_exit
                  (Cases.session_two Fixture.runtime Fixture.today) Fixture.w0 eq_refl)
           0 eq_refl).
Defined.

(** A refused connection: [main] logs the return code and subscribes to
    nothing; an unreachable broker: the exception leaves [main]. *)
Example main_without_broker :
  Mqtt2Exit.main Fixture.runtime Fixture.cfg_exit
    (Cases.session_refused Fixture.runtime Fixture.today) Fixture.w0
  = (Ok tt, World [LogRecord ERROR "MQTT connect rc=%s" [AInt 5]] [] [])
  /\ fst (Mqtt2Exist.main Fixture.runtime Fixture.cfg
            (Cases.session_unreachable Fixture.runtime) Fixture.w0)
     = Raise (LibError "ConnectionRefusedError").
Proof. vm_compute. split; reflexivity. Qed.

(** * A message handled to the end *)

Section Handled.
Context (rt : Runtime) (cfg : Mqtt2Exist.Config) (xcfg : Mqtt2Exit.Config).
Context (now : instant rt) (decoded : string) (ds : string) (w : float)
  (fat : option float) (wd : world).


Lemma exit_process_run :
  Mqtt2Exit.parse_payload rt now decoded = Ok (ds, w, fat) ->
  Mqtt2Exit.process rt xcfg now decoded wd = Mqtt2Exit.post_exist rt xcfg ds w fat wd.
Proof.
  intros H. unfold Mqtt2Exit.process, mbind, M_bind, lift. now rewrite H.
Qed.

End Handled.



(** X16: an accepted update in mqtt2exit.py.  With a token, when the
    payload parses to a record and the Exist API accepts the update, the
    request has been sent; the message is then logged as handled only when
    the body of the reply is JSON.  When it is not, the exception of
    [r.json()] is logged as a processing failure, although the update was
    accepted. *)
Theorem X16_exit_accepted_update (rt : Runtime) (xcfg : Mqtt2Exit.Config)
    (now : instant rt) (msg : mqtt_msg) (ds : string) (w : float) (fat : option float)
    (r : response) (wd : world) :
  str_truthy (Mqtt2Exit.EXIST_TOKEN xcfg) = true ->
  Mqtt2Exit.parse_payload rt now (decode_utf8_replace rt (payload msg))
  = Ok (ds, w, fat) ->
  requests_post rt (posted wd)
    (update_request (Mqtt2Exit.EXIST_TOKEN xcfg) (Mqtt2Exit.updates_of ds w fat))
  = Ok r ->
  accepted r = true ->
  Mqtt2Exit.on_message rt xcfg now msg wd
  = (Ok tt,
     World
       (logged wd
        ++ [LogRecord INFO "MQTT %s: %s"
              [AStr (topic msg); AStr (decode_utf8_replace rt (payload msg))];
            match json_body r with
            | Ok j => LogRecord INFO "Exist response: %s" [AVal j]
            | Raise e => LogRecord ERROR "Processing failed: %s" [AExn e]
            end])
       (posted wd
        ++ [update_request (Mqtt2Exit.EXIST_TOKEN xcfg) (Mqtt2Exit.updates_of ds w fat)])
       (subscribed wd)).
Proof.
  intros Ht Hp Hr Ha. rewrite exit_on_message_cases.
  rewrite (exit_process_run rt xcfg now _ ds w fat _ Hp).
  rewrite exit_post_exist_run by exact Ht. cbv zeta.
  unfold exit_received, logging_info, logging. simpl posted. simpl subscribed.
  rewrite Hr, Ha. simpl logged.
  destruct (json_body r) as [j|e]; unfold failure_logged, logging_error, logging;
    simpl; rewrite <- !app_assoc; reflexivity.
Qed.

(** The payload of the specification, accepted with a page of HTML: the
    update is sent and the message is logged as failed. *)
Lemma X16_exit_accepted_update_witness :
  Mqtt2Exit.on_message Cases.runtime_html Fixture.cfg_exit Fixture.today
    (Fixture.message Fixture.payload_spec) Fixture.w0
  = (Ok tt,
     World
       [LogRecord INFO "MQTT %s: %s"
          [AStr "openScaleSync/measurements/last"; AStr Fixture.payload_spec];
        LogRecord ERROR "Processing failed: %s" [AExn (ValueError "Expecting value")]]
       [Request EXIST_UPDATE_URL
          [("Authorization", "Bearer token"); ("Content-Type", "application/json")]
          [Update "weight" "2025-11-04" 84.59; Update "body_fat" "2025-11-04" 0.24] 30]
       []).
Proof.
  exact (X16_exit_accepted_update Cases.runtime_html Fixture.cfg_exit Fixture.today
           (Fixture.message Fixture.payload_spec) "2025-11-04" 84.59%float
           (Some 0.24%float)
           (Response 200 "<html>ok</html>" (Raise (ValueError "Expecting value")))
           Fixture.w0 eq_refl eq_refl eq_refl eq_refl).
Defined.

(** * The start of mqtt2exist.py *)



(** * A time zone that is not found *)



(** * The environment of mqtt2exit.py *)

(** X19: mqtt2exit.py reads four environment variables: [MQTT_USER],
    [MQTT_PASSWORD], [MQTT_TLS] and [EXIST_TOKEN].  Two environments that
    agree on them give the same configuration and the same run; the
    variables that mqtt2exist.py reads besides ([MQTT_HOST], [MQTT_PORT],
    [MQTT_TOPIC], [MQTT_USERNAME], [ATTR_WEIGHT], [ATTR_FAT], [LOCAL_TZ])
    change nothing. *)
Theorem X19_exit_environment (rt : Runtime) (environ environ' : gmap string string) :
  (forall k, In k exit_environ_keys -> environ !! k = environ' !! k) ->
  Mqtt2Exit.load_config environ = Mqtt2Exit.load_config environ'
  /\ (forall session wd,
        Mqtt2Exit.script rt environ session wd = Mqtt2Exit.script rt environ' session wd).
Proof.
  intros H.
  assert (E : Mqtt2Exit.load_config environ = Mqtt2Exit.load_config environ').
  { unfold Mqtt2Exit.load_config, getenv, getenv_or.
    rewrite (H "MQTT_USER"), (H "MQTT_PASSWORD"), (H "MQTT_TLS"), (H "EXIST_TOKEN")
      by (simpl; tauto).
    reflexivity. }
  split; [exact E|]. intros session wd. unfold Mqtt2Exit.script. now rewrite E.
Qed.

(** An environment that sets the topic and the user name of
    mqtt2exist.py. *)
Lemma X19_exit_environment_witness :
  Mqtt2Exit.load_config {[ "MQTT_TOPIC" := "scale"; "MQTT_USERNAME" := "me" ]}
  = Mqtt2Exit.load_config ∅
  /\ (forall session wd,
        Mqtt2Exit.script Fixture.runtime
          {[ "MQTT_TOPIC" := "scale"; "MQTT_USERNAME" := "me" ]} session wd
        = Mqtt2Exit.script Fixture.runtime ∅ session wd).
Proof.
  apply (X19_exit_environment Fixture.runtime
           {[ "MQTT_TOPIC" := "scale"; "MQTT_USERNAME" := "me" ]} ∅).
  intros k Hk. simpl in Hk.
  repeat (destruct Hk as [<- | Hk]; [reflexivity|]). destruct Hk.
Defined.

(** With [MQTT_TOPIC] and [EXIST_TOKEN] set, mqtt2exist.py subscribes to
    that topic and mqtt2exit.py to the default one. *)
Example topic_from_environment :
  subscribed (snd (Mqtt2Exist.script Fixture.runtime
                     {[ "MQTT_TOPIC" := "scale"; "EXIST_TOKEN" := "token" ]}
                     (Fixture.session Fixture.payload_spec) Fixture.w0))
  = [("scale", 1)]
  /\ subscribed (snd (Mqtt2Exit.script Fixture.runtime
                        {[ "MQTT_TOPIC" := "scale"; "EXIST_TOKEN" := "token" ]}
                        (Fixture.session Fixture.payload_spec) Fixture.w0))
     = [("openScaleSync/measurements/last", 1)].
Proof. vm_compute. split; reflexivity. Qed.

(** * A message delivered again *)

Section Redelivery.
Context (rt : Runtime) (cfg : Mqtt2Exist.Config) (xcfg : Mqtt2Exit.Config).
Context (now : instant rt) (msg : mqtt_msg) (ds : string) (w : float)
  (fat : option float).



End Redelivery.


